(** * Arraytainers: the dispatch and indexing engine of [arraytainer.py]

    A shallow embedding of the class [Arraytainer] of
    [src/arraytainers/arraytainer.py].  Python objects are the values of
    one inductive type, exceptions are the error half of a result type,
    and the recursion of the methods through nested containers is bounded
    by a recursion budget, whose exhaustion is Python's [RecursionError].

    numpy is an external library.  Its arrays are modelled on integer
    data (a shape and the elements in row-major order), with the
    wrap-around of 64-bit integers in numpy's sums; other element types
    are not part of the model.  What numpy does outside this fragment is left
    to a record of external functions, [numpy_ext], over which every
    statement is universally quantified. *)

From Stdlib Require Import ZArith String Bool Lia Arith PeanoNat List.
Import ListNotations.

Set Implicit Arguments.
Set Warnings "-register-all".

(** ** Exceptions and results *)

Inductive exn : Type :=
| ValueError (msg : string)
| KeyError (msg : string)
| TypeError (msg : string)
| IndexError (msg : string)
| AttributeError (msg : string)
| RecursionError.

Inductive result (A : Type) : Type :=
| Ok (a : A)
| Error (e : exn).

Arguments Ok {A} a.
Arguments Error {A} e.

Definition bind {A B : Type} (r : result A) (k : A -> result B) : result B :=
  match r with
  | Ok a => k a
  | Error e => Error e
  end.

Notation "'let*' x ':=' r 'in' k" := (bind r (fun x => k))
  (at level 10, x pattern, r at level 100, k at level 200).

Definition is_ok {A : Type} (r : result A) : bool :=
  match r with Ok _ => true | Error _ => false end.

(** [for x in l] with a body that may raise: the first exception wins. *)
Fixpoint mapM {A B : Type} (f : A -> result B) (l : list A) : result (list B) :=
  match l with
  | [] => Ok []
  | x :: l' =>
      let* y := f x in
      let* ys := mapM f l' in
      Ok (y :: ys)
  end.

Fixpoint foldM {A S : Type} (f : S -> A -> result S) (l : list A) (s : S)
  : result S :=
  match l with
  | [] => Ok s
  | x :: l' => let* s' := f s x in foldM f l' s'
  end.

(** ** Keys of mappings (hashable Python objects) *)

Inductive key : Type :=
| KInt (z : Z)
| KStr (s : string)
| KNone
| KTuple (l : list key).

Fixpoint key_eqb (a b : key) {struct a} : bool :=
  match a, b with
  | KInt x, KInt y => Z.eqb x y
  | KStr x, KStr y => String.eqb x y
  | KNone, KNone => true
  | KTuple la, KTuple lb =>
      (fix go (la lb : list key) {struct la} : bool :=
         match la, lb with
         | [], [] => true
         | x :: la', y :: lb' => key_eqb x y && go la' lb'
         | _, _ => false
         end) la lb
  | _, _ => false
  end.

Definition is_tuple_key (k : key) : bool :=
  match k with KTuple _ => true | _ => false end.

Definition key_in (k : key) (ks : list key) : bool :=
  existsb (key_eqb k) ks.

(** ** numpy arrays on integer data *)

Record ndarray : Type := mk_ndarray {
  arr_shape : list nat;
  arr_data : list Z
}.

Inductive dtype : Type := int64 | float64 | bool_ | object_.

Definition prod_shape (s : list nat) : nat := fold_right Nat.mul 1 s.

(** An array holds as many elements as its shape says. *)
Definition valid_array (a : ndarray) : Prop :=
  length (arr_data a) = prod_shape (arr_shape a).

Definition valid_arrayb (a : ndarray) : bool :=
  Nat.eqb (length (arr_data a)) (prod_shape (arr_shape a)).

(** ** Python objects *)

Inductive pyobj : Type :=
| PInt (z : Z)
| PStr (s : string)
| PNone
| PSlice (start stop step : option Z)
| PTuple (l : list pyobj)
| PList (l : list pyobj)
| PDict (d : list (key * pyobj))
| PArr (a : ndarray)
| Arraytainer (contents : pyobj) (dt : option dtype).

Section pyobj_induction.
Variable P : pyobj -> Prop.
Hypothesis HInt : forall z, P (PInt z).
Hypothesis HStr : forall s, P (PStr s).
Hypothesis HNone : P PNone.
Hypothesis HSlice : forall a b c, P (PSlice a b c).
Hypothesis HTuple : forall l, Forall P l -> P (PTuple l).
Hypothesis HList : forall l, Forall P l -> P (PList l).
Hypothesis HDict : forall d, Forall (fun kv => P (snd kv)) d -> P (PDict d).
Hypothesis HArr : forall a, P (PArr a).
Hypothesis HTree : forall c dt, P c -> P (Arraytainer c dt).

Fixpoint pyobj_nested_ind (x : pyobj) : P x :=
  match x with
  | PInt z => HInt z
  | PStr s => HStr s
  | PNone => HNone
  | PSlice a b c => HSlice a b c
  | PTuple l =>
      HTuple ((fix go (l : list pyobj) : Forall P l :=
                 match l with
                 | [] => Forall_nil P
                 | y :: l' => Forall_cons y (pyobj_nested_ind y) (go l')
                 end) l)
  | PList l =>
      HList ((fix go (l : list pyobj) : Forall P l :=
                match l with
                | [] => Forall_nil P
                | y :: l' => Forall_cons y (pyobj_nested_ind y) (go l')
                end) l)
  | PDict d =>
      HDict ((fix go (d : list (key * pyobj))
                : Forall (fun kv => P (snd kv)) d :=
                match d with
                | [] => Forall_nil _
                | kv :: d' =>
                    Forall_cons kv (pyobj_nested_ind (snd kv)) (go d')
                end) d)
  | PArr a => HArr a
  | Arraytainer c dt => HTree dt (pyobj_nested_ind c)
  end.
End pyobj_induction.

(** [isinstance] tests of the source. *)

(** [is_dict]: [isinstance(val, MutableMapping)]. *)
Definition is_dict (val : pyobj) : bool :=
  match val with PDict _ => true | _ => false end.

(** [is_list]: [isinstance(val, MutableSequence)]; a tuple is not one. *)
Definition is_list (val : pyobj) : bool :=
  match val with PList _ => true | _ => false end.

(** [is_array]: [isinstance(val, np.ndarray)]. *)
Definition is_array (val : pyobj) : bool :=
  match val with PArr _ => true | _ => false end.

Definition is_arraytainer (val : pyobj) : bool :=
  match val with Arraytainer _ _ => true | _ => false end.

Definition is_tuple (val : pyobj) : bool :=
  match val with PTuple _ => true | _ => false end.

(** [is_slice] (source lines 459-470). *)
Definition is_slice (val : pyobj) : bool :=
  match val with
  | PSlice _ _ _ => true
  | PTuple l =>
      forallb (fun val_i =>
                 match val_i with
                 | PNone | PSlice _ _ _ | PInt _ => true
                 | _ => false
                 end) l
  | PNone => true
  | _ => false
  end.

(** ** Python lists and dicts *)

(** Hashable objects as keys; lists, dicts, slices, arrays and
    arraytainers are unhashable. *)
Fixpoint to_key (x : pyobj) : option key :=
  match x with
  | PInt z => Some (KInt z)
  | PStr s => Some (KStr s)
  | PNone => Some KNone
  | PTuple l =>
      option_map KTuple
        ((fix go (l : list pyobj) : option (list key) :=
            match l with
            | [] => Some []
            | y :: l' =>
                match to_key y, go l' with
                | Some k, Some ks => Some (k :: ks)
                | _, _ => None
                end
            end) l)
  | _ => None
  end.

Fixpoint of_key (k : key) : pyobj :=
  match k with
  | KInt z => PInt z
  | KStr s => PStr s
  | KNone => PNone
  | KTuple l => PTuple (map of_key l)
  end.

Fixpoint dict_get {V : Type} (d : list (key * V)) (k : key) : option V :=
  match d with
  | [] => None
  | (k', v) :: d' => if key_eqb k k' then Some v else dict_get d' k
  end.

(** [d[k] = v]: an existing key keeps its place, a new one goes last. *)
Fixpoint dict_set {V : Type} (d : list (key * V)) (k : key) (v : V)
  : list (key * V) :=
  match d with
  | [] => [(k, v)]
  | (k', v') :: d' =>
      if key_eqb k k' then (k', v) :: d' else (k', v') :: dict_set d' k v
  end.

(** A dict built by successive insertions. *)
Definition dict_of_items {V : Type} (l : list (key * V)) : list (key * V) :=
  fold_left (fun acc kv => dict_set acc (fst kv) (snd kv)) l [].

(** A Python index into a sequence of length [n]: negative indices count
    from the end. *)
Definition norm_index (n : nat) (z : Z) : option nat :=
  let z' := if (z <? 0)%Z then (z + Z.of_nat n)%Z else z in
  if ((0 <=? z') && (z' <? Z.of_nat n))%Z then Some (Z.to_nat z') else None.

Fixpoint list_set {A : Type} (l : list A) (i : nat) (v : A) : list A :=
  match l, i with
  | [], _ => []
  | _ :: l', O => v :: l'
  | x :: l', S i' => x :: list_set l' i' v
  end.

(** [range(n)] as keys. *)
Definition range_keys (n : nat) : list key :=
  map (fun i => KInt (Z.of_nat i)) (seq 0 n).

(** ** The numpy fragment of the model

    The functions below follow numpy's documented behaviour on arrays of
    integers stored in row-major order. *)

Definition nd_scalar (z : Z) : ndarray := mk_ndarray [] [z].

Definition nd_size (a : ndarray) : nat := length (arr_data a).

Definition nd_ndim (a : ndarray) : nat := length (arr_shape a).

(** [a.shape], a tuple of ints. *)
Definition nd_shape (a : ndarray) : pyobj :=
  PTuple (map (fun d => PInt (Z.of_nat d)) (arr_shape a)).

(** [np.ravel(a)] and [a.flatten()] in C order. *)
Definition nd_ravel (a : ndarray) : ndarray :=
  mk_ndarray [nd_size a] (arr_data a).

(** [np.squeeze(a)]: axes of length one are removed. *)
Definition nd_squeeze (a : ndarray) : ndarray :=
  mk_ndarray (filter (fun d => negb (Nat.eqb d 1)) (arr_shape a)) (arr_data a).

(** [a[None]]: a new leading axis. *)
Definition nd_newaxis (a : ndarray) : ndarray :=
  mk_ndarray (1 :: arr_shape a) (arr_data a).

(** [np.atleast_1d(a)]. *)
Definition nd_atleast_1d (a : ndarray) : ndarray :=
  match arr_shape a with
  | [] => mk_ndarray [1] (arr_data a)
  | _ => a
  end.

(** [a.prod(dtype=int)] and [np.sum(a)] over all elements. *)
Definition nd_prod (a : ndarray) : Z := fold_right Z.mul 1%Z (arr_data a).

(** The elements of an array are 64-bit integers: a result of numpy's
    integer arithmetic that leaves the range wraps around. *)
Definition int64_wrap (z : Z) : Z :=
  ((z + 2 ^ 63) mod 2 ^ 64 - 2 ^ 63)%Z.

Definition in_int64 (z : Z) : bool :=
  ((- 2 ^ 63 <=? z) && (z <? 2 ^ 63))%Z.

Definition nd_sum (a : ndarray) : Z :=
  int64_wrap (fold_right Z.add 0%Z (arr_data a)).

(** [a.reshape(s)] in C order; one entry of [s] may be [-1]. *)
Definition nd_reshape (a : ndarray) (s : list Z) : result ndarray :=
  match filter (fun d => (d <? 0)%Z) s with
  | [] =>
      let s' := map Z.to_nat s in
      if Nat.eqb (prod_shape s') (nd_size a)
      then Ok (mk_ndarray s' (arr_data a))
      else Error (ValueError "cannot reshape array into shape")
  | [d] =>
      if (d =? -1)%Z then
        let known :=
          prod_shape (map Z.to_nat (filter (fun d => negb (d <? 0)%Z) s)) in
        if Nat.eqb known 0 || negb (Nat.eqb (nd_size a mod known) 0)
        then Error (ValueError "cannot reshape array into shape")
        else Ok (mk_ndarray
                   (map (fun d => if (d <? 0)%Z then nd_size a / known
                                  else Z.to_nat d) s)
                   (arr_data a))
      else Error (ValueError "negative dimensions not allowed")
  | _ => Error (ValueError "can only specify one unknown dimension")
  end.

(** [slice(start, stop, step).indices(n)] followed by [range]: the
    positions a slice selects in a sequence of length [n]. *)
Definition slice_bound (len lower upper : Z) (dflt : Z) (b : option Z) : Z :=
  match b with
  | None => dflt
  | Some z =>
      if (z <? 0)%Z then Z.max (z + len) lower else Z.min z upper
  end.

Definition slice_indices (start stop step : option Z) (n : nat)
  : result (list nat) :=
  let len := Z.of_nat n in
  let st := match step with None => 1%Z | Some s => s end in
  if (st =? 0)%Z then Error (ValueError "slice step cannot be zero") else
  let lower := if (st <? 0)%Z then (-1)%Z else 0%Z in
  let upper := if (st <? 0)%Z then (len - 1)%Z else len in
  let a := slice_bound len lower upper
             (if (st <? 0)%Z then upper else lower) start in
  let b := slice_bound len lower upper
             (if (st <? 0)%Z then lower else upper) stop in
  let count :=
    if (st <? 0)%Z then Z.max 0 ((a - b - st - 1) / (- st))
    else Z.max 0 ((b - a + st - 1) / st) in
  Ok (map (fun i => Z.to_nat (a + Z.of_nat i * st)) (seq 0 (Z.to_nat count))).

(** Basic indexing: ints, slices and [None] along the leading axes. *)
Inductive bindex : Type :=
| BInt (z : Z)
| BSlice (start stop step : option Z)
| BNew.

Definition basic_item (k : pyobj) : option bindex :=
  match k with
  | PInt z => Some (BInt z)
  | PSlice a b c => Some (BSlice a b c)
  | PNone => Some BNew
  | _ => None
  end.

Fixpoint basic_items (l : list pyobj) : option (list bindex) :=
  match l with
  | [] => Some []
  | k :: l' =>
      match basic_item k, basic_items l' with
      | Some b, Some bs => Some (b :: bs)
      | _, _ => None
      end
  end.

Definition basic_index (k : pyobj) : option (list bindex) :=
  match k with
  | PTuple l => basic_items l
  | _ => option_map (fun b => [b]) (basic_item k)
  end.

(** The [i]-th block of [w] elements. *)
Definition chunk (w i : nat) (data : list Z) : list Z :=
  firstn w (skipn (i * w) data).

Fixpoint nd_index (idx : list bindex) (shape : list nat) (data : list Z)
  : result ndarray :=
  match idx with
  | [] => Ok (mk_ndarray shape data)
  | BNew :: idx' =>
      let* r := nd_index idx' shape data in
      Ok (nd_newaxis r)
  | BInt z :: idx' =>
      match shape with
      | [] => Error (IndexError "too many indices for array")
      | d :: tl =>
          match norm_index d z with
          | None => Error (IndexError "index is out of bounds")
          | Some i => nd_index idx' tl (chunk (prod_shape tl) i data)
          end
      end
  | BSlice a b c :: idx' =>
      match shape with
      | [] => Error (IndexError "too many indices for array")
      | d :: tl =>
          let w := prod_shape tl in
          let* js := slice_indices a b c d in
          let* r0 := nd_index idx' tl (repeat 0%Z w) in
          let* rows := mapM (fun j => nd_index idx' tl (chunk w j data)) js in
          Ok (mk_ndarray (length js :: arr_shape r0)
                (concat (map arr_data rows)))
      end
  end.

(** A fully indexed array is returned as a scalar. *)
Definition unbox_scalar (a : ndarray) : pyobj :=
  match arr_shape a, arr_data a with
  | [], [z] => PInt z
  | _, _ => PArr a
  end.

Fixpoint shape_eqb (s t : list nat) : bool :=
  match s, t with
  | [], [] => true
  | x :: s', y :: t' => Nat.eqb x y && shape_eqb s' t'
  | _, _ => false
  end.

(** [np.concatenate(l)] along the first axis. *)
Definition nd_concatenate (l : list ndarray) : result ndarray :=
  match l with
  | [] => Error (ValueError "need at least one array to concatenate")
  | a0 :: _ =>
      match arr_shape a0 with
      | [] => Error (ValueError "zero-dimensional arrays cannot be concatenated")
      | _ :: tl0 =>
          if forallb (fun a => match arr_shape a with
                               | [] => false
                               | _ :: tl => shape_eqb tl tl0
                               end) l
          then Ok (mk_ndarray
                     (fold_right Nat.add 0 (map (fun a => hd 0 (arr_shape a)) l)
                        :: tl0)
                     (concat (map arr_data l)))
          else Error (ValueError "array dimensions must match")
      end
  end.

(** [np.array] on the numeric fragment: ints, arrays, and sequences of
    equally shaped numeric entries, which are stacked. *)
Definition stack (l : list (option ndarray)) : option ndarray :=
  match l with
  | [] => Some (mk_ndarray [0] [])
  | None :: _ => None
  | Some a0 :: _ =>
      if forallb (fun o => match o with
                           | Some a => shape_eqb (arr_shape a) (arr_shape a0)
                           | None => false
                           end) l
      then Some (mk_ndarray (length l :: arr_shape a0)
                   (concat (map (fun o => match o with
                                          | Some a => arr_data a
                                          | None => []
                                          end) l)))
      else None
  end.

Fixpoint np_array_num (v : pyobj) : option ndarray :=
  match v with
  | PInt z => Some (nd_scalar z)
  | PArr a => Some a
  | PTuple l => stack (map np_array_num l)
  | PList l => stack (map np_array_num l)
  | _ => None
  end.

(** What numpy does outside the fragment: array creation from other
    objects, indexing with other index objects, assignment into arrays,
    and addition of operands that need broadcasting. *)
Record numpy_ext : Type := {
  array_object : pyobj -> option dtype -> ndarray;
  getitem_advanced : ndarray -> pyobj -> result pyobj;
  setitem_array : ndarray -> pyobj -> pyobj -> result ndarray;
  add_broadcast : pyobj -> pyobj -> result pyobj
}.

(** ** The class [Arraytainer] *)

Section Engine.

Variable ext : numpy_ext.

(** [create_array] (source lines 476-478): [np.array(val, dtype=dtype)].
    The arrays of the model hold integers and carry no element type, so
    a number or an array is taken as it is, whatever [dtype] says; the
    results that depend on a conversion under a [dtype], or on a value
    that [np.array] may refuse, say which values they cover. *)
Definition create_array (val : pyobj) (dtype : option dtype) : ndarray :=
  match np_array_num val with
  | Some a => a
  | None => array_object ext val dtype
  end.

(** *** Construction (source lines 10-29 and 480-489) *)

Definition _keys_contain_tuple (contents : pyobj) : bool :=
  match contents with
  | PDict d => existsb (fun kv => is_tuple_key (fst kv)) d
  | _ => false
  end.

(** One turn of the loop of [_recursive_arraytainer_conversion]; [cls] is
    the constructor called on a nested list or dict, with [deepcopy] left
    to its default. *)
Definition convert_value
    (cls : pyobj -> bool -> option dtype -> result pyobj)
    (dtype : option dtype) (array_conversions : bool) (val : pyobj)
  : result pyobj :=
  if is_arraytainer val then Ok val
  else if is_list val || is_dict val then cls val array_conversions dtype
  else if array_conversions then Ok (PArr (create_array val dtype))
  else Ok val.

Definition _recursive_arraytainer_conversion
    (cls : pyobj -> bool -> option dtype -> result pyobj)
    (contents : pyobj) (dtype : option dtype) (array_conversions : bool)
  : result pyobj :=
  match contents with
  | PDict d =>
      let* d' := mapM (fun kv =>
                         let* v := convert_value cls dtype array_conversions
                                     (snd kv) in
                         Ok (fst kv, v)) d in
      Ok (PDict d')
  | PList l =>
      let* l' := mapM (convert_value cls dtype array_conversions) l in
      Ok (PList l')
  | _ => Error (TypeError "object is not iterable")
  end.

Definition msg_not_container : string :=
  "contents must be either list-like or dict-like".

Definition msg_tuple_key : string :=
  "contents.keys() contains a tuple, which isn't allowed in an Arraytainer.".

(** [__init__] together with [copy.deepcopy], which on an arraytainer
    goes through [__deepcopy__], that is [deepcopy()], that is the
    constructor again (source lines 133-144). *)
Fixpoint __init__ (n : nat) (contents : pyobj) (array_conversions : bool)
    (dtype : option dtype) (deepcopy : bool) {struct n} : result pyobj :=
  match n with
  | O => Error RecursionError
  | S n' =>
      if negb (is_list contents || is_dict contents) then
        Error (ValueError msg_not_container)
      else if is_dict contents && _keys_contain_tuple contents then
        Error (KeyError msg_tuple_key)
      else
        let* contents :=
          (if deepcopy then copy_deepcopy n' contents else Ok contents) in
        let* contents :=
          _recursive_arraytainer_conversion
            (fun val conv dt => __init__ n' val conv dt true)
            contents dtype array_conversions in
        Ok (Arraytainer contents dtype)
  end

with copy_deepcopy (n : nat) (x : pyobj) {struct n} : result pyobj :=
  match n with
  | O => Error RecursionError
  | S n' =>
      match x with
      | PTuple l => let* l' := mapM (copy_deepcopy n') l in Ok (PTuple l')
      | PList l => let* l' := mapM (copy_deepcopy n') l in Ok (PList l')
      | PDict d =>
          let* d' := mapM (fun kv =>
                             let* v := copy_deepcopy n' (snd kv) in
                             Ok (fst kv, v)) d in
          Ok (PDict d')
      | Arraytainer c dt => __init__ n' c true dt true
      | _ => Ok x
      end
  end.

(** The constructor with its defaults: [Arraytainer(contents)]. *)
Definition new (n : nat) (contents : pyobj) : result pyobj :=
  __init__ n contents true None true.

(** *** Accessors (source lines 94-95, 146-157, 213-219, 334-336) *)

Definition contents (self : pyobj) : pyobj :=
  match self with
  | Arraytainer c _ => c
  | _ => PNone
  end.

Definition dtype_of (self : pyobj) : option dtype :=
  match self with
  | Arraytainer _ dt => dt
  | _ => None
  end.

Definition py_len (x : pyobj) : nat :=
  match x with
  | PList l => length l
  | PTuple l => length l
  | PDict d => length d
  | Arraytainer (PList l) _ => length l
  | Arraytainer (PDict d) _ => length d
  | _ => 0
  end.

(** [contents_type is dict]. *)
Definition dict_like (self : pyobj) : bool := is_dict (contents self).

Definition keys (self : pyobj) : list key :=
  match contents self with
  | PDict d => map fst d
  | c => range_keys (py_len c)
  end.

Definition items (self : pyobj) : list (key * pyobj) :=
  match contents self with
  | PDict d => d
  | PList l => combine (range_keys (length l)) l
  | _ => []
  end.

Definition values (self : pyobj) : list pyobj := map snd (items self).

(** [c[k]] on a raw list or dict. *)
Definition contents_get (c : pyobj) (k : key) : result pyobj :=
  match c with
  | PDict d =>
      match dict_get d k with
      | Some v => Ok v
      | None => Error (KeyError "key not in dict")
      end
  | PList l =>
      match k with
      | KInt z =>
          match norm_index (length l) z with
          | Some i =>
              match nth_error l i with
              | Some v => Ok v
              | None => Error (IndexError "list index out of range")
              end
          | None => Error (IndexError "list index out of range")
          end
      | _ => Error (TypeError "list indices must be integers or slices")
      end
  | _ => Error (TypeError "object is not subscriptable")
  end.

(** [c[k] = v] on a raw list or dict. *)
Definition contents_set (c : pyobj) (k : key) (v : pyobj) : result pyobj :=
  match c with
  | PDict d => Ok (PDict (dict_set d k v))
  | PList l =>
      match k with
      | KInt z =>
          match norm_index (length l) z with
          | Some i => Ok (PList (list_set l i v))
          | None => Error (IndexError "list assignment index out of range")
          end
      | _ => Error (TypeError "list indices must be integers or slices")
      end
  | _ => Error (TypeError "object does not support item assignment")
  end.

(** [list(item.values())] when [self] is list-like. *)
Definition as_contents_of (self : pyobj) (item : list (key * pyobj)) : pyobj :=
  if dict_like self then PDict item else PList (map snd item).

(** *** Copies (source lines 129-134) *)

Definition copy (n : nat) (self : pyobj) : result pyobj :=
  __init__ n (contents self) true (dtype_of self) false.

Definition deepcopy (n : nat) (self : pyobj) : result pyobj :=
  __init__ n (contents self) true (dtype_of self) true.

(** *** [unpack] (source lines 229-238) *)

Fixpoint unpack (self : pyobj) : pyobj :=
  match self with
  | Arraytainer (PList l) _ =>
      PList (map (fun val => if is_arraytainer val then unpack val else val) l)
  | Arraytainer (PDict d) _ =>
      PDict (dict_of_items
               (map (fun kv =>
                       (fst kv,
                        if is_arraytainer (snd kv) then unpack (snd kv)
                        else snd kv)) d))
  | _ => PList []
  end.

(** [list_arrays] through [_recursively_get_arrays] (source 240-257). *)
Fixpoint list_arrays (self : pyobj) : list pyobj :=
  match self with
  | Arraytainer (PList l) _ =>
      flat_map (fun val => if is_arraytainer val then list_arrays val
                           else [val]) l
  | Arraytainer (PDict d) _ =>
      flat_map (fun kv => if is_arraytainer (snd kv) then list_arrays (snd kv)
                          else [snd kv]) d
  | _ => []
  end.

(** *** Reading (source lines 103-110 and 187-211) *)

(** [a[key]] on an array. *)
Definition nd_getitem (a : ndarray) (key : pyobj) : result pyobj :=
  match basic_index key with
  | Some idx =>
      let* r := nd_index idx (arr_shape a) (arr_data a) in
      Ok (unbox_scalar r)
  | None => getitem_advanced ext a key
  end.

(** [x[key]] on a raw list, tuple or dict. *)
Definition seq_getitem (wrap : list pyobj -> pyobj) (l : list pyobj)
    (key : pyobj) : result pyobj :=
  match key with
  | PInt z =>
      match norm_index (length l) z with
      | Some i =>
          match nth_error l i with
          | Some v => Ok v
          | None => Error (IndexError "index out of range")
          end
      | None => Error (IndexError "index out of range")
      end
  | PSlice a b c =>
      let* js := slice_indices a b c (length l) in
      Ok (wrap (flat_map (fun j => match nth_error l j with
                                   | Some v => [v]
                                   | None => []
                                   end) js))
  | _ => Error (TypeError "indices must be integers or slices")
  end.

Definition raw_getitem (x key : pyobj) : result pyobj :=
  match x with
  | PList l => seq_getitem PList l key
  | PTuple l => seq_getitem PTuple l key
  | PDict d =>
      match to_key key with
      | Some k =>
          match dict_get d k with
          | Some v => Ok v
          | None => Error (KeyError "key not in dict")
          end
      | None => Error (TypeError "unhashable type")
      end
  | _ => Error (TypeError "object is not subscriptable")
  end.

(** [x[key]] on any object; [getitem] is [Arraytainer.__getitem__]. *)
Definition subscript (getitem : pyobj -> pyobj -> result pyobj)
    (x key : pyobj) : result pyobj :=
  match x with
  | Arraytainer _ _ => getitem x key
  | PArr a => nd_getitem a key
  | _ => raw_getitem x key
  end.

Definition msg_index_keys : string :=
  "Arraytainer index contains keys not found in original Arraytainer.".

Definition _get_with_arraytainer
    (cls : pyobj -> result pyobj) (getitem : pyobj -> pyobj -> result pyobj)
    (self arraytainer_key : pyobj) : result pyobj :=
  let* item :=
    foldM (fun item kv =>
             if negb (key_in (fst kv) (keys self)) then
               Error (KeyError msg_index_keys)
             else
               let* c := contents_get (contents self) (fst kv) in
               if is_array c && is_arraytainer (snd kv) then
                 Error (KeyError msg_index_keys)
               else
                 let* v := subscript getitem c (snd kv) in
                 Ok (dict_set item (fst kv) v))
      (items arraytainer_key) [] in
  cls (as_contents_of self item).

Definition _get_with_array
    (cls : pyobj -> result pyobj) (getitem : pyobj -> pyobj -> result pyobj)
    (self array_key : pyobj) : result pyobj :=
  let* item :=
    mapM (fun key =>
            let* c := contents_get (contents self) key in
            let* v := subscript getitem c array_key in
            Ok (key, v))
      (keys self) in
  cls (as_contents_of self (dict_of_items item)).

Definition msg_not_a_key : string := "is not a key in this Arraytainer".

Definition _get_with_regular_key (self key : pyobj) : result pyobj :=
  match raw_getitem (contents self) key with
  | Ok item => Ok item
  | Error (IndexError _) | Error (KeyError _) | Error (TypeError _) =>
      Error (KeyError msg_not_a_key)
  | Error e => Error e
  end.

Fixpoint __getitem__ (n : nat) (self key : pyobj) {struct n} : result pyobj :=
  match n with
  | O => Error RecursionError
  | S n' =>
      if is_arraytainer key then
        _get_with_arraytainer (new n') (__getitem__ n') self key
      else if is_array key || is_slice key then
        _get_with_array (new n') (__getitem__ n') self key
      else
        _get_with_regular_key self key
  end.

(** *** Writing (source lines 112-119 and 338-389)

    The methods mutate [self]; here they return the outcome together with
    [self] as it is when the method returns or raises. *)

Definition outcome : Type := (result unit * pyobj)%type.

(** A loop over [l] whose body may raise after earlier turns have already
    changed [self]. *)
Fixpoint for_each {A : Type} (body : pyobj -> A -> outcome) (l : list A)
    (self : pyobj) : outcome :=
  match l with
  | [] => (Ok tt, self)
  | x :: l' =>
      match body self x with
      | (Ok _, self') => for_each body l' self'
      | (Error e, self') => (Error e, self')
      end
  end.

(** [self.contents[key] = v], writing the new contents back into [self]. *)
Definition store (self : pyobj) (key : key) (v : pyobj) : outcome :=
  match contents_set (contents self) key v with
  | Ok c => (Ok tt, Arraytainer c (dtype_of self))
  | Error e => (Error e, self)
  end.

Definition _convert_to_array_or_arraytainer (n : nat) (self val : pyobj)
  : result pyobj :=
  if negb (is_array val || is_arraytainer val) then
    if is_list val || is_dict val then
      __init__ n val true (dtype_of self) true
    else Ok (PArr (create_array val (dtype_of self)))
  else Ok val.

Definition _set_array_values (self : pyobj) (key : key)
    (mask new_value : pyobj) : outcome :=
  match contents_get (contents self) key with
  | Ok (PArr a) =>
      match setitem_array ext a mask new_value with
      | Ok a' => store self key (PArr a')
      | Error e => (Error e, self)
      end
  | Ok _ => (Error (TypeError "object does not support item assignment"), self)
  | Error e => (Error e, self)
  end.

Definition msg_set_keys : string :=
  "New Arraytainer value to set contains keys not found in the original Arraytainer.".

(** [self[key][array] = v]: [self[key]] is the child itself when [key] is
    a regular key, and a fresh arraytainer when [key] is slice-like. *)
Definition set_in_child (n : nat)
    (setitem : pyobj -> pyobj -> pyobj -> outcome)
    (self : pyobj) (key : key) (array v : pyobj) : outcome :=
  match __getitem__ n self (of_key key) with
  | Error e => (Error e, self)
  | Ok (Arraytainer c dt) =>
      match setitem (Arraytainer c dt) array v with
      | (r, child') =>
          if is_slice (of_key key) then (r, self)
          else match store self key child' with
               | (Ok _, self') => (r, self')
               | (Error e, self') => (Error e, self')
               end
      end
  | Ok (PArr a) =>
      match setitem_array ext a array v with
      | Ok a' => if is_slice (of_key key) then (Ok tt, self)
                 else store self key (PArr a')
      | Error e => (Error e, self)
      end
  | Ok _ => (Error (TypeError "object does not support item assignment"), self)
  end.

Definition _set_with_array (n : nat)
    (setitem : pyobj -> pyobj -> pyobj -> outcome)
    (self array new_val : pyobj) : outcome :=
  if is_arraytainer new_val then
    for_each (fun self key =>
                if negb (key_in key (keys self)) then
                  (Error (KeyError msg_set_keys), self)
                else
                  match contents_get (contents self) key,
                        __getitem__ n new_val (of_key key) with
                  | Error e, _ => (Error e, self)
                  | Ok c, Error e =>
                      (Error e, self)
                  | Ok c, Ok v =>
                      if is_array c && negb (is_array v) then
                        (Error (KeyError msg_set_keys), self)
                      else if is_array c then _set_array_values self key array v
                      else set_in_child n setitem self key array v
                  end)
      (keys new_val) self
  else
    for_each (fun self key =>
                match contents_get (contents self) key with
                | Error e => (Error e, self)
                | Ok c =>
                    if is_array c then _set_array_values self key array new_val
                    else set_in_child n setitem self key array new_val
                end)
      (keys self) self.

(** [self.contents[key][mask] = v] for a child that is an arraytainer. *)
Definition set_child_mask
    (setitem : pyobj -> pyobj -> pyobj -> outcome)
    (self : pyobj) (key : key) (child mask v : pyobj) : outcome :=
  match setitem child mask v with
  | (r, child') =>
      match store self key child' with
      | (Ok _, self') => (r, self')
      | (Error e, self') => (Error e, self')
      end
  end.

Definition _set_with_arraytainer (n : nat)
    (setitem : pyobj -> pyobj -> pyobj -> outcome)
    (self arraytainer new_val : pyobj) : outcome :=
  for_each (fun self kv =>
              let key := fst kv in
              let mask := snd kv in
              match contents_get (contents self) key with
              | Error e => (Error e, self)
              | Ok self_val =>
                  if is_arraytainer self_val && is_arraytainer new_val then
                    match contents_get (contents new_val) key with
                    | Ok v => set_child_mask setitem self key self_val mask v
                    | Error e => (Error e, self)
                    end
                  else if is_arraytainer self_val && is_array new_val then
                    set_child_mask setitem self key self_val mask new_val
                  else if is_array self_val && is_array new_val then
                    _set_array_values self key mask new_val
                  else if is_array self_val && is_arraytainer new_val then
                    if negb (key_in key (keys new_val)) then
                      (Error (KeyError msg_set_keys), self)
                    else
                      match __getitem__ n new_val (of_key key) with
                      | Error e => (Error e, self)
                      | Ok v =>
                          if negb (is_array v) then
                            (Error (KeyError msg_set_keys), self)
                          else _set_array_values self key mask v
                      end
                  else (Ok tt, self)
              end)
    (items arraytainer) self.

Definition msg_use_append : string :=
  "Unable to new assign items to a list-like Arraytainer; use the append method instead.".

(** [x[key] = v] on a raw list or dict. *)
Definition raw_setitem (x key v : pyobj) : result pyobj :=
  match x with
  | PList l =>
      match key with
      | PInt z => contents_set x (KInt z) v
      | _ => Error (TypeError "list indices must be integers or slices")
      end
  | PDict d =>
      match to_key key with
      | Some k => contents_set x k v
      | None => Error (TypeError "unhashable type")
      end
  | _ => Error (TypeError "object does not support item assignment")
  end.

Definition _set_with_regular_key (self key new_val : pyobj) : outcome :=
  match raw_setitem (contents self) key new_val with
  | Ok c => (Ok tt, Arraytainer c (dtype_of self))
  | Error (IndexError m) =>
      if negb (dict_like self) then (Error (KeyError msg_use_append), self)
      else (Error (IndexError m), self)
  | Error e => (Error e, self)
  end.

Fixpoint __setitem__ (n : nat) (self key new_val : pyobj) {struct n}
  : outcome :=
  match n with
  | O => (Error RecursionError, self)
  | S n' =>
      match _convert_to_array_or_arraytainer n' self new_val with
      | Error e => (Error e, self)
      | Ok new_val =>
          if is_array key || is_slice key then
            _set_with_array n' (__setitem__ n') self key new_val
          else if is_arraytainer key then
            _set_with_arraytainer n' (__setitem__ n') self key new_val
          else
            _set_with_regular_key self key new_val
      end
  end.

(** *** [append] (source lines 159-170) *)

Fixpoint append (n : nat) (self new_val : pyobj) (key_iterable : list pyobj)
    {struct key_iterable} : outcome :=
  match _convert_to_array_or_arraytainer n self new_val with
  | Error e => (Error e, self)
  | Ok new_val =>
      match key_iterable with
      | key :: key_iterable =>
          match __getitem__ n self key with
          | Error e => (Error e, self)
          | Ok x =>
              if negb (is_arraytainer x) then
                (Error (KeyError "Element specified by key_iterable is not an Arraytainer"),
                 self)
              else
                match raw_getitem (contents self) key with
                | Error e => (Error e, self)
                | Ok (Arraytainer c dt) =>
                    match append n (Arraytainer c dt) new_val key_iterable with
                    | (r, child') =>
                        match raw_setitem (contents self) key child' with
                        | Ok c' => (r, Arraytainer c' (dtype_of self))
                        | Error e => (Error e, self)
                        end
                    end
                | Ok _ =>
                    (Error (AttributeError "object has no attribute append"),
                     self)
                end
          end
      | [] =>
          if dict_like self then
            (Error (TypeError "Can't append to dictionary-like Arraytainer; use update method instead."),
             self)
          else
            match contents self with
            | PList l => (Ok tt, Arraytainer (PList (l ++ [new_val])) (dtype_of self))
            | _ => (Error (AttributeError "object has no attribute append"), self)
            end
      end
  end.

(** *** The dispatch engine (source lines 121-127 and 399-457) *)

(** A callable of numpy: positional arguments and keyword arguments. *)
Definition callable : Type :=
  list pyobj -> list (key * pyobj) -> result pyobj.

Fixpoint _list_arraytainers_in_args (args : pyobj) : list pyobj :=
  let scan := fun arg_i : pyobj =>
    if is_arraytainer arg_i then [arg_i]
    else if is_list arg_i || is_dict arg_i || is_tuple arg_i
         then _list_arraytainers_in_args arg_i
         else [] in
  match args with
  | PDict d => flat_map (fun kv => scan (snd kv)) d
  | PList l => flat_map scan l
  | PTuple l => flat_map scan l
  | _ => []
  end.

(** [max(arraytainer_list, key=len)]: the first of the longest. *)
Fixpoint max_by_len (l : list pyobj) : option pyobj :=
  match l with
  | [] => None
  | x :: l' =>
      match max_by_len l' with
      | Some y => if py_len x <? py_len y then Some y else Some x
      | None => Some x
      end
  end.

Definition msg_mixed_kinds : string :=
  "Arraytainers being combined through operations must be all dictionary-like or all list-like".

Definition msg_not_subset : string :=
  "Keys of arraytainer argument are not a subset of the keys of the largest Arraytainer it's being combined with.".

Definition _check_arg_compatability (arraytainer_list : list pyobj)
    (largest_arraytainer : pyobj) : result unit :=
  let largest_keyset := keys largest_arraytainer in
  foldM (fun _ arraytainer =>
           if negb (Bool.eqb (dict_like arraytainer)
                      (dict_like largest_arraytainer)) then
             Error (KeyError msg_mixed_kinds)
           else if negb (forallb (fun k => key_in k largest_keyset)
                           (keys arraytainer)) then
             Error (KeyError msg_not_subset)
           else Ok tt)
    arraytainer_list tt.

(** [set.intersection] of the key sets.  A set has no duplicates and an
    iteration order of its own; here its elements come in the order of
    the first operand's keys. *)
Definition _get_shared_keyset (arraytainer_list : list pyobj)
  : result (list key) :=
  match arraytainer_list with
  | [] => Error (TypeError "unbound method set.intersection() needs an argument")
  | a :: rest =>
      Ok (filter (fun k => forallb (fun b => key_in k (keys b)) rest)
            (keys a))
  end.

(** [prepped_arg[0]] when [len(prepped_arg) == 1]. *)
Definition unwrap_single (prepped_arg : pyobj) : result pyobj :=
  match prepped_arg with
  | PTuple [x] => Ok x
  | PDict [(k, v)] => raw_getitem prepped_arg (PInt 0)
  | _ => Ok prepped_arg
  end.

Fixpoint _prepare_func_args (getitem : pyobj -> pyobj -> result pyobj)
    (args : pyobj) (key : key) {struct args} : result pyobj :=
  let prep := fun arg : pyobj =>
    if is_arraytainer arg then
      if key_in key (keys arg)
      then let* v := getitem arg (of_key key) in Ok [v]
      else Ok []
    else if is_tuple arg || is_dict arg || is_list arg then
      let* prepped_arg := _prepare_func_args getitem arg key in
      let* prepped_arg := unwrap_single prepped_arg in
      Ok [prepped_arg]
    else Ok [arg] in
  match args with
  | PDict d =>
      let* d' := mapM (fun kv =>
                         let* vs := prep (snd kv) in
                         Ok (map (pair (fst kv)) vs)) d in
      Ok (PDict (concat d'))
  | PList l => let* l' := mapM prep l in Ok (PTuple (concat l'))
  | PTuple l => let* l' := mapM prep l in Ok (PTuple (concat l'))
  | _ => Error (TypeError "object is not iterable")
  end.

Definition tuple_items (x : pyobj) : list pyobj :=
  match x with
  | PTuple l => l
  | PList l => l
  | _ => []
  end.

Definition dict_items (x : pyobj) : list (key * pyobj) :=
  match x with
  | PDict d => d
  | _ => []
  end.

Definition _manage_func_call (n : nat) (func : callable)
    (args : list pyobj) (kwargs : list (key * pyobj)) : result pyobj :=
  let arraytainer_list :=
    _list_arraytainers_in_args (PTuple args)
      ++ _list_arraytainers_in_args (PDict kwargs) in
  match max_by_len arraytainer_list with
  | None => Error (ValueError "max() arg is an empty sequence")
  | Some largest_arraytainer =>
      let* _ := _check_arg_compatability arraytainer_list largest_arraytainer in
      let* shared_keyset := _get_shared_keyset arraytainer_list in
      let* func_return := copy_deepcopy n (contents largest_arraytainer) in
      let* func_return :=
        foldM (fun func_return key =>
                 let* args_i :=
                   _prepare_func_args (__getitem__ n) (PTuple args) key in
                 let* kwargs_i :=
                   _prepare_func_args (__getitem__ n) (PDict kwargs) key in
                 let* r := func (tuple_items args_i) (dict_items kwargs_i) in
                 contents_set func_return key r)
          shared_keyset func_return in
      new n func_return
  end.

(** A call of a numpy function: numpy hands the call to
    [__array_function__] or [__array_ufunc__], both of which are
    [_manage_func_call], when an arraytainer is among the arguments, and
    runs its own implementation [native] otherwise. *)
Fixpoint np_call (n : nat) (native : callable) (args : list pyobj)
    (kwargs : list (key * pyobj)) {struct n} : result pyobj :=
  match n with
  | O => Error RecursionError
  | S n' =>
      match _list_arraytainers_in_args (PTuple args)
              ++ _list_arraytainers_in_args (PDict kwargs) with
      | [] => native args kwargs
      | _ => _manage_func_call n' (np_call n' native) args kwargs
      end
  end.

(** *** numpy functions the utilities call

    Each takes its array-like arguments through [np.array]; the keyword
    [order] is always the default ['C'] in this model. *)

Definition order_C : list (key * pyobj) := [(KStr "order", PStr "C")].

Definition asarray (x : pyobj) : ndarray := create_array x None.

Definition np_ravel : callable :=
  fun args _ =>
    match args with
    | [a] => Ok (PArr (nd_ravel (asarray a)))
    | _ => Error (TypeError "ravel() takes 1 positional argument")
    end.

Definition np_squeeze : callable :=
  fun args _ =>
    match args with
    | [a] => Ok (PArr (nd_squeeze (asarray a)))
    | _ => Error (TypeError "squeeze() takes 1 positional argument")
    end.

Definition np_atleast_1d : callable :=
  fun args _ =>
    match args with
    | [a] => Ok (PArr (nd_atleast_1d (asarray a)))
    | _ => Error (TypeError "atleast_1d() takes 1 positional argument")
    end.

(** [np.sum(a)] returns a scalar. *)
Definition np_sum : callable :=
  fun args _ =>
    match args with
    | [a] => Ok (PInt (nd_sum (asarray a)))
    | _ => Error (TypeError "sum() takes 1 positional argument")
    end.

(** A shape given as an int, a sequence of ints or a one-dimensional
    array. *)
Definition shape_entry (x : pyobj) : result Z :=
  match x with
  | PInt z => Ok z
  | PArr (mk_ndarray [] [z]) => Ok z
  | _ => Error (TypeError "object cannot be interpreted as an integer")
  end.

Definition shape_spec (x : pyobj) : result (list Z) :=
  match x with
  | PInt z => Ok [z]
  | PTuple l => mapM shape_entry l
  | PList l => mapM shape_entry l
  | PArr (mk_ndarray [] [z]) => Ok [z]
  | PArr (mk_ndarray [_] data) => Ok data
  | _ => Error (TypeError "expected a sequence of integers or a single integer")
  end.

Definition np_reshape : callable :=
  fun args _ =>
    match args with
    | [a; newshape] =>
        let* s := shape_spec newshape in
        let* r := nd_reshape (asarray a) s in
        Ok (PArr r)
    | _ => Error (TypeError "reshape() takes 2 positional arguments")
    end.

Definition np_concatenate : callable :=
  fun args _ =>
    match args with
    | [PList l] =>
        let* r := nd_concatenate (map asarray l) in Ok (PArr r)
    | [PTuple l] =>
        let* r := nd_concatenate (map asarray l) in Ok (PArr r)
    | _ => Error (TypeError "concatenate() takes a sequence of arrays")
    end.

(** [x + y] as Python's [sum] needs it: scalars and arrays of one shape,
    a zero-dimensional result being a scalar.  An addition in which an
    array takes part is numpy's, and wraps around. *)
Definition py_add (x y : pyobj) : result pyobj :=
  match x, y with
  | PInt a, PInt b => Ok (PInt (a + b))
  | PInt a, PArr b =>
      Ok (unbox_scalar
            (mk_ndarray (arr_shape b)
               (map (fun z => int64_wrap (a + z)) (arr_data b))))
  | PArr a, PInt b =>
      Ok (unbox_scalar
            (mk_ndarray (arr_shape a)
               (map (fun z => int64_wrap (z + b)) (arr_data a))))
  | PArr a, PArr b =>
      if shape_eqb (arr_shape a) (arr_shape b)
      then Ok (unbox_scalar
                 (mk_ndarray (arr_shape a)
                    (map (fun p => int64_wrap (fst p + snd p))
                       (combine (arr_data a) (arr_data b)))))
      else add_broadcast ext x y
  | _, _ => add_broadcast ext x y
  end.

(** The builtin [sum(l)], which starts from [0]. *)
Definition py_sum (l : list pyobj) : result pyobj :=
  foldM py_add l (PInt 0).

(** *** Shape utilities (source lines 274-295 and 317-336) *)

Definition attribute_error {A : Type} : result A :=
  Error (AttributeError "object has no such attribute").

Fixpoint shape (n : nat) (self : pyobj) {struct n} : result pyobj :=
  match n with
  | O => Error RecursionError
  | S n' =>
      let* shapes :=
        mapM (fun kv =>
                let* s := match snd kv with
                          | PArr a => Ok (nd_shape a)
                          | Arraytainer _ _ => shape n' (snd kv)
                          | _ => attribute_error
                          end in
                Ok (fst kv, s))
          (items self) in
      new n' (as_contents_of self (dict_of_items shapes))
  end.

Definition sum (n : nat) (self : pyobj) : result pyobj :=
  if is_arraytainer self then
    let* arraytainer_of_scalars := np_call n np_sum [self] [] in
    if is_arraytainer arraytainer_of_scalars
    then py_sum (list_arrays arraytainer_of_scalars)
    else attribute_error
  else attribute_error.

Definition flatten (n : nat) (self : pyobj) : result pyobj :=
  let* raveled := np_call n np_ravel [self] order_C in
  let* output := np_call n np_squeeze [raveled] [] in
  if is_arraytainer output then
    let* elem_list :=
      mapM (fun elem =>
              match elem with
              | PArr a => if Nat.eqb (nd_ndim a) 0 then Ok (PArr (nd_newaxis a))
                          else Ok elem
              | _ => attribute_error
              end)
        (list_arrays output) in
    np_call n np_concatenate [PList elem_list] []
  else attribute_error.

(** [isinstance(x, Sequence)] on the objects of the model. *)
Definition is_sequence (x : pyobj) : bool := is_list x || is_tuple x.

Definition _concatenate_values_into_arraytainer (n : nat) (values : pyobj)
  : result pyobj :=
  match tuple_items values with
  | [output] =>
      if is_list output || is_dict output then new n output
      else if negb (is_arraytainer output) then
        Error (ValueError "Single entry in values is not an arraytainer.")
      else Ok output
  | vals =>
      if negb (existsb is_arraytainer vals) then
        Error (ValueError "values must contain at least one arraytainer.")
      else
        let* to_concat :=
          mapM (fun val_i =>
                  if is_arraytainer val_i then
                    np_call n np_atleast_1d [val_i] []
                  else if is_list val_i || is_dict val_i then
                    let* t := new n val_i in
                    np_call n np_atleast_1d [t] []
                  else
                    let a := create_array val_i None in
                    if Nat.eqb (nd_ndim a) 0 then Ok (PArr (nd_newaxis a))
                    else Ok (PArr a))
            vals in
        np_call n np_concatenate [PList to_concat] []
  end.

Definition reshape (n : nat) (self : pyobj) (new_shapes : list pyobj)
  : result pyobj :=
  let new_shapes :=
    match new_shapes with
    | [x] => if is_sequence x then x else PTuple new_shapes
    | _ => PTuple new_shapes
    end in
  let* new_shapes :=
    (if existsb is_arraytainer (tuple_items new_shapes)
     then (if is_arraytainer self
           then _concatenate_values_into_arraytainer n new_shapes
           else attribute_error)
     else Ok new_shapes) in
  np_call n np_reshape [self; new_shapes] order_C.

(** *** The constructor from a flat array (source lines 35-65) *)

(** One turn of the loop of [_from_vector]; [rec] is the recursive call
    on a nested tree of shapes. *)
Definition _from_vector_turn (rec : pyobj -> Z -> result (pyobj * Z))
    (vector : ndarray) (st : list (key * pyobj) * Z) (kv : key * pyobj)
  : result (list (key * pyobj) * Z) :=
  let contents := fst st in
  let vector_idx := snd st in
  match snd kv with
  | Arraytainer _ _ =>
      let* sub := rec (snd kv) vector_idx in
      Ok (dict_set contents (fst kv) (fst sub), snd sub)
  | PArr shape =>
      let num_elem := nd_prod shape in
      let* array_vals :=
        nd_index [BSlice (Some vector_idx)
                    (Some (vector_idx + num_elem)%Z) None]
          (arr_shape vector) (arr_data vector) in
      let vector_idx := (vector_idx + num_elem)%Z in
      let* s := shape_spec (PArr shape) in
      let* leaf := nd_reshape array_vals s in
      Ok (dict_set contents (fst kv) (PArr leaf), vector_idx)
  | _ => attribute_error
  end.

Fixpoint _from_vector (n : nat) (vector : ndarray) (shapes : pyobj)
    (vector_idx : Z) {struct n} : result (pyobj * Z) :=
  match n with
  | O => Error RecursionError
  | S n' =>
      let* r :=
        foldM (_from_vector_turn (_from_vector n' vector) vector)
          (items shapes) ([], vector_idx) in
      Ok (as_contents_of shapes (fst r), snd r)
  end.

(** The exception built under [if output_size != array.size]. *)
Definition size_check (output_size : pyobj) (array : ndarray) : option exn :=
  match output_size with
  | PInt z =>
      if (z =? Z.of_nat (nd_size array))%Z then None
      else Some (ValueError "Array contains more or fewer elements than shapes specifies.")
  | _ => Some (ValueError "Array contains more or fewer elements than shapes specifies.")
  end.

Definition from_array (n : nat) (array shapes : pyobj) : result pyobj :=
  let* shapes :=
    (if is_sequence shapes then
       match _concatenate_values_into_arraytainer n shapes with
       | Error (ValueError _) =>
           Error (ValueError "shapes must contain at least one arraytainer, list, or dict.")
       | r => r
       end
     else Ok shapes) in
  let* output_size := sum n shapes in
  match array with
  | PArr a =>
      (* [if output_size != array.size: ValueError(...)]: the exception
         is constructed and dropped, for want of a [raise]. *)
      let _ := size_check output_size a in
      let vector := nd_ravel a in
      let* r := _from_vector n vector shapes 0 in
      new n (fst r)
  | _ => attribute_error
  end.

End Engine.

(** ** The data model

    A Container Tree is an arraytainer whose contents are a list or a
    dict with distinct, non-tuple keys, and whose children are Leaf
    Arrays or Container Trees. *)

Fixpoint distinct_keys (ks : list key) : bool :=
  match ks with
  | [] => true
  | k :: ks' => negb (key_in k ks') && distinct_keys ks'
  end.

Definition dict_keys_ok (ks : list key) : bool :=
  distinct_keys ks && negb (existsb is_tuple_key ks).

(** A Leaf Array or a Container Tree. *)
Fixpoint value_ok (x : pyobj) : bool :=
  match x with
  | PArr _ => true
  | Arraytainer (PList l) _ => forallb value_ok l
  | Arraytainer (PDict d) _ =>
      dict_keys_ok (map fst d) && forallb (fun kv => value_ok (snd kv)) d
  | _ => false
  end.

Definition container_tree (x : pyobj) : bool :=
  is_arraytainer x && value_ok x.

(** Raw data as the construction layer receives it: nested lists, dicts
    and tuples over arbitrary leaves, Container Trees included. *)
Fixpoint raw_ok (x : pyobj) : bool :=
  match x with
  | PList l => forallb raw_ok l
  | PTuple l => forallb raw_ok l
  | PDict d => distinct_keys (map fst d) && forallb (fun kv => raw_ok (snd kv)) d
  | Arraytainer _ _ => value_ok x
  | _ => true
  end.

(** A tuple among the keys of a mapping of the input, at any depth of its
    lists and dicts. *)
Fixpoint has_tuple_key (x : pyobj) : bool :=
  match x with
  | PDict d =>
      existsb (fun kv => is_tuple_key (fst kv) || has_tuple_key (snd kv)) d
  | PList l => existsb has_tuple_key l
  | _ => false
  end.

(** The nesting height of an object, which bounds the recursion the
    methods need on it. *)
Fixpoint height (x : pyobj) : nat :=
  match x with
  | PTuple l => S (fold_right (fun y m => Nat.max (height y) m) 0 l)
  | PList l => S (fold_right (fun y m => Nat.max (height y) m) 0 l)
  | PDict d => S (fold_right (fun kv m => Nat.max (height (snd kv)) m) 0 d)
  | Arraytainer c _ => S (S (height c))
  | _ => 1
  end.

(** The same tree with no [dtype] attribute at any node. *)
Fixpoint clear_dtype (x : pyobj) : pyobj :=
  match x with
  | Arraytainer (PList l) _ => Arraytainer (PList (map clear_dtype l)) None
  | Arraytainer (PDict d) _ =>
      Arraytainer (PDict (map (fun kv => (fst kv, clear_dtype (snd kv))) d))
        None
  | _ => x
  end.

(** All leaves are arrays that hold as many elements as their shape
    says. *)
Fixpoint valid_leaves (x : pyobj) : bool :=
  match x with
  | PArr a => valid_arrayb a
  | Arraytainer (PList l) _ => forallb valid_leaves l
  | Arraytainer (PDict d) _ => forallb (fun kv => valid_leaves (snd kv)) d
  | _ => false
  end.

(** No key of a mapping is [None]: every key [k] is a regular key, for
    which [self[k]] is the child stored under [k]. *)
Definition regular_key (k : key) : bool :=
  match k with
  | KInt _ | KStr _ => true
  | _ => false
  end.

Fixpoint regular_keys (x : pyobj) : bool :=
  match x with
  | Arraytainer (PList l) _ => forallb regular_keys l
  | Arraytainer (PDict d) _ =>
      forallb (fun kv => regular_key (fst kv) && regular_keys (snd kv)) d
  | _ => true
  end.

(** The tree with [g] applied to every leaf array, as a dispatched
    operation builds it: no node has a [dtype]. *)
Fixpoint tmap (g : ndarray -> ndarray) (x : pyobj) : pyobj :=
  match x with
  | PArr a => PArr (g a)
  | Arraytainer (PList l) _ => Arraytainer (PList (map (tmap g) l)) None
  | Arraytainer (PDict d) _ =>
      Arraytainer (PDict (map (fun kv => (fst kv, tmap g (snd kv))) d)) None
  | _ => x
  end.

(** The leaf arrays of a tree in the order of [list_arrays], and their
    elements one after the other. *)
Fixpoint leaf_arrays (x : pyobj) : list ndarray :=
  match x with
  | PArr a => [a]
  | Arraytainer (PList l) _ => flat_map leaf_arrays l
  | Arraytainer (PDict d) _ => flat_map (fun kv => leaf_arrays (snd kv)) d
  | _ => []
  end.

Definition flat_data (x : pyobj) : list Z :=
  concat (map arr_data (leaf_arrays x)).

(** [np.array(a.shape)]: the shape of a leaf as a one-dimensional
    array. *)
Definition shape_array (a : ndarray) : ndarray :=
  mk_ndarray [length (arr_shape a)] (map Z.of_nat (arr_shape a)).

(** An instance of the external functions, which rejects whatever lies
    outside the fragment; the examples below never reach it. *)
Definition numpy_fragment : numpy_ext := {|
  array_object := fun _ _ => mk_ndarray [] [0%Z];
  getitem_advanced := fun _ _ => Error (IndexError "unsupported index");
  setitem_array := fun _ _ _ => Error (IndexError "unsupported index");
  add_broadcast := fun _ _ => Error (ValueError "operands could not be broadcast")
|}.

(** What [unpack] stores for a child. *)
Definition unpack_value (x : pyobj) : pyobj :=
  if is_arraytainer x then unpack x else x.

(** An arraytainer used as a parallel index: a list, or a dict with
    distinct non-tuple keys, of index objects. *)
Definition index_tree (x : pyobj) : bool :=
  match x with
  | Arraytainer (PList _) _ => true
  | Arraytainer (PDict d) _ => dict_keys_ok (map fst d)
  | _ => false
  end.

(** ** Objects of the examples *)

Definition arr (shape : list nat) (data : list Z) : pyobj :=
  PArr (mk_ndarray shape data).

(** The mapping [{(1, 2): 5}], and the same one level down a list. *)
Definition tuple_keyed : pyobj :=
  PDict [(KTuple [KInt 1; KInt 2], PInt 5)].

Definition tuple_keyed_nested : pyobj :=
  PList [PInt 7; PDict [(KStr "a", tuple_keyed)]].

(** A tree [{a: [[1, 2], [3, 4]], b: [[5, 6, 7], 8]}] with a [dtype], the
    child at [b] being a list-like tree. *)
Definition nested_tree : pyobj :=
  Arraytainer
    (PDict [(KStr "a", arr [2; 2] [1; 2; 3; 4]%Z);
            (KStr "b", Arraytainer (PList [arr [3] [5; 6; 7]%Z; arr [] [8]%Z])
                         (Some int64))])
    (Some float64).




(** A list-like tree of three leaves and a dict-like index on its last
    position. *)
Definition three_leaves : pyobj :=
  Arraytainer
    (PList [arr [2] [1; 2]%Z; arr [2] [3; 4]%Z; arr [2] [5; 6]%Z]) None.


(** A dict-like tree in which [None] is a key. *)
Definition none_keyed : pyobj :=
  Arraytainer
    (PDict [(KNone, arr [2] [1; 2]%Z); (KStr "b", arr [1] [3]%Z)]) None.


(** What an operation or an indexing returns for one key: a scalar, a
    tuple, a Leaf Array or a Container Tree; and what the constructor
    stores for it, scalars and tuples becoming arrays. *)
Definition plain_result (v : pyobj) : bool :=
  match v with
  | PInt _ | PStr _ | PNone | PSlice _ _ _ | PArr _ => true
  | PTuple l => forallb raw_ok l
  | Arraytainer _ _ => value_ok v
  | _ => false
  end.

Definition as_leaf (ext : numpy_ext) (v : pyobj) : pyobj :=
  if is_arraytainer v then v else PArr (create_array ext v None).

(** [none_keyed[None]]: every leaf gets a new leading axis. *)
Definition none_keyed_broadcast : pyobj :=
  Arraytainer
    (PDict [(KNone, arr [1; 2] [1; 2]%Z); (KStr "b", arr [1; 1] [3]%Z)]) None.

(** The arraytainers the engine finds among the arguments of a call, the
    call it makes for one shared key, and the items of the reference
    with the results of those calls written over them. *)
Definition operands (args : list pyobj) (kwargs : list (key * pyobj))
  : list pyobj :=
  _list_arraytainers_in_args (PTuple args)
    ++ _list_arraytainers_in_args (PDict kwargs).

Definition call_for_key (ext : numpy_ext) (n : nat) (func : callable)
    (args : list pyobj) (kwargs : list (key * pyobj)) (key : key)
  : result pyobj :=
  let* args_i := _prepare_func_args (__getitem__ ext n) (PTuple args) key in
  let* kwargs_i := _prepare_func_args (__getitem__ ext n) (PDict kwargs) key in
  func (tuple_items args_i) (dict_items kwargs_i).

Definition upd_items (its : list (key * pyobj)) (k : key) (v : pyobj)
  : list (key * pyobj) :=
  map (fun kv => if key_eqb (fst kv) k then (fst kv, v) else kv) its.

Definition written_over (shared : list key) (res : key -> pyobj)
    (its : list (key * pyobj)) : list (key * pyobj) :=
  map (fun kv => (fst kv,
                  if key_in (fst kv) shared then res (fst kv) else snd kv))
    its.

(** An argument that holds no arraytainer: not one itself, and not a
    list, dict or tuple. *)
Definition scalar_arg (c : pyobj) : bool :=
  negb (is_arraytainer c || is_list c || is_dict c || is_tuple c).

(** A binary operation of numpy on two arrays of one shape, or on an
    array and an int: elementwise addition. *)
Definition np_add : callable :=
  fun args _ =>
    match args with
    | [PArr x; PArr y] =>
        if shape_eqb (arr_shape x) (arr_shape y)
        then Ok (PArr (mk_ndarray (arr_shape x)
                         (map (fun p => int64_wrap (fst p + snd p))
                            (combine (arr_data x) (arr_data y)))))
        else Error (ValueError "operands could not be broadcast together")
    | [PArr x; PInt c] =>
        Ok (PArr (mk_ndarray (arr_shape x)
                    (map (fun z => int64_wrap (z + c)) (arr_data x))))
    | _ => Error (TypeError "unsupported operand types")
    end.


Definition tree_ab : pyobj :=
  Arraytainer
    (PDict [(KStr "a", arr [2] [10; 20]%Z); (KStr "b", arr [1] [30]%Z)]) None.



(** The number of elements a tree of shapes asks for: the sum, over its
    leaf shapes, of the product of the entries. *)
Definition requested_size (shapes : pyobj) : Z :=
  fold_right Z.add 0%Z (map nd_prod (leaf_arrays shapes)).

(** A flat array of three elements, and the tree of shapes with the one
    leaf shape [(2,)]. *)
Definition three_elements : pyobj := arr [3] [1; 2; 3]%Z.

Definition shape_of_two : pyobj := Arraytainer (PList [arr [1] [2]%Z]) None.

(** What the call of a unary operation returns for a child, before the
    constructor stores it: [h] on a leaf array, the mapped tree on an
    arraytainer. *)
Definition mapped_child (h : ndarray -> pyobj) (g : ndarray -> ndarray)
    (v : pyobj) : pyobj :=
  match v with
  | PArr a => h a
  | _ => tmap g v
  end.

(** [rec] rebuilds [child] from the place of its elements in the flat
    array [vec]: called on the shapes of [child] at the index where the
    elements of [child] start, it returns [child] unpacked and the index
    where they end. *)
Definition rebuilds (rec : pyobj -> Z -> result (pyobj * Z)) (vec : ndarray)
    (child : pyobj) : Prop :=
  forall pre post,
    arr_data vec = pre ++ flat_data child ++ post ->
    rec (tmap shape_array child) (Z.of_nat (length pre))
    = Ok (unpack child,
          Z.of_nat (length pre + length (flat_data child))).

(** A list-like tree of the two leaves [[1, 2]] and [[3]]. *)
Definition two_leaves : pyobj :=
  Arraytainer (PList [arr [2] [1; 2]%Z; arr [1] [3]%Z]) None.

(** ** Further methods of the class

    The methods below complete the embedding of [arraytainer.py]: the
    remaining mutators, reductions and conversions. *)

Section Methods.

Variable ext : numpy_ext.

(** What the constructor makes of a value of its contents: a list or a
    dict becomes an arraytainer of the converted values under [dt], an
    arraytainer is kept, and any other value becomes an array when
    [conv] is set. *)
Fixpoint built (dt : option dtype) (conv : bool) (x : pyobj) : pyobj :=
  match x with
  | PList l => Arraytainer (PList (map (built dt conv) l)) dt
  | PDict d =>
      Arraytainer (PDict (map (fun kv => (fst kv, built dt conv (snd kv))) d)) dt
  | Arraytainer _ _ => x
  | _ => if conv then PArr (create_array ext x dt) else x
  end.

(** *** [update] (source lines 172-185) *)

(** [hasattr(x, '__getitem__')]. *)
Definition has_getitem (x : pyobj) : bool :=
  match x with
  | PStr _ | PTuple _ | PList _ | PDict _ | PArr _ | Arraytainer _ _ => true
  | _ => false
  end.

(** The characters of a string, each a string of length one. *)
Fixpoint chars (s : string) : list pyobj :=
  match s with
  | EmptyString => []
  | String c s' => PStr (String c EmptyString) :: chars s'
  end.

(** Iteration over an array: its entries along the first axis. *)
Definition nd_rows (a : ndarray) : result (list pyobj) :=
  match arr_shape a with
  | [] => Error (TypeError "iteration over a 0-d array")
  | d :: tl =>
      Ok (map (fun i =>
                 unbox_scalar
                   (mk_ndarray tl (chunk (prod_shape tl) i (arr_data a))))
            (seq 0 d))
  end.

(** [list(x)]. *)
Definition py_list (x : pyobj) : result (list pyobj) :=
  match x with
  | PStr s => Ok (chars s)
  | PTuple l => Ok l
  | PList l => Ok l
  | PDict d => Ok (map (fun kv => of_key (fst kv)) d)
  | PArr a => nd_rows a
  | Arraytainer _ _ => Ok (values x)
  | _ => Error (TypeError "object is not iterable")
  end.

(** [d.update(a)] for an array [a], which has no [keys]: its entries
    along the first axis are taken as key-value pairs. *)
Definition update_pairs (a : ndarray) : result (list (key * pyobj)) :=
  match arr_shape a with
  | [] => Error (TypeError "iteration over a 0-d array")
  | O :: _ => Ok []
  | [S _] =>
      Error (TypeError "cannot convert dictionary update sequence element #0 to a sequence")
  | [d; 2] =>
      Ok (map (fun i => (KInt (nth (2 * i) (arr_data a) 0%Z),
                         PInt (nth (2 * i + 1) (arr_data a) 0%Z)))
            (seq 0 d))
  | _ :: 2 :: _ => Error (TypeError "unhashable type: 'numpy.ndarray'")
  | _ :: _ :: _ =>
      Error (ValueError "dictionary update sequence element #0 has a length other than 2; 2 is required")
  end.

(** [self.contents.update(other)] on the objects that
    [_convert_to_array_or_arraytainer] returns.  An arraytainer has
    [keys], so that [other[k]] is stored under every key [k] of it. *)
Definition dict_update (n : nat) (self other : pyobj) : outcome :=
  match other with
  | Arraytainer _ _ =>
      for_each (fun self k =>
                  match __getitem__ ext n other (of_key k) with
                  | Ok v => store self k v
                  | Error e => (Error e, self)
                  end)
        (keys other) self
  | PArr a =>
      match update_pairs a with
      | Ok kvs => for_each (fun self kv => store self (fst kv) (snd kv)) kvs self
      | Error e => (Error e, self)
      end
  | _ => (Error (TypeError "object is not iterable"), self)
  end.

Definition msg_use_update : string :=
  "Can't update a list-like Arraytainer; use the append method instead.".

Fixpoint update (n : nat) (self new_val : pyobj) (key_iterable : list pyobj)
    {struct n} : outcome :=
  match n with
  | O => (Error RecursionError, self)
  | S n' =>
      match _convert_to_array_or_arraytainer ext n' self new_val with
      | Error e => (Error e, self)
      | Ok new_val =>
          match key_iterable with
          | _ :: _ =>
              let key_iterable :=
                match key_iterable with
                | [x] => if has_getitem x then py_list x else Ok key_iterable
                | _ => Ok key_iterable
                end in
              match key_iterable with
              | Error e => (Error e, self)
              | Ok [] => (Error (IndexError "pop from empty list"), self)
              | Ok (key :: key_iterable) =>
                  match __getitem__ ext n' self key with
                  | Error e => (Error e, self)
                  | Ok x =>
                      if negb (is_arraytainer x) then
                        (Error (KeyError "Element specified by key_iterable is not an Arraytainer"),
                         self)
                      else
                        match raw_getitem (contents self) key with
                        | Error e => (Error e, self)
                        | Ok (Arraytainer c dt) =>
                            match update n' (Arraytainer c dt) new_val
                                    key_iterable with
                            | (r, child') =>
                                match raw_setitem (contents self) key child' with
                                | Ok c' => (r, Arraytainer c' (dtype_of self))
                                | Error e => (Error e, self)
                                end
                            end
                        | Ok _ =>
                            (Error (AttributeError "object has no attribute update"),
                             self)
                        end
                  end
              end
          | [] =>
              if negb (dict_like self) then
                (Error (TypeError msg_use_update), self)
              else dict_update n' self new_val
          end
      end
  end.

(** *** Reductions (source lines 259-269 and 330-332) *)

(** The truth value of an element. *)
Definition nonzero (z : Z) : bool := negb (z =? 0)%Z.

(** [a.all()] and [a.any()]. *)
Definition nd_all (a : ndarray) : bool := forallb nonzero (arr_data a).

Definition nd_any (a : ndarray) : bool := existsb nonzero (arr_data a).

(** The loop of [all]: it returns [False] at the first child that is not
    all true, without looking at the children after it. *)
Fixpoint all_loop (child_all : pyobj -> result bool) (contents : pyobj)
    (ks : list key) : result bool :=
  match ks with
  | [] => Ok true
  | key :: ks' =>
      let* c := contents_get contents key in
      let* b := child_all c in
      if negb b then Ok false else all_loop child_all contents ks'
  end.

Fixpoint all (n : nat) (self : pyobj) {struct n} : result bool :=
  match n with
  | O => Error RecursionError
  | S n' =>
      if is_arraytainer self then
        all_loop (fun c => match c with
                           | PArr a => Ok (nd_all a)
                           | Arraytainer _ _ => all n' c
                           | _ => attribute_error
                           end)
          (contents self) (keys self)
      else attribute_error
  end.

(** The loop of [any]: it returns [True] at the first child with a true
    element. *)
Fixpoint any_loop (child_any : pyobj -> result bool) (contents : pyobj)
    (ks : list key) : result bool :=
  match ks with
  | [] => Ok false
  | key :: ks' =>
      let* c := contents_get contents key in
      let* b := child_any c in
      if b then Ok true else any_loop child_any contents ks'
  end.

Fixpoint any (n : nat) (self : pyobj) {struct n} : result bool :=
  match n with
  | O => Error RecursionError
  | S n' =>
      if is_arraytainer self then
        any_loop (fun c => match c with
                           | PArr a => Ok (nd_any a)
                           | Arraytainer _ _ => any n' c
                           | _ => attribute_error
                           end)
          (contents self) (keys self)
      else attribute_error
  end.

(** The property [size]: the builtin [sum] of the sizes of the arrays. *)
Definition size (self : pyobj) : Z :=
  fold_left (fun acc array =>
               (acc + Z.of_nat (nd_size (create_array ext array None)))%Z)
    (list_arrays self) 0%Z.

(** *** Methods that call numpy on [self] (source lines 326-328 and
    491-492) *)

Definition np_ndim : callable :=
  fun args _ =>
    match args with
    | [a] => Ok (PInt (Z.of_nat (nd_ndim (asarray ext a))))
    | _ => Error (TypeError "ndim() takes 1 positional argument")
    end.

Definition ndim (n : nat) (self : pyobj) : result pyobj :=
  np_call ext n np_ndim [self] [].

(** [squeeze] with its default [axis=None]. *)
Definition squeeze (n : nat) (self : pyobj) : result pyobj :=
  np_call ext n (np_squeeze ext) [self] [(KStr "axis", PNone)].

(** *** [tolist] (source lines 297-311) *)

(** [a.tolist()]: nested lists along the axes, a scalar for a
    zero-dimensional array. *)
Fixpoint nd_tolist (shape : list nat) (data : list Z) : pyobj :=
  match shape with
  | [] => PInt (hd 0%Z data)
  | d :: tl =>
      PList (map (fun i => nd_tolist tl (chunk (prod_shape tl) i data))
               (seq 0 d))
  end.

Fixpoint tolist (n : nat) (self : pyobj) {struct n} : result pyobj :=
  match n with
  | O => Error RecursionError
  | S n' =>
      let* output :=
        mapM (fun kv =>
                let* t :=
                  match snd kv with
                  | PArr a =>
                      let tolist_val := nd_tolist (arr_shape a) (arr_data a) in
                      Ok (if 0 <? nd_ndim a
                          then PTuple (tuple_items tolist_val)
                          else tolist_val)
                  | Arraytainer _ _ => tolist n' (snd kv)
                  | val => Ok val
                  end in
                Ok (fst kv, t))
          (items self) in
      Ok (as_contents_of self (dict_of_items output))
  end.

End Methods.

(** Nested lists and dicts that hold no arraytainer. *)
Fixpoint no_arraytainer (x : pyobj) : bool :=
  match x with
  | PList l => forallb no_arraytainer l
  | PDict d => forallb (fun kv => no_arraytainer (snd kv)) d
  | Arraytainer _ _ => false
  | _ => true
  end.

(** What [tolist] returns for a value of a tree: the tuple of the rows
    of an array, its scalar when it has no axis, and the converted list
    or dict of an arraytainer. *)
Fixpoint listed (x : pyobj) : pyobj :=
  match x with
  | PArr a =>
      if 0 <? nd_ndim a
      then PTuple (tuple_items (nd_tolist (arr_shape a) (arr_data a)))
      else nd_tolist (arr_shape a) (arr_data a)
  | Arraytainer (PList l) _ => PList (map listed l)
  | Arraytainer (PDict d) _ => PDict (map (fun kv => (fst kv, listed (snd kv))) d)
  | _ => x
  end.

(** Shapes that [np.array] recovers from nested sequences: no axis of
    length zero before the last. *)
Fixpoint listable (shape : list nat) : bool :=
  match shape with
  | [] => true
  | d :: tl => (match tl with [] => true | _ => 0 <? d end) && listable tl
  end.

(** All leaves are arrays of such shapes, with as many elements as their
    shape says. *)
Fixpoint listable_leaves (x : pyobj) : bool :=
  match x with
  | PArr a => valid_arrayb a && listable (arr_shape a)
  | Arraytainer (PList l) _ => forallb listable_leaves l
  | Arraytainer (PDict d) _ => forallb (fun kv => listable_leaves (snd kv)) d
  | _ => false
  end.

(** Every leaf is an array that satisfies [p]. *)
Fixpoint all_leaves (p : ndarray -> bool) (x : pyobj) : bool :=
  match x with
  | PArr a => p a
  | Arraytainer (PList l) _ => forallb (all_leaves p) l
  | Arraytainer (PDict d) _ => forallb (fun kv => all_leaves p (snd kv)) d
  | _ => false
  end.

(** A leaf reshaped to [s]; where numpy cannot reshape it, the leaf. *)
Definition reshaped (s : list Z) (a : ndarray) : ndarray :=
  match nd_reshape a s with
  | Ok r => r
  | Error _ => a
  end.

Definition can_reshape (s : list Z) (a : ndarray) : bool :=
  is_ok (nd_reshape a s).

(** The shape as the call for a key receives it: a single int is taken
    out of its tuple. *)
Definition shape_for_key (s : list Z) : pyobj :=
  match s with
  | [z] => PInt z
  | _ => PTuple (map PInt s)
  end.

(** A dict-like tree whose only key is [None]. *)
Definition none_only (a : ndarray) (dt : option dtype) : pyobj :=
  Arraytainer (PDict [(KNone, PArr a)]) dt.


(** Every tuple among the values, at any depth of the lists and dicts,
    is a sequence of numbers that [np.array] stacks. *)
Fixpoint numeric_tuples (x : pyobj) : bool :=
  match x with
  | PList l => forallb numeric_tuples l
  | PDict d => forallb (fun kv => numeric_tuples (snd kv)) d
  | PTuple _ => match np_array_num x with Some _ => true | None => false end
  | _ => true
  end.

(** Every value, at any depth of the lists and dicts, is an array. *)
Fixpoint array_values (x : pyobj) : bool :=
  match x with
  | PList l => forallb array_values l
  | PDict d => forallb (fun kv => array_values (snd kv)) d
  | PArr _ => true
  | _ => false
  end.

(** The arraytainers of a tree with their keys and [dtype] attributes,
    the leaves left out. *)
Fixpoint skeleton (x : pyobj) : pyobj :=
  match x with
  | Arraytainer (PList l) dt => Arraytainer (PList (map skeleton l)) dt
  | Arraytainer (PDict d) dt =>
      Arraytainer (PDict (map (fun kv => (fst kv, skeleton (snd kv))) d)) dt
  | _ => PNone
  end.

(** ** Results on the construction layer *)

Section key_induction.
Variable P : key -> Prop.
Hypothesis HInt : forall z, P (KInt z).
Hypothesis HStr : forall s, P (KStr s).
Hypothesis HNone : P KNone.
Hypothesis HTuple : forall l, Forall P l -> P (KTuple l).

Fixpoint key_nested_ind (k : key) : P k :=
  match k with
  | KInt z => HInt z
  | KStr s => HStr s
  | KNone => HNone
  | KTuple l =>
      HTuple ((fix go (l : list key) : Forall P l :=
                 match l with
                 | [] => Forall_nil P
                 | y :: l' => Forall_cons y (key_nested_ind y) (go l')
                 end) l)
  end.
End key_induction.

Unset Implicit Arguments.

Lemma key_eqb_eq (a b : key) : key_eqb a b = true <-> a = b.
Proof.
  revert b. induction a using key_nested_ind; intros b; destruct b; simpl;
    try (split; [discriminate | congruence]).
  - rewrite Z.eqb_eq. split; congruence.
  - rewrite String.eqb_eq. split; congruence.
  - tauto.
  - revert l0. induction H as [|x l Hx Hl IH]; intros [|y l0]; simpl;
      try (split; [discriminate | congruence]).
    + tauto.
    + rewrite andb_true_iff, Hx. fold (key_eqb (KTuple l) (KTuple l0)) in *.
      specialize (IH l0). simpl in IH. rewrite IH.
      split; [intros [-> H1]; congruence | intros H1; injection H1; intros; subst; auto].
Qed.

Lemma key_eqb_refl (k : key) : key_eqb k k = true.
Proof. apply key_eqb_eq. reflexivity. Qed.

Lemma key_eqb_neq (a b : key) : key_eqb a b = false <-> a <> b.
Proof.
  split.
  - intros H E. apply key_eqb_eq in E. congruence.
  - intros H. destruct (key_eqb a b) eqn:E; auto.
    apply key_eqb_eq in E. contradiction.
Qed.

Lemma key_in_In (k : key) (ks : list key) : key_in k ks = true <-> In k ks.
Proof.
  unfold key_in. rewrite existsb_exists. split.
  - intros [x [Hx E]]. apply key_eqb_eq in E. subst. exact Hx.
  - intros H. exists k. split; auto using key_eqb_refl.
Qed.

Lemma distinct_keys_NoDup (ks : list key) :
  distinct_keys ks = true <-> NoDup ks.
Proof.
  induction ks as [|k ks IH]; simpl.
  - split; auto using NoDup_nil.
  - rewrite andb_true_iff, negb_true_iff, IH. split.
    + intros [H1 H2]. constructor; auto.
      intros Hin. apply key_in_In in Hin. congruence.
    + intros H. inversion H; subst. split; auto.
      destruct (key_in k ks) eqn:E; auto. apply key_in_In in E. contradiction.
Qed.

Lemma dict_set_fresh {V : Type} (d : list (key * V)) (k : key) (v : V) :
  ~ In k (map fst d) -> dict_set d k v = d ++ [(k, v)].
Proof.
  induction d as [|[k' v'] d IH]; simpl; intros H; auto.
  destruct (key_eqb k k') eqn:E.
  - apply key_eqb_eq in E. subst. tauto.
  - rewrite IH; auto.
Qed.

Lemma dict_of_items_NoDup {V : Type} (l : list (key * V)) :
  NoDup (map fst l) -> dict_of_items l = l.
Proof.
  unfold dict_of_items.
  assert (G : forall acc : list (key * V),
             NoDup (map fst (acc ++ l)) ->
             fold_left (fun a kv => dict_set a (fst kv) (snd kv)) l acc
             = acc ++ l).
  { induction l as [|[k v] l IH]; simpl; intros acc H.
    - now rewrite app_nil_r.
    - rewrite dict_set_fresh.
      + rewrite IH; rewrite <- app_assoc; simpl; auto.
      + rewrite map_app in H. simpl in H.
        apply NoDup_remove_2 in H. intros Hin. apply H.
        apply in_or_app. now left. }
  intros H. now rewrite (G []).
Qed.

Lemma mapM_ok_map {A B : Type} (f : A -> result B) (g : A -> B) (l : list A) :
  Forall (fun x => f x = Ok (g x)) l -> mapM f l = Ok (map g l).
Proof.
  induction 1 as [|x l Hx Hl IH]; simpl; auto.
  rewrite Hx. simpl. rewrite IH. reflexivity.
Qed.

Lemma mapM_ok_id {A : Type} (f : A -> result A) (l : list A) :
  Forall (fun x => f x = Ok x) l -> mapM f l = Ok l.
Proof.
  intros H. rewrite (mapM_ok_map f (fun x => x)); auto.
  now rewrite map_id.
Qed.

Lemma height_in_list (y : pyobj) (l : list pyobj) :
  In y l -> height y <= fold_right (fun y m => Nat.max (height y) m) 0 l.
Proof.
  induction l as [|x l IH]; simpl; intros H; [tauto|].
  destruct H as [->|H]; [lia|]. specialize (IH H). lia.
Qed.

Lemma height_in_dict (kv : key * pyobj) (d : list (key * pyobj)) :
  In kv d ->
  height (snd kv) <= fold_right (fun kv m => Nat.max (height (snd kv)) m) 0 d.
Proof.
  induction d as [|x d IH]; simpl; intros H; [tauto|].
  destruct H as [->|H]; [lia|]. specialize (IH H). lia.
Qed.

Lemma height_pos (x : pyobj) : 1 <= height x.
Proof. destruct x; simpl; lia. Qed.

Lemma value_ok_raw_ok (x : pyobj) : value_ok x = true -> raw_ok x = true.
Proof. destruct x; simpl; auto; discriminate. Qed.

Section ConstructionFacts.

Variable ext : numpy_ext.

Lemma create_array_array (a : ndarray) (dt : option dtype) :
  create_array ext (PArr a) dt = a.
Proof. reflexivity. Qed.

(** The conversion loop leaves Leaf Arrays and Container Trees alone. *)
Lemma convert_value_ok
    (cls : pyobj -> bool -> option dtype -> result pyobj)
    (dt : option dtype) (conv : bool) (v : pyobj) :
  value_ok v = true -> convert_value ext cls dt conv v = Ok v.
Proof.
  destruct v; simpl; try discriminate; intros _; unfold convert_value; simpl.
  - destruct conv; reflexivity.
  - reflexivity.
Qed.

Lemma conversion_ok
    (cls : pyobj -> bool -> option dtype -> result pyobj)
    (dt : option dtype) (conv : bool) (c : pyobj) :
  value_ok (Arraytainer c dt) = true ->
  _recursive_arraytainer_conversion ext cls c dt conv = Ok c.
Proof.
  destruct c; simpl; try discriminate.
  - intros H. rewrite mapM_ok_id; auto.
    rewrite forallb_forall in H. apply Forall_forall. intros x Hx.
    apply convert_value_ok. auto.
  - intros H. apply andb_true_iff in H. destruct H as [_ H].
    rewrite mapM_ok_id; auto.
    rewrite forallb_forall in H. apply Forall_forall. intros [k v] Hx.
    simpl. rewrite convert_value_ok; auto. apply (H _ Hx).
Qed.

Lemma keys_contain_tuple_ok (d : list (key * pyobj)) :
  dict_keys_ok (map fst d) = true -> _keys_contain_tuple (PDict d) = false.
Proof.
  unfold dict_keys_ok. rewrite andb_true_iff, negb_true_iff.
  intros [_ H]. simpl. induction d as [|kv d IH]; simpl in *; auto.
  apply orb_false_iff in H. destruct H as [H1 H2].
  rewrite H1, IH; auto.
Qed.

(** Deep copies of raw data and of Container Trees are equal to the
    original, given a recursion budget that covers their height. *)
Lemma copy_deepcopy_raw (x : pyobj) :
  raw_ok x = true ->
  forall n, height x <= n -> copy_deepcopy ext n x = Ok x.
Proof.
  induction x using pyobj_nested_ind; intros Hok n Hn;
    (destruct n as [|n]; [simpl in Hn; lia|]); simpl; auto.
  - (* tuple *)
    simpl in Hok, Hn. rewrite mapM_ok_id; auto.
    rewrite Forall_forall in *. intros y Hy.
    rewrite forallb_forall in Hok.
    apply H; auto. pose proof (height_in_list y l Hy). lia.
  - (* list *)
    simpl in Hok, Hn. rewrite mapM_ok_id; auto.
    rewrite Forall_forall in *. intros y Hy.
    rewrite forallb_forall in Hok.
    apply H; auto. pose proof (height_in_list y l Hy). lia.
  - (* dict *)
    simpl in Hok, Hn. apply andb_true_iff in Hok. destruct Hok as [_ Hok].
    rewrite mapM_ok_id; auto.
    rewrite Forall_forall in *. intros [k v] Hy.
    rewrite forallb_forall in Hok. simpl.
    pose proof (H (k, v) Hy (Hok _ Hy) n) as E. simpl in E.
    rewrite E; auto.
    pose proof (height_in_dict (k, v) d Hy). simpl in *. lia.
  - (* arraytainer *)
    simpl in Hn. destruct n as [|n]; [lia|].
    assert (Hc : raw_ok x = true /\ (is_list x || is_dict x) = true
                 /\ (is_dict x && _keys_contain_tuple x) = false).
    { destruct x; simpl in Hok; try discriminate.
      - repeat split; auto. simpl.
        rewrite forallb_forall in *. intros y Hy.
        apply value_ok_raw_ok; auto.
      - apply andb_true_iff in Hok. destruct Hok as [Hk Hv].
        repeat split; auto.
        + simpl. unfold dict_keys_ok in Hk. apply andb_true_iff in Hk.
          destruct Hk as [Hk _]. rewrite Hk. simpl.
          rewrite forallb_forall in *. intros y Hy.
          apply value_ok_raw_ok; auto.
        + rewrite keys_contain_tuple_ok; auto. }
    destruct Hc as [Hr [Hl Ht]].
    cbn [__init__]. rewrite Hl, Ht. simpl negb. cbv iota.
    rewrite IHx; auto; [|lia]. simpl.
    rewrite conversion_ok; auto.
Qed.

Lemma init_unfold (n : nat) (c : pyobj) (conv : bool) (dt : option dtype)
    (dc : bool) :
  __init__ ext (S n) c conv dt dc =
  if negb (is_list c || is_dict c) then Error (ValueError msg_not_container)
  else if is_dict c && _keys_contain_tuple c then Error (KeyError msg_tuple_key)
  else
    let* c1 := (if dc then copy_deepcopy ext n c else Ok c) in
    let* c2 := _recursive_arraytainer_conversion ext
                 (fun val conv dt => __init__ ext n val conv dt true)
                 c1 dt conv in
    Ok (Arraytainer c2 dt).
Proof. reflexivity. Qed.

Lemma contents_checks (c : pyobj) (dt : option dtype) :
  value_ok (Arraytainer c dt) = true ->
  raw_ok c = true /\ (is_list c || is_dict c) = true
  /\ (is_dict c && _keys_contain_tuple c) = false.
Proof.
  intros Hok. destruct c; simpl in Hok; try discriminate.
  - repeat split; auto. simpl.
    rewrite forallb_forall in *. intros y Hy.
    apply value_ok_raw_ok; auto.
  - apply andb_true_iff in Hok. destruct Hok as [Hk Hv].
    repeat split; auto.
    + simpl. unfold dict_keys_ok in Hk. apply andb_true_iff in Hk.
      destruct Hk as [Hk _]. rewrite Hk. simpl.
      rewrite forallb_forall in *. intros y Hy.
      apply value_ok_raw_ok; auto.
    + rewrite keys_contain_tuple_ok; auto.
Qed.


End ConstructionFacts.

(** Induction over Leaf Arrays and Container Trees. *)
Lemma value_ok_ind (P : pyobj -> Prop) :
  (forall a, P (PArr a)) ->
  (forall l dt,
      forallb value_ok l = true -> Forall P l ->
      P (Arraytainer (PList l) dt)) ->
  (forall d dt,
      dict_keys_ok (map fst d) = true ->
      forallb (fun kv => value_ok (snd kv)) d = true ->
      Forall (fun kv => P (snd kv)) d ->
      P (Arraytainer (PDict d) dt)) ->
  forall x, value_ok x = true -> P x.
Proof.
  intros HA HL HD x.
  cut ((value_ok x = true -> P x)
       /\ (forall dt, value_ok (Arraytainer x dt) = true ->
                      P (Arraytainer x dt))); [tauto|].
  induction x using pyobj_nested_ind; simpl; split; try discriminate; auto.
  - intros dt Hok. apply HL; auto.
    rewrite Forall_forall in *. rewrite forallb_forall in Hok.
    intros y Hy. apply (H y Hy); auto.
  - intros dt Hok. apply andb_true_iff in Hok. destruct Hok as [Hk Hv].
    apply HD; auto.
    rewrite Forall_forall in *. rewrite forallb_forall in Hv.
    intros y Hy. apply (H y Hy); auto.
  - intros Hok. destruct IHx as [_ IH]. apply IH. exact Hok.
Qed.

Lemma mapM_map {A B C : Type} (f : B -> result C) (g : A -> B) (l : list A) :
  mapM f (map g l) = mapM (fun x => f (g x)) l.
Proof.
  induction l as [|x l IH]; simpl; auto. now rewrite IH.
Qed.

(** A loop whose turns either succeed or raise one and the same
    exception raises it exactly when some turn does. *)
Lemma mapM_first_error {A B : Type} (f : A -> result B) (p : A -> bool)
    (e : exn) (l : list A) :
  Forall (fun x => if p x then f x = Error e else exists y, f x = Ok y) l ->
  if existsb p l then mapM f l = Error e else exists ys, mapM f l = Ok ys.
Proof.
  induction 1 as [|x l Hx Hl IH]; simpl.
  - eauto.
  - destruct (p x); simpl.
    + now rewrite Hx.
    + destruct Hx as [y Hy]. rewrite Hy. simpl.
      destruct (existsb p l).
      * now rewrite IH.
      * destruct IH as [ys Hys]. rewrite Hys. simpl. eauto.
Qed.

Section ConstructionResults.

Variable ext : numpy_ext.

(** Construction either succeeds or raises the tuple-key error,
    according to whether a tuple is among the keys of the input. *)
Lemma init_raw_cases (c : pyobj) :
  raw_ok c = true ->
  (is_list c || is_dict c) = true ->
  forall n conv dt dc,
    S (height c) <= n ->
    if has_tuple_key c
    then __init__ ext n c conv dt dc = Error (KeyError msg_tuple_key)
    else exists t, __init__ ext n c conv dt dc = Ok t.
Proof.
  induction c using pyobj_nested_ind; simpl; try discriminate;
    intros Hok _ n conv dt dc Hn; (destruct n as [|n]; [lia|]);
    rewrite init_unfold; simpl negb; cbv iota.
  - (* list *)
    simpl andb. cbv iota.
    assert (E : (if dc then copy_deepcopy ext n (PList l) else Ok (PList l))
                = Ok (PList l)).
    { destruct dc; auto. apply copy_deepcopy_raw; auto. simpl. lia. }
    rewrite E. simpl.
    assert (G : Forall (fun y =>
                  if has_tuple_key y
                  then convert_value ext
                         (fun val conv dt => __init__ ext n val conv dt true)
                         dt conv y = Error (KeyError msg_tuple_key)
                  else exists v, convert_value ext
                         (fun val conv dt => __init__ ext n val conv dt true)
                         dt conv y = Ok v) l).
    { rewrite Forall_forall in *. rewrite forallb_forall in Hok.
      intros y Hy. specialize (H y Hy (Hok y Hy)).
      pose proof (height_in_list y l Hy) as Hh.
      unfold convert_value.
      destruct (is_arraytainer y) eqn:Ea.
      { destruct y; simpl in *; try discriminate. eauto. }
      destruct (is_list y || is_dict y) eqn:El.
      { apply H; auto. lia. }
      assert (has_tuple_key y = false) as ->
          by (destruct y; simpl in *; auto; discriminate).
      destruct conv; eauto. }
    apply mapM_first_error in G.
    destruct (existsb has_tuple_key l).
    + now rewrite G.
    + destruct G as [ys ->]. simpl. eauto.
  - (* dict *)
    apply andb_true_iff in Hok. destruct Hok as [Hk Hok].
    simpl andb.
    destruct (existsb (fun kv => is_tuple_key (fst kv)) d) eqn:Et.
    + assert (existsb (fun kv => is_tuple_key (fst kv) || has_tuple_key (snd kv)) d
              = true) as ->; auto.
      apply existsb_exists in Et. destruct Et as [kv [Hin Hkv]].
      apply existsb_exists. exists kv. rewrite Hkv. auto.
    + assert (Ex : existsb (fun kv => is_tuple_key (fst kv)
                                      || has_tuple_key (snd kv)) d
                   = existsb (fun kv => has_tuple_key (snd kv)) d).
      { clear - Et. induction d as [|kv d IH]; simpl in *; auto.
        apply orb_false_iff in Et. destruct Et as [-> Et].
        simpl. now rewrite IH. }
      rewrite Ex.
      assert (E : (if dc then copy_deepcopy ext n (PDict d) else Ok (PDict d))
                  = Ok (PDict d)).
      { destruct dc; auto. apply copy_deepcopy_raw; auto.
        - simpl. now rewrite Hk, Hok.
        - simpl. lia. }
      rewrite E. simpl.
      assert (G : Forall (fun kv =>
                  if has_tuple_key (snd kv)
                  then (let* v := convert_value ext
                         (fun val conv dt => __init__ ext n val conv dt true)
                         dt conv (snd kv) in Ok (fst kv, v))
                       = Error (KeyError msg_tuple_key)
                  else exists v, (let* v := convert_value ext
                         (fun val conv dt => __init__ ext n val conv dt true)
                         dt conv (snd kv) in Ok (fst kv, v)) = Ok v) d).
      { rewrite Forall_forall in *. rewrite forallb_forall in Hok.
        intros [k y] Hy. specialize (H _ Hy (Hok _ Hy)). simpl in *.
        pose proof (height_in_dict _ d Hy) as Hh. simpl in Hh.
        unfold convert_value.
        destruct (is_arraytainer y) eqn:Ea.
        { destruct y; simpl in *; try discriminate. eauto. }
        destruct (is_list y || is_dict y) eqn:El.
        { assert (H' : S (height y) <= n ->
                       if has_tuple_key y
                       then __init__ ext n y conv dt true
                            = Error (KeyError msg_tuple_key)
                       else exists t, __init__ ext n y conv dt true = Ok t)
            by (apply H; auto).
          destruct (has_tuple_key y).
          - rewrite H'; auto. lia.
          - destruct H' as [t ->]; [lia|]. simpl. eauto. }
        assert (has_tuple_key y = false) as ->
            by (destruct y; simpl in *; auto; discriminate).
        destruct conv; simpl; eauto. }
      apply (mapM_first_error _ (fun kv => has_tuple_key (snd kv))) in G.
      destruct (existsb (fun kv => has_tuple_key (snd kv)) d).
      * now rewrite G.
      * destruct G as [ys ->]. simpl. eauto.
Qed.

End ConstructionResults.

Lemma max_height_map (f : pyobj -> pyobj) (l : list pyobj) :
  Forall (fun y => height (f y) <= height y) l ->
  fold_right (fun y m => Nat.max (height y) m) 0 (map f l)
  <= fold_right (fun y m => Nat.max (height y) m) 0 l.
Proof. induction 1; simpl; lia. Qed.

Lemma max_height_map_dict (f : pyobj -> pyobj) (d : list (key * pyobj)) :
  Forall (fun kv => height (f (snd kv)) <= height (snd kv)) d ->
  fold_right (fun kv m => Nat.max (height (snd kv)) m) 0
    (map (fun kv => (fst kv, f (snd kv))) d)
  <= fold_right (fun kv m => Nat.max (height (snd kv)) m) 0 d.
Proof. induction 1; simpl; lia. Qed.

Lemma map_fst_map_snd {A B C : Type} (f : B -> C) (d : list (A * B)) :
  map fst (map (fun kv => (fst kv, f (snd kv))) d) = map fst d.
Proof. induction d as [|[k v] d IH]; simpl; congruence. Qed.

Lemma dict_keys_distinct (ks : list key) :
  dict_keys_ok ks = true -> NoDup ks.
Proof.
  unfold dict_keys_ok. rewrite andb_true_iff. intros [H _].
  now apply distinct_keys_NoDup.
Qed.

Lemma unpack_list (l : list pyobj) (dt : option dtype) :
  unpack (Arraytainer (PList l) dt) = PList (map unpack_value l).
Proof. reflexivity. Qed.

Lemma unpack_dict (d : list (key * pyobj)) (dt : option dtype) :
  dict_keys_ok (map fst d) = true ->
  unpack (Arraytainer (PDict d) dt)
  = PDict (map (fun kv => (fst kv, unpack_value (snd kv))) d).
Proof.
  intros H. change (unpack (Arraytainer (PDict d) dt))
    with (PDict (dict_of_items
                   (map (fun kv => (fst kv, unpack_value (snd kv))) d))).
  rewrite dict_of_items_NoDup; auto.
  rewrite map_fst_map_snd. now apply dict_keys_distinct.
Qed.

(** What [unpack] returns is raw data without arraytainers, no higher
    than the tree it comes from. *)
Lemma unpack_value_facts (x : pyobj) :
  value_ok x = true ->
  raw_ok (unpack_value x) = true /\ height (unpack_value x) <= height x.
Proof.
  revert x. apply value_ok_ind.
  - intros a. simpl. auto.
  - intros l dt Hok IH. unfold unpack_value. simpl is_arraytainer. cbv iota.
    rewrite unpack_list. split.
    + simpl. apply forallb_forall. intros y Hy.
      apply in_map_iff in Hy. destruct Hy as [z [<- Hz]].
      rewrite Forall_forall in IH. apply (IH z Hz).
    + simpl. pose proof (max_height_map unpack_value l) as Hm.
      assert (Forall (fun y => height (unpack_value y) <= height y) l).
      { rewrite Forall_forall in *. intros y Hy. apply (IH y Hy). }
      specialize (Hm H). lia.
  - intros d dt Hk Hok IH. unfold unpack_value. simpl is_arraytainer. cbv iota.
    rewrite unpack_dict; auto. split.
    + simpl. rewrite map_fst_map_snd.
      unfold dict_keys_ok in Hk. apply andb_true_iff in Hk.
      destruct Hk as [-> _]. simpl.
      apply forallb_forall. intros y Hy.
      apply in_map_iff in Hy. destruct Hy as [z [<- Hz]]. simpl.
      rewrite Forall_forall in IH. apply (IH z Hz).
    + simpl. pose proof (max_height_map_dict unpack_value d) as Hm.
      assert (Forall (fun kv => height (unpack_value (snd kv))
                                <= height (snd kv)) d).
      { rewrite Forall_forall in *. intros y Hy. apply (IH y Hy). }
      specialize (Hm H). lia.
Qed.

Lemma unpack_is_container (x : pyobj) :
  value_ok x = true -> is_arraytainer x = true ->
  is_arraytainer (unpack x) = false
  /\ (is_list (unpack x) || is_dict (unpack x)) = true.
Proof.
  destruct x; try discriminate. intros Hok _.
  destruct x; simpl in Hok; try discriminate.
  - rewrite unpack_list. auto.
  - apply andb_true_iff in Hok. destruct Hok as [Hk _].
    rewrite unpack_dict; auto.
Qed.

Section UnpackResults.

Variable ext : numpy_ext.

(** One turn of the conversion loop on what [unpack] stored for a
    child rebuilds the child, without its [dtype]. *)
Lemma convert_unpack_value (n : nat) (y : pyobj) :
  value_ok y = true ->
  (is_arraytainer y = true ->
   new ext n (unpack y) = Ok (clear_dtype y)) ->
  convert_value ext (fun val conv dt => __init__ ext n val conv dt true)
    None true (unpack_value y) = Ok (clear_dtype y).
Proof.
  intros Hok IH. unfold unpack_value.
  destruct (is_arraytainer y) eqn:Ea.
  - destruct (unpack_is_container y Hok Ea) as [Hn Hl].
    unfold convert_value. rewrite Hn, Hl. apply IH. reflexivity.
  - destruct y; simpl in *; try discriminate. reflexivity.
Qed.

Lemma new_unpack (x : pyobj) :
  value_ok x = true ->
  is_arraytainer x = true ->
  forall n, height x <= n -> new ext n (unpack x) = Ok (clear_dtype x).
Proof.
  revert x. apply (value_ok_ind
    (fun x => is_arraytainer x = true ->
              forall n, height x <= n ->
                        new ext n (unpack x) = Ok (clear_dtype x))).
  - discriminate.
  - intros l dt Hok IH _ n Hn. simpl in Hn.
    destruct n as [|n]; [lia|].
    rewrite unpack_list. unfold new. rewrite init_unfold.
    simpl negb. simpl andb. cbv iota.
    assert (Hv : Forall (fun y => raw_ok (unpack_value y) = true
                                  /\ height (unpack_value y) <= height y) l).
    { rewrite forallb_forall in Hok. apply Forall_forall.
      intros y Hy. apply unpack_value_facts. auto. }
    rewrite copy_deepcopy_raw.
    + simpl. rewrite mapM_map.
      rewrite (mapM_ok_map _ clear_dtype).
      * reflexivity.
      * rewrite forallb_forall in Hok. rewrite Forall_forall in *.
        intros y Hy. apply convert_unpack_value; auto.
        intros Ea. apply (IH y Hy Ea).
        pose proof (height_in_list y l Hy). lia.
    + simpl. apply forallb_forall. intros y Hy.
      apply in_map_iff in Hy. destruct Hy as [z [<- Hz]].
      rewrite Forall_forall in Hv. apply (Hv z Hz).
    + simpl. pose proof (max_height_map unpack_value l) as Hm.
      assert (Forall (fun y => height (unpack_value y) <= height y) l).
      { rewrite Forall_forall in *. intros y Hy. apply (Hv y Hy). }
      specialize (Hm H). lia.
  - intros d dt Hk Hok IH _ n Hn. simpl in Hn.
    destruct n as [|n]; [lia|].
    rewrite unpack_dict; auto. unfold new. rewrite init_unfold.
    simpl negb. cbv iota.
    assert (Hv : Forall (fun kv => raw_ok (unpack_value (snd kv)) = true
                                   /\ height (unpack_value (snd kv))
                                      <= height (snd kv)) d).
    { rewrite forallb_forall in Hok. apply Forall_forall.
      intros y Hy. apply unpack_value_facts. auto. }
    assert (Hkt : (is_dict (PDict (map (fun kv => (fst kv, unpack_value (snd kv))) d))
                   && _keys_contain_tuple
                        (PDict (map (fun kv => (fst kv, unpack_value (snd kv))) d)))
                  = false).
    { simpl is_dict. rewrite keys_contain_tuple_ok; auto.
      now rewrite map_fst_map_snd. }
    rewrite Hkt.
    rewrite copy_deepcopy_raw.
    + simpl. rewrite mapM_map.
      rewrite (mapM_ok_map _ (fun kv => (fst kv, clear_dtype (snd kv)))).
      * reflexivity.
      * rewrite forallb_forall in Hok. rewrite Forall_forall in *.
        intros y Hy. simpl. rewrite convert_unpack_value; auto.
        intros Ea. apply (IH y Hy Ea).
        pose proof (height_in_dict y d Hy). lia.
    + simpl. rewrite map_fst_map_snd.
      unfold dict_keys_ok in Hk. apply andb_true_iff in Hk.
      destruct Hk as [-> _]. simpl.
      apply forallb_forall. intros y Hy.
      apply in_map_iff in Hy. destruct Hy as [z [<- Hz]]. simpl.
      rewrite Forall_forall in Hv. apply (Hv z Hz).
    + simpl. pose proof (max_height_map_dict unpack_value d) as Hm.
      assert (Forall (fun kv => height (unpack_value (snd kv))
                                <= height (snd kv)) d).
      { rewrite Forall_forall in *. intros y Hy. apply (Hv y Hy). }
      specialize (Hm H). lia.
Qed.

End UnpackResults.

(** ** Construction: the claims *)

(** C8 (as amended).  Construction from an input in which some mapping
    key, at any depth of its lists and dicts, is a tuple produces no
    tree: it raises.  What it raises is the [KeyError] that reports a
    tuple among the keys (the KeyKind error of the specification) when
    the tuple is among the keys of the input itself, which is checked
    before anything else, and when no conversion of a value can fail
    before the mapping is reached: [array_conversions] is off, or no
    [dtype] is asked for and every tuple among the values is a sequence
    of numbers that [np.array] stacks.  The input is any raw data whose
    dicts have distinct keys, and the recursion budget covers its
    height. *)
Theorem C8_tuple_key_rejected (ext : numpy_ext) (contents : pyobj)
    (array_conversions : bool) (dtype : option dtype) (deepcopy : bool)
    (n : nat) :
  raw_ok contents = true ->
  has_tuple_key contents = true ->
  S (height contents) <= n ->
  (exists e,
      __init__ ext n contents array_conversions dtype deepcopy = Error e)
  /\ (_keys_contain_tuple contents = true ->
      forall m,
        __init__ ext (S m) contents array_conversions dtype deepcopy
        = Error (KeyError msg_tuple_key))
  /\ (array_conversions = false
      \/ (dtype = None /\ numeric_tuples contents = true) ->
      __init__ ext n contents array_conversions dtype deepcopy
      = Error (KeyError msg_tuple_key)).
Proof.
  intros Hok Ht Hn.
  assert (Hl : (is_list contents || is_dict contents) = true)
    by (destruct contents; simpl in *; auto; discriminate).
  pose proof (init_raw_cases ext contents Hok Hl n array_conversions dtype
                deepcopy Hn) as H.
  rewrite Ht in H. split; [|split].
  - eexists. exact H.
  - intros Hk m. rewrite init_unfold.
    destruct contents; try discriminate Hk.
    cbn [is_list is_dict orb negb andb]. now rewrite Hk.
  - intros _. exact H.
Qed.

Lemma C8_tuple_key_rejected_witness :
  ((exists e, new numpy_fragment 3 tuple_keyed = Error e)
   /\ (_keys_contain_tuple tuple_keyed = true ->
       forall m, new numpy_fragment (S m) tuple_keyed
                 = Error (KeyError msg_tuple_key))
   /\ (true = false \/ (@None dtype = None
                        /\ numeric_tuples tuple_keyed = true) ->
       new numpy_fragment 3 tuple_keyed = Error (KeyError msg_tuple_key)))
  /\ ((exists e,
         __init__ numpy_fragment 5 tuple_keyed_nested false (Some float64) true
         = Error e)
      /\ (_keys_contain_tuple tuple_keyed_nested = true ->
          forall m,
            __init__ numpy_fragment (S m) tuple_keyed_nested false
              (Some float64) true
            = Error (KeyError msg_tuple_key))
      /\ (false = false
          \/ (Some float64 = None
              /\ numeric_tuples tuple_keyed_nested = true) ->
          __init__ numpy_fragment 5 tuple_keyed_nested false (Some float64)
            true
          = Error (KeyError msg_tuple_key))).
Proof.
  split.
  - apply (C8_tuple_key_rejected numpy_fragment tuple_keyed true None true 3);
      [reflexivity | reflexivity | simpl; lia].
  - apply (C8_tuple_key_rejected numpy_fragment tuple_keyed_nested false
             (Some float64) true 5);
      [reflexivity | reflexivity | simpl; lia].
Defined.

(** C8 (the claim as it was stated).  A mapping with a tuple key that
    sits inside a tuple of the input is not looked at: the constructor
    goes into lists and dicts only, and a tuple is a value.  With
    [array_conversions] off, [[7, ({(1, 2): 5},)]] is accepted as it is;
    no key of its lists and dicts is a tuple. *)
Theorem C8_tuple_key_inside_tuple :
  has_tuple_key (PList [PInt 7; PTuple [tuple_keyed]]) = false
  /\ forall (ext : numpy_ext) (dtype : option dtype) (deepcopy : bool)
            (n : nat),
      __init__ ext (S (S (S (S (S n))))) (PList [PInt 7; PTuple [tuple_keyed]])
        false dtype deepcopy
      = Ok (Arraytainer (PList [PInt 7; PTuple [tuple_keyed]]) dtype).
Proof.
  split; [reflexivity|].
  intros ext dtype [|] n; reflexivity.
Qed.
Lemma unpack_clear_dtype (x : pyobj) :
  value_ok x = true -> unpack_value (clear_dtype x) = unpack_value x.
Proof.
  revert x. apply value_ok_ind.
  - reflexivity.
  - intros l dt _ IH. unfold unpack_value. simpl. f_equal.
    rewrite map_map. apply map_ext_in. intros y Hy.
    rewrite Forall_forall in IH. apply (IH y Hy).
  - intros d dt _ _ IH. unfold unpack_value. simpl. f_equal.
    rewrite map_map. f_equal. apply map_ext_in. intros y Hy. simpl.
    rewrite Forall_forall in IH.
    change (if is_arraytainer (clear_dtype (snd y))
            then unpack (clear_dtype (snd y)) else clear_dtype (snd y))
      with (unpack_value (clear_dtype (snd y))).
    now rewrite (IH y Hy).
Qed.

(** C6.  For every Container Tree [T], constructing an arraytainer, with
    the constructor's defaults, from [unpack(T)] succeeds and yields [T]
    without its [dtype] attributes: the same keying mode and keys at
    every node and the same leaf arrays, so that unpacking the result
    gives [unpack(T)] again. *)
Theorem C6_unpack_roundtrip (ext : numpy_ext) (T : pyobj) (n : nat) :
  container_tree T = true ->
  height T <= n ->
  new ext n (unpack T) = Ok (clear_dtype T)
  /\ unpack (clear_dtype T) = unpack T.
Proof.
  unfold container_tree. rewrite andb_true_iff. intros [Ha Hok] Hn. split.
  - now apply new_unpack.
  - pose proof (unpack_clear_dtype T Hok) as H. unfold unpack_value in H.
    rewrite Ha in H.
    destruct T; try discriminate. destruct T; simpl in Hok; try discriminate;
      exact H.
Qed.

Lemma C6_unpack_roundtrip_witness :
  new numpy_fragment 7 (unpack nested_tree) = Ok (clear_dtype nested_tree)
  /\ unpack (clear_dtype nested_tree) = unpack nested_tree.
Proof.
  apply (C6_unpack_roundtrip numpy_fragment nested_tree 7);
    [reflexivity | simpl; lia].
Defined.

(** ** The indexing engine: reading *)


Lemma mapM_ext {A B : Type} (f g : A -> result B) (l : list A) :
  (forall x, In x l -> f x = g x) -> mapM f l = mapM g l.
Proof.
  induction l as [|x l IH]; simpl; intros H; auto.
  rewrite H by auto. rewrite IH by auto. reflexivity.
Qed.

Lemma mapM_length {A B : Type} (f : A -> result B) (l : list A) (ys : list B) :
  mapM f l = Ok ys -> length ys = length l.
Proof.
  revert ys. induction l as [|x l IH]; simpl; intros ys H.
  - injection H as <-. reflexivity.
  - destruct (f x); simpl in H; try discriminate.
    destruct (mapM f l); simpl in H; try discriminate.
    injection H as <-. simpl. f_equal. now apply IH.
Qed.

Lemma mapM_pair {A B : Type} (f : A -> result B) (l : list A) (vs : list B) :
  mapM f l = Ok vs ->
  mapM (fun x => let* v := f x in Ok (x, v)) l = Ok (combine l vs).
Proof.
  revert vs. induction l as [|x l IH]; simpl; intros vs H.
  - injection H as <-. reflexivity.
  - destruct (f x); simpl in *; try discriminate.
    destruct (mapM f l) as [ys|]; simpl in *; try discriminate.
    injection H as <-. rewrite (IH ys eq_refl). reflexivity.
Qed.

Lemma map_fst_combine {A B : Type} (l : list A) (vs : list B) :
  length vs = length l -> map fst (combine l vs) = l.
Proof.
  revert vs. induction l as [|x l IH]; intros [|v vs]; simpl; try discriminate;
    auto.
  intros H. f_equal. apply IH. congruence.
Qed.

Lemma map_snd_combine {A B : Type} (l : list A) (vs : list B) :
  length vs = length l -> map snd (combine l vs) = vs.
Proof.
  revert vs. induction l as [|x l IH]; intros [|v vs]; simpl; try discriminate;
    auto.
  intros H. f_equal. apply IH. congruence.
Qed.

Lemma range_keys_length (n : nat) : length (range_keys n) = n.
Proof. unfold range_keys. now rewrite length_map, length_seq. Qed.

Lemma range_keys_NoDup (n : nat) : NoDup (range_keys n).
Proof.
  unfold range_keys. generalize 0 as s.
  induction n as [|n IH]; simpl; intros s; constructor; auto.
  intros Hin. apply in_map_iff in Hin. destruct Hin as [j [E Hj]].
  apply in_seq in Hj. injection E as E. lia.
Qed.

Lemma range_keys_not_tuple (n : nat) :
  existsb is_tuple_key (range_keys n) = false.
Proof.
  unfold range_keys. induction (seq 0 n); simpl; auto.
Qed.

Lemma range_keys_ok (n : nat) : dict_keys_ok (range_keys n) = true.
Proof.
  unfold dict_keys_ok. rewrite range_keys_not_tuple.
  rewrite andb_true_r. apply distinct_keys_NoDup, range_keys_NoDup.
Qed.

(** The keys of an arraytainer are those of its items. *)
Lemma keys_items (c : pyobj) (dt : option dtype) :
  (is_list c || is_dict c) = true ->
  map fst (items (Arraytainer c dt)) = keys (Arraytainer c dt).
Proof.
  destruct c; simpl; try discriminate; intros _; unfold items, keys; simpl.
  - apply map_fst_combine. now rewrite range_keys_length.
  - reflexivity.
Qed.

Lemma values_items (c : list pyobj) (dt : option dtype) :
  map snd (items (Arraytainer (PList c) dt)) = c.
Proof.
  unfold items. simpl. apply map_snd_combine. now rewrite range_keys_length.
Qed.

Lemma index_tree_keys (I : pyobj) :
  index_tree I = true ->
  map fst (items I) = keys I /\ dict_keys_ok (keys I) = true.
Proof.
  destruct I; try discriminate. destruct I; try discriminate; simpl; intros H.
  - split; [apply keys_items; reflexivity|].
    unfold keys. simpl. apply range_keys_ok.
  - split; [reflexivity | exact H].
Qed.

Lemma container_tree_keys (T : pyobj) :
  container_tree T = true ->
  map fst (items T) = keys T /\ dict_keys_ok (keys T) = true.
Proof.
  unfold container_tree. rewrite andb_true_iff. intros [Ha Hok].
  apply index_tree_keys.
  destruct T; try discriminate. destruct T; simpl in *; try discriminate; auto.
  apply andb_true_iff in Hok. tauto.
Qed.

Lemma dict_get_In {V : Type} (d : list (key * V)) (k : key) (v : V) :
  NoDup (map fst d) -> In (k, v) d -> dict_get d k = Some v.
Proof.
  induction d as [|[k' v'] d IH]; simpl; intros Hn Hin; [tauto|].
  inversion Hn; subst.
  destruct Hin as [E|Hin].
  - injection E as -> ->. now rewrite key_eqb_refl.
  - destruct (key_eqb k k') eqn:E.
    + apply key_eqb_eq in E. subst. exfalso. apply H1.
      apply in_map_iff. exists (k', v). auto.
    + auto.
Qed.

Lemma norm_index_nat (n i : nat) :
  i < n -> norm_index n (Z.of_nat i) = Some i.
Proof.
  intros H. unfold norm_index.
  destruct (Z.ltb_spec (Z.of_nat i) 0); [lia|].
  destruct (Z.leb_spec 0 (Z.of_nat i)); [|lia].
  destruct (Z.ltb_spec (Z.of_nat i) (Z.of_nat n)); [|lia].
  simpl. now rewrite Nat2Z.id.
Qed.

Lemma In_combine_range (l : list pyobj) (k : key) (v : pyobj) :
  In (k, v) (combine (range_keys (length l)) l) ->
  exists i, k = KInt (Z.of_nat i) /\ nth_error l i = Some v.
Proof.
  unfold range_keys.
  assert (G : forall s, In (k, v) (combine (map (fun i => KInt (Z.of_nat i))
                                              (seq s (length l))) l) ->
                        exists i, k = KInt (Z.of_nat (s + i))
                                  /\ nth_error l i = Some v).
  { induction l as [|x l IH]; simpl; intros s H; [tauto|].
    destruct H as [E|H].
    - injection E as <- <-. exists 0. rewrite Nat.add_0_r. auto.
    - destruct (IH _ H) as [i [-> Hi]]. exists (S i).
      rewrite Nat.add_succ_r. auto. }
  intros H. destruct (G 0 H) as [i Hi]. exists i. exact Hi.
Qed.

(** [self.contents[key]] is the child stored under [key]. *)
Lemma contents_get_items (T : pyobj) (k : key) (v : pyobj) :
  NoDup (map fst (items T)) ->
  In (k, v) (items T) -> contents_get (contents T) k = Ok v.
Proof.
  destruct T; simpl; try tauto. destruct T; simpl; try tauto;
    unfold items; simpl; intros Hn Hin.
  - apply In_combine_range in Hin. destruct Hin as [i [-> Hi]].
    assert (i < length l) by (apply nth_error_Some; congruence).
    rewrite norm_index_nat; auto. now rewrite Hi.
  - now rewrite (dict_get_In d k v Hn Hin).
Qed.

Lemma height_combine_list (ks : list key) (vs : list pyobj) (m : nat) :
  length vs = length ks ->
  Forall (fun v => height v <= m) vs ->
  fold_right (fun kv a => Nat.max (height (snd kv)) a) 0 (combine ks vs) <= m
  /\ fold_right (fun y a => Nat.max (height y) a) 0 vs <= m.
Proof.
  revert vs. induction ks as [|k ks IH]; intros [|v vs]; simpl;
    try discriminate; intros Hl Hv; try (split; lia).
  inversion Hv as [|? ? Hv1 Hv2]; subst.
  destruct (IH vs) as [G1 G2]; auto. split; lia.
Qed.

Section ReadingFacts.

Variable ext : numpy_ext.

Lemma plain_result_raw_ok (v : pyobj) :
  plain_result v = true -> raw_ok v = true.
Proof. destruct v; simpl; auto; discriminate. Qed.

Lemma as_leaf_value_ok (v : pyobj) :
  plain_result v = true -> value_ok (as_leaf ext v) = true.
Proof. destruct v; simpl; auto; discriminate. Qed.

Lemma convert_plain_result (cls : pyobj -> bool -> option dtype -> result pyobj)
    (v : pyobj) :
  plain_result v = true ->
  convert_value ext cls None true v = Ok (as_leaf ext v).
Proof. destruct v; simpl; try discriminate; reflexivity. Qed.

Lemma combine_map_r {A B C : Type} (f : B -> C) (ks : list A) (vs : list B) :
  map (fun kv => (fst kv, f (snd kv))) (combine ks vs)
  = combine ks (map f vs).
Proof.
  revert vs. induction ks as [|k ks IH]; intros [|v vs]; simpl; auto.
  now rewrite IH.
Qed.

(** Assembling per-key results under the keys [ks], in the keying mode
    of [T], gives a Container Tree without [dtype]. *)
Lemma new_assembled (T : pyobj) (ks : list key) (vs : list pyobj) (n : nat) :
  dict_keys_ok ks = true ->
  length vs = length ks ->
  Forall (fun v => plain_result v = true /\ S (S (height v)) <= n) vs ->
  2 <= n ->
  new ext n (as_contents_of T (combine ks vs))
  = Ok (Arraytainer (as_contents_of T (combine ks (map (as_leaf ext) vs))) None)
  /\ value_ok (Arraytainer
                 (as_contents_of T (combine ks (map (as_leaf ext) vs))) None)
     = true.
Proof.
  intros Hk Hl Hv Hn.
  assert (Hh : Forall (fun v => height v <= n - 2) vs).
  { rewrite Forall_forall in *. intros v Hin. destruct (Hv v Hin). lia. }
  destruct (height_combine_list ks vs (n - 2) Hl Hh) as [H1 H2].
  assert (Hd : NoDup ks) by now apply dict_keys_distinct.
  destruct n as [|n]; [lia|].
  split.
  - unfold new. rewrite init_unfold.
    unfold as_contents_of. destruct (dict_like T).
    + simpl negb.
      assert (Hkt : (is_dict (PDict (combine ks vs))
                     && _keys_contain_tuple (PDict (combine ks vs))) = false).
      { simpl is_dict. rewrite keys_contain_tuple_ok; auto.
        now rewrite map_fst_combine. }
      rewrite Hkt. cbv iota.
      rewrite copy_deepcopy_raw.
      * simpl.
        rewrite (mapM_ok_map _ (fun kv => (fst kv, as_leaf ext (snd kv)))).
        { simpl. now rewrite combine_map_r. }
        apply Forall_forall. intros [k v] Hin. simpl.
        apply in_combine_r in Hin. rewrite Forall_forall in Hv.
        rewrite convert_plain_result; auto. apply (Hv v Hin).
      * simpl. rewrite map_fst_combine by auto.
        apply distinct_keys_NoDup in Hd. rewrite Hd. simpl.
        apply forallb_forall. intros [k v] Hin. simpl.
        apply in_combine_r in Hin. rewrite Forall_forall in Hv.
        apply plain_result_raw_ok. apply (Hv v Hin).
      * simpl. lia.
    + simpl negb. simpl andb. cbv iota.
      rewrite map_snd_combine by auto.
      rewrite copy_deepcopy_raw.
      * simpl. rewrite (mapM_ok_map _ (as_leaf ext)).
        { simpl. rewrite map_snd_combine; auto. now rewrite length_map. }
        apply Forall_forall. intros v Hin. rewrite Forall_forall in Hv.
        apply convert_plain_result. apply (Hv v Hin).
      * simpl. apply forallb_forall. intros v Hin.
        rewrite Forall_forall in Hv.
        apply plain_result_raw_ok. apply (Hv v Hin).
      * simpl. lia.
  - unfold as_contents_of. destruct (dict_like T); simpl.
    + rewrite map_fst_combine by (now rewrite length_map). rewrite Hk. simpl.
      apply forallb_forall. intros [k v] Hin. simpl.
      apply in_combine_r in Hin. apply in_map_iff in Hin.
      destruct Hin as [w [<- Hw]]. rewrite Forall_forall in Hv.
      apply as_leaf_value_ok. apply (Hv w Hw).
    + rewrite map_snd_combine by (now rewrite length_map).
      apply forallb_forall. intros v Hin. apply in_map_iff in Hin.
      destruct Hin as [w [<- Hw]]. rewrite Forall_forall in Hv.
      apply as_leaf_value_ok. apply (Hv w Hw).
Qed.

Lemma bind_assoc {A B C : Type} (r : result A) (f : A -> result B)
    (g : B -> result C) :
  (let* y := (let* x := r in f x) in g y) = (let* x := r in let* y := f x in g y).
Proof. destruct r; reflexivity. Qed.

(** Broadcast indexing: the per-key results, assembled over all the keys
    of [T]. *)
Lemma get_with_array_ok (g : pyobj -> pyobj -> result pyobj) (T key : pyobj)
    (vs : list pyobj) (n : nat) :
  container_tree T = true ->
  mapM (fun k => let* c := contents_get (contents T) k in
                 subscript ext g c key) (keys T) = Ok vs ->
  Forall (fun v => plain_result v = true /\ S (S (height v)) <= n) vs ->
  2 <= n ->
  _get_with_array ext (new ext n) g T key
  = Ok (Arraytainer
          (as_contents_of T (combine (keys T) (map (as_leaf ext) vs))) None).
Proof.
  intros HT Hm Hv Hn.
  destruct (container_tree_keys T HT) as [Hki Hko].
  pose proof (mapM_length _ _ _ Hm) as Hl.
  unfold _get_with_array.
  rewrite (mapM_ext _ (fun k => let* v := (let* c := contents_get (contents T) k in
                                           subscript ext g c key) in Ok (k, v))).
  - rewrite (mapM_pair _ _ _ Hm). simpl.
    rewrite dict_of_items_NoDup.
    + apply new_assembled; auto.
    + rewrite map_fst_combine by auto. now apply dict_keys_distinct.
  - intros k _. now rewrite bind_assoc.
Qed.



End ReadingFacts.

Lemma keys_as_contents_of (T : pyobj) (ks : list key) (vs : list pyobj) :
  length vs = length ks ->
  keys (Arraytainer (as_contents_of T (combine ks vs)) None)
  = if dict_like T then ks else range_keys (length ks).
Proof.
  intros Hl. unfold as_contents_of, keys.
  destruct (dict_like T); simpl.
  - now apply map_fst_combine.
  - rewrite length_map, length_combine. f_equal. lia.
Qed.

Lemma keys_list_like (c : pyobj) (dt : option dtype) :
  (is_list c || is_dict c) = true ->
  is_dict c = false ->
  range_keys (length (keys (Arraytainer c dt))) = keys (Arraytainer c dt).
Proof.
  destruct c; simpl; try discriminate. intros _ _.
  unfold keys. simpl. now rewrite range_keys_length.
Qed.

(** C10.  Indexing a Container Tree with [None], or with a tuple made
    only of ints, slices and [None] (any key that [is_slice] accepts), is
    broadcast indexing: [__getitem__] is [_get_with_array], the raw index
    is applied to every child [self.contents[k]], and the results are
    assembled into a new arraytainer over all the keys of the tree.  It
    is not the lookup of a key: in the dict-like tree [none_keyed], where
    [None] is a key, [none_keyed[None]] is the tree of the leaves with a
    new axis each, not the child stored under [None], which is what the
    regular lookup would return. *)
Theorem C10_none_is_broadcast_index (ext : numpy_ext) :
  (__getitem__ ext 4 none_keyed PNone = Ok none_keyed_broadcast
   /\ _get_with_regular_key none_keyed PNone = Ok (arr [2] [1; 2]%Z))
  /\ forall (n : nat) (T key : pyobj),
      container_tree T = true ->
      is_slice key = true ->
      2 <= n ->
      __getitem__ ext (S n) T key
      = _get_with_array ext (new ext n) (__getitem__ ext n) T key
      /\ forall vs : list pyobj,
          mapM (fun k => let* c := contents_get (contents T) k in
                         subscript ext (__getitem__ ext n) c key) (keys T)
          = Ok vs ->
          Forall (fun v => plain_result v = true /\ S (S (height v)) <= n) vs ->
          exists R,
            __getitem__ ext (S n) T key = Ok R
            /\ R = Arraytainer
                     (as_contents_of T
                        (combine (keys T) (map (as_leaf ext) vs))) None
            /\ keys R = keys T.
Proof.
  split; [split; reflexivity|].
  intros n T key HT Hs Hn.
  assert (E : __getitem__ ext (S n) T key
              = _get_with_array ext (new ext n) (__getitem__ ext n) T key).
  { simpl. destruct key; simpl in Hs; try discriminate; simpl;
      try reflexivity. now rewrite Hs. }
  split; auto.
  intros vs Hm Hv. eexists. split; [|split; [reflexivity|]].
  - rewrite E. now apply get_with_array_ok.
  - pose proof (mapM_length _ _ _ Hm) as Hl.
    rewrite keys_as_contents_of by (now rewrite length_map).
    destruct (dict_like T) eqn:Ed; auto.
    unfold container_tree in HT. apply andb_true_iff in HT.
    destruct HT as [Ha Hok]. destruct T; try discriminate.
    apply keys_list_like; auto.
    destruct T; simpl in Hok; try discriminate; auto.
Qed.

Lemma C10_none_is_broadcast_index_witness :
  exists R,
    __getitem__ numpy_fragment 4 none_keyed (PTuple [PNone; PInt 0]) = Ok R
    /\ R = Arraytainer
             (as_contents_of none_keyed
                (combine (keys none_keyed)
                   (map (as_leaf numpy_fragment)
                      [arr [1] [1]%Z; arr [1] [3]%Z]))) None
    /\ keys R = keys none_keyed.
Proof.
  destruct (C10_none_is_broadcast_index numpy_fragment) as [_ H].
  destruct (H 3 none_keyed (PTuple [PNone; PInt 0]) eq_refl eq_refl
              ltac:(lia)) as [_ H'].
  apply H'.
  - reflexivity.
  - repeat constructor; simpl; lia.
Defined.




(** ** The indexing engine: writing *)

Lemma norm_index_out (n : nat) (z : Z) :
  (Z.of_nat n <= z \/ z < - Z.of_nat n)%Z -> norm_index n z = None.
Proof.
  intros H. unfold norm_index.
  destruct (Z.ltb_spec z 0).
  - destruct (Z.leb_spec 0 (z + Z.of_nat n)); simpl; auto.
    destruct (Z.ltb_spec (z + Z.of_nat n) (Z.of_nat n)); auto. lia.
  - destruct (Z.leb_spec 0 z); simpl; auto.
    destruct (Z.ltb_spec z (Z.of_nat n)); auto. lia.
Qed.

(** C7.  On a list-like arraytainer of length [len], once the value has
    passed the conversion every assignment starts with, assigning to an
    int position outside the bounds, at [len] or beyond (so at
    [len + 1]) or below [-len], raises the [KeyError] that points to
    [append] (the KeyKind error) and leaves the arraytainer as it was,
    while [append] succeeds and leaves an arraytainer of length
    [len + 1], the converted value last. *)
Theorem C7_list_growth (ext : numpy_ext) (n : nat) (l : list pyobj)
    (dt : option dtype) (z : Z) (value v : pyobj) :
  _convert_to_array_or_arraytainer ext n (Arraytainer (PList l) dt) value
  = Ok v ->
  (Z.of_nat (length l) <= z \/ z < - Z.of_nat (length l))%Z ->
  __setitem__ ext (S n) (Arraytainer (PList l) dt) (PInt z) value
  = (Error (KeyError msg_use_append), Arraytainer (PList l) dt)
  /\ append ext n (Arraytainer (PList l) dt) value []
     = (Ok tt, Arraytainer (PList (l ++ [v])) dt)
  /\ py_len (Arraytainer (PList (l ++ [v])) dt) = S (length l).
Proof.
  intros Hc Hz. split; [|split].
  - simpl. rewrite Hc. simpl.
    unfold _set_with_regular_key. simpl.
    now rewrite (norm_index_out _ _ Hz).
  - simpl. now rewrite Hc.
  - simpl. rewrite length_app. simpl. lia.
Qed.

Lemma C7_list_growth_witness :
  __setitem__ numpy_fragment 1 three_leaves (PInt 4) (PInt 9)
  = (Error (KeyError msg_use_append), three_leaves)
  /\ append numpy_fragment 0 three_leaves (PInt 9) []
     = (Ok tt,
        Arraytainer
          (PList [arr [2] [1; 2]%Z; arr [2] [3; 4]%Z; arr [2] [5; 6]%Z;
                  arr [] [9]%Z]) None)
  /\ py_len (Arraytainer
               (PList [arr [2] [1; 2]%Z; arr [2] [3; 4]%Z; arr [2] [5; 6]%Z;
                       arr [] [9]%Z]) None) = 4.
Proof.
  apply (C7_list_growth numpy_fragment 0
           [arr [2] [1; 2]%Z; arr [2] [3; 4]%Z; arr [2] [5; 6]%Z] None 4
           (PInt 9) (arr [] [9]%Z)).
  - reflexivity.
  - simpl. lia.
Defined.

(** ** The dispatch engine *)

Lemma key_eqb_sym (a b : key) : key_eqb a b = key_eqb b a.
Proof.
  destruct (key_eqb a b) eqn:E1, (key_eqb b a) eqn:E2; auto.
  - apply key_eqb_eq in E1. subst. now rewrite key_eqb_refl in E2.
  - apply key_eqb_eq in E2. subst. now rewrite key_eqb_refl in E1.
Qed.

Lemma upd_items_keys (its : list (key * pyobj)) (k : key) (v : pyobj) :
  map fst (upd_items its k v) = map fst its.
Proof.
  unfold upd_items. rewrite map_map. apply map_ext.
  intros kv. now destruct (key_eqb (fst kv) k).
Qed.

Lemma upd_items_length (its : list (key * pyobj)) (k : key) (v : pyobj) :
  length (upd_items its k v) = length its.
Proof. unfold upd_items. apply length_map. Qed.

Lemma upd_items_notin (its : list (key * pyobj)) (k : key) (v : pyobj) :
  ~ In k (map fst its) -> upd_items its k v = its.
Proof.
  induction its as [|[k' v'] its IH]; simpl; intros H; auto.
  destruct (key_eqb k' k) eqn:E.
  - apply key_eqb_eq in E. subst. tauto.
  - rewrite IH; auto.
Qed.

Lemma dict_set_upd (d : list (key * pyobj)) (k : key) (v : pyobj) :
  NoDup (map fst d) -> In k (map fst d) -> dict_set d k v = upd_items d k v.
Proof.
  induction d as [|[k' v'] d IH]; simpl; intros Hn Hin; [tauto|].
  inversion Hn; subst. rewrite (key_eqb_sym k' k).
  destruct (key_eqb k k') eqn:E.
  - apply key_eqb_eq in E. subst.
    change (map _ d) with (upd_items d k' v).
    rewrite upd_items_notin; auto.
  - change (map _ d) with (upd_items d k v). rewrite IH; auto.
    destruct Hin as [->|Hin]; auto. now rewrite key_eqb_refl in E.
Qed.

Lemma upd_items_cons (kx : key * pyobj) (its : list (key * pyobj)) (k : key)
    (v : pyobj) :
  upd_items (kx :: its) k v
  = (if key_eqb (fst kx) k then (fst kx, v) else kx) :: upd_items its k v.
Proof. reflexivity. Qed.

Lemma list_set_upd (its : list (key * pyobj)) (v : pyobj) :
  forall s i,
    map fst its = map (fun j => KInt (Z.of_nat j)) (seq s (length its)) ->
    i < length its ->
    list_set (map snd its) i v
    = map snd (upd_items its (KInt (Z.of_nat (s + i))) v).
Proof.
  induction its as [|[k x] its IH]; intros s i Hk Hi; [simpl in Hi; lia|].
  simpl in Hk, Hi. injection Hk as -> Hk.
  rewrite upd_items_cons. destruct i as [|i].
  - rewrite Nat.add_0_r. simpl. rewrite Z.eqb_refl. simpl. f_equal.
    rewrite upd_items_notin; auto.
    rewrite Hk. intros Hin. apply in_map_iff in Hin.
    destruct Hin as [j [E Hj]]. apply in_seq in Hj. injection E as E. lia.
  - simpl. destruct (Z.eqb_spec (Z.of_nat s) (Z.of_nat (s + S i))); [lia|].
    simpl. f_equal.
    rewrite (IH (S s) i); auto; [|lia].
    now rewrite Nat.add_succ_r.
Qed.

(** [func_return[key] = r] on contents given by their items. *)
Lemma contents_set_items (T : pyobj) (its : list (key * pyobj)) (k : key)
    (v : pyobj) :
  (dict_like T = true -> NoDup (map fst its)) ->
  (dict_like T = false -> map fst its = range_keys (length its)) ->
  In k (map fst its) ->
  contents_set (as_contents_of T its) k v
  = Ok (as_contents_of T (upd_items its k v)).
Proof.
  intros Hd Hl Hin. unfold as_contents_of.
  destruct (dict_like T); simpl.
  - rewrite dict_set_upd; auto.
  - specialize (Hl eq_refl). rewrite Hl in Hin.
    unfold range_keys in Hin. apply in_map_iff in Hin.
    destruct Hin as [i [<- Hi]]. apply in_seq in Hi.
    rewrite length_map. rewrite norm_index_nat by lia.
    rewrite (list_set_upd its v 0 i); auto. lia.
Qed.

Lemma fold_upd_items (shared : list key) (res : key -> pyobj) :
  forall its,
    fold_left (fun its k => upd_items its k (res k)) shared its
    = written_over shared res its.
Proof.
  induction shared as [|k ks IH]; simpl; intros its.
  - unfold written_over. rewrite <- (map_id its) at 1. apply map_ext.
    now intros [k v].
  - rewrite IH. unfold written_over, upd_items. rewrite map_map.
    apply map_ext. intros [k' v']. simpl.
    destruct (key_eqb k' k) eqn:E; simpl; auto.
    apply key_eqb_eq in E. subst. now destruct (key_in k ks).
Qed.

(** The loop of [_manage_func_call] over the shared keys. *)
Lemma dispatch_loop (T : pyobj) (call : key -> result pyobj)
    (res : key -> pyobj) (shared : list key) :
  forall its,
    (dict_like T = true -> NoDup (map fst its)) ->
    (dict_like T = false -> map fst its = range_keys (length its)) ->
    Forall (fun k => In k (map fst its) /\ call k = Ok (res k)) shared ->
    foldM (fun func_return key =>
             let* r := call key in contents_set func_return key r)
      shared (as_contents_of T its)
    = Ok (as_contents_of T
            (fold_left (fun its k => upd_items its k (res k)) shared its)).
Proof.
  induction shared as [|k ks IH]; simpl; intros its Hd Hl Hs; auto.
  inversion Hs as [|? ? [Hin Hc] Hs']; subst.
  rewrite Hc. simpl. rewrite contents_set_items; auto. simpl.
  apply IH.
  - now rewrite upd_items_keys.
  - now rewrite upd_items_keys, upd_items_length.
  - rewrite upd_items_keys. exact Hs'.
Qed.

Lemma check_compat_ok (ops : list pyobj) (ref : pyobj) :
  Forall (fun o => dict_like o = dict_like ref) ops ->
  Forall (fun o => forallb (fun k => key_in k (keys ref)) (keys o) = true) ops ->
  _check_arg_compatability ops ref = Ok tt.
Proof.
  unfold _check_arg_compatability. generalize tt.
  induction ops as [|o ops IH]; simpl; intros u Hm Hs; [now destruct u|].
  inversion Hm; inversion Hs; subst.
  rewrite H1, Bool.eqb_reflx, H5. simpl. auto.
Qed.


Lemma foldM_ext {A S : Type} (f g : S -> A -> result S) (l : list A) (s : S) :
  (forall s x, f s x = g s x) -> foldM f l s = foldM g l s.
Proof.
  intros H. revert s. induction l as [|x l IH]; simpl; intros s; auto.
  rewrite H. destruct (g s x); simpl; auto.
Qed.

Lemma combine_fst_snd {A B : Type} (its : list (A * B)) :
  combine (map fst its) (map snd its) = its.
Proof. induction its as [|[k v] its IH]; simpl; congruence. Qed.

Lemma combine_map_fst {A B C : Type} (G : A * B -> C) (l : list (A * B)) :
  combine (map fst l) (map G l) = map (fun kv => (fst kv, G kv)) l.
Proof. induction l as [|kv l IH]; simpl; congruence. Qed.

Lemma written_over_keys (shared : list key) (res : key -> pyobj)
    (its : list (key * pyobj)) :
  map fst (written_over shared res its) = map fst its.
Proof. unfold written_over. rewrite map_map. reflexivity. Qed.

Lemma value_ok_children (T : pyobj) (kv : key * pyobj) :
  container_tree T = true -> In kv (items T) ->
  value_ok (snd kv) = true /\ S (S (height (snd kv))) <= height T.
Proof.
  unfold container_tree. rewrite andb_true_iff. intros [Ha Hok] Hin.
  destruct T; try discriminate. destruct T; simpl in Hok; try discriminate;
    unfold items in Hin; simpl in Hin.
  - destruct kv as [k v]. apply in_combine_r in Hin.
    rewrite forallb_forall in Hok. split; [apply (Hok _ Hin)|].
    pose proof (height_in_list _ _ Hin). simpl. lia.
  - apply andb_true_iff in Hok. destruct Hok as [_ Hok].
    rewrite forallb_forall in Hok. split; [apply (Hok _ Hin)|].
    pose proof (height_in_dict _ _ Hin). simpl. lia.
Qed.

Lemma contents_as_items (T : pyobj) :
  container_tree T = true -> contents T = as_contents_of T (items T).
Proof.
  unfold container_tree. rewrite andb_true_iff. intros [Ha Hok].
  destruct T; try discriminate. destruct T; simpl in Hok; try discriminate;
    unfold as_contents_of, dict_like; simpl; auto.
  now rewrite values_items.
Qed.

Lemma value_ok_plain (v : pyobj) : value_ok v = true -> plain_result v = true.
Proof. destruct v; simpl; auto; discriminate. Qed.

Section DispatchFacts.

Variable ext : numpy_ext.

Lemma as_leaf_value (v : pyobj) : value_ok v = true -> as_leaf ext v = v.
Proof. destruct v; simpl; try discriminate; reflexivity. Qed.

(** The dispatch on operands that pass the compatibility check: every
    shared key receives the result of its call, and the other keys keep
    the children of the reference. *)
Lemma manage_func_call_ok (n : nat) (func : callable) (args : list pyobj)
    (kwargs : list (key * pyobj)) (ref : pyobj) (shared : list key)
    (res : key -> pyobj) :
  max_by_len (operands args kwargs) = Some ref ->
  container_tree ref = true ->
  Forall (fun o => dict_like o = dict_like ref) (operands args kwargs) ->
  Forall (fun o => forallb (fun k => key_in k (keys ref)) (keys o) = true)
    (operands args kwargs) ->
  _get_shared_keyset (operands args kwargs) = Ok shared ->
  Forall (fun k => In k (keys ref)
                   /\ call_for_key ext n func args kwargs k = Ok (res k)
                   /\ plain_result (res k) = true
                   /\ S (S (height (res k))) <= n) shared ->
  height ref <= n ->
  _manage_func_call ext n func args kwargs
  = Ok (Arraytainer
          (as_contents_of ref
             (written_over shared (fun k => as_leaf ext (res k)) (items ref)))
          None).
Proof.
  intros Hmax Href Hmode Hsub Hshared Hcalls Hn.
  destruct (container_tree_keys ref Href) as [Hki Hko].
  assert (Hv : value_ok ref = true /\ is_arraytainer ref = true).
  { unfold container_tree in Href. apply andb_true_iff in Href. tauto. }
  destruct Hv as [Hv Ha].
  unfold _manage_func_call. fold (operands args kwargs).
  rewrite Hmax, (check_compat_ok _ _ Hmode Hsub). cbn [bind].
  rewrite Hshared. cbn [bind].
  destruct ref as [| | | | | | | | c dt]; try discriminate.
  destruct (contents_checks c dt Hv) as [Hr [Hl Ht]].
  simpl contents at 1.
  rewrite copy_deepcopy_raw; auto; [|simpl in Hn; lia]. cbn [bind].
  rewrite (foldM_ext _ (fun func_return key =>
             let* r := call_for_key ext n func args kwargs key in
             contents_set func_return key r)).
  2:{ intros fr k. unfold call_for_key.
      destruct (_prepare_func_args _ (PTuple args) k); cbn [bind]; auto.
      destruct (_prepare_func_args _ (PDict kwargs) k); reflexivity. }
  change c with (contents (Arraytainer c dt)) at 1.
  rewrite (contents_as_items _ Href).
  rewrite (dispatch_loop _ _ res).
  - simpl. rewrite fold_upd_items.
    set (its := written_over shared res (items (Arraytainer c dt))).
    assert (Hits : map fst its = keys (Arraytainer c dt))
      by (unfold its; now rewrite written_over_keys).
    rewrite <- (combine_fst_snd its), Hits.
    assert (Hlen : length (map snd its) = length (keys (Arraytainer c dt)))
      by (rewrite <- Hits, !length_map; auto).
    assert (Hall : Forall (fun v => plain_result v = true
                                    /\ S (S (height v)) <= n) (map snd its)).
    { apply Forall_forall. intros v Hin. unfold its, written_over in Hin.
      rewrite map_map in Hin. apply in_map_iff in Hin.
      destruct Hin as [kv [<- Hkv]]. simpl.
      destruct (key_in (fst kv) shared) eqn:Ek.
      * apply key_in_In in Ek. rewrite Forall_forall in Hcalls.
        destruct (Hcalls _ Ek) as [_ [_ [Hp Hh]]]. auto.
      * destruct (value_ok_children _ kv Href Hkv) as [Hc Hh].
        split; [now apply value_ok_plain | lia]. }
    assert (Hn2 : 2 <= n) by (simpl in Hn; lia).
    destruct (new_assembled ext (Arraytainer c dt) (keys (Arraytainer c dt))
                (map snd its) n Hko Hlen Hall Hn2) as [-> _].
    f_equal. f_equal. f_equal.
    rewrite <- combine_map_r. rewrite <- Hits, combine_fst_snd.
    unfold its, written_over. rewrite map_map. apply map_ext_in.
    intros kv Hin. simpl.
    destruct (key_in (fst kv) shared); auto.
    destruct (value_ok_children _ kv Href Hin) as [Hc _].
    now rewrite (as_leaf_value _ Hc).
  - intros _. rewrite Hki. now apply dict_keys_distinct.
  - intros Hd. rewrite Hki. unfold keys, items.
    destruct c; simpl in *; try discriminate.
    now rewrite length_combine, range_keys_length, Nat.min_id.
  - rewrite Hki. apply Forall_forall. intros k Hk.
    rewrite Forall_forall in Hcalls. destruct (Hcalls k Hk) as [H1 [H2 _]].
    auto.
Qed.

End DispatchFacts.

Lemma bind_ok_inv {A B : Type} (r : result A) (k : A -> result B) (b : B) :
  bind r k = Ok b -> exists a, r = Ok a /\ k a = Ok b.
Proof. destruct r; simpl; [eauto | discriminate]. Qed.

Lemma filter_all {A : Type} (l : list A) : filter (fun _ => true) l = l.
Proof. induction l; simpl; congruence. Qed.

Lemma keys_subset_refl (T : pyobj) :
  forallb (fun k => key_in k (keys T)) (keys T) = true.
Proof. apply forallb_forall. intros k Hk. now apply key_in_In. Qed.



Section DispatchResults.

Variable ext : numpy_ext.



End DispatchResults.

Section DtypeResults.

Variable ext : numpy_ext.



End DtypeResults.

Lemma init_is_arraytainer (ext : numpy_ext) (n : nat) (c : pyobj) (conv : bool)
    (dt : option dtype) (dc : bool) (R : pyobj) :
  __init__ ext n c conv dt dc = Ok R -> is_arraytainer R = true.
Proof.
  destruct n as [|n]; [discriminate|]. rewrite init_unfold.
  destruct (negb (is_list c || is_dict c)); [discriminate|].
  destruct (is_dict c && _keys_contain_tuple c); [discriminate|].
  intros H. apply bind_ok_inv in H. destruct H as [c1 [_ H]].
  apply bind_ok_inv in H. destruct H as [c2 [_ H]].
  injection H as <-. reflexivity.
Qed.



(** ** The constructor from a flat array *)

(** C1.  [from_array] on a flat array of three elements and a tree of
    shapes that asks for two: the size check builds its [ValueError]
    without raising it, and the call returns the tree made of the first
    two elements instead of failing. *)
Theorem C1_size_mismatch_unraised (ext : numpy_ext) :
  requested_size shape_of_two = 2%Z
  /\ sum ext 6 shape_of_two = Ok (PInt 2)
  /\ size_check (PInt 2) (mk_ndarray [3] [1; 2; 3]%Z)
     = Some (ValueError "Array contains more or fewer elements than shapes specifies.")
  /\ from_array ext 6 three_elements shape_of_two
     = Ok (Arraytainer (PList [arr [2] [1; 2]%Z]) None).
Proof. repeat split. Qed.

(** ** Operations mapped over the leaves *)

Lemma children_regular (T : pyobj) (kv : key * pyobj) :
  container_tree T = true -> regular_keys T = true -> In kv (items T) ->
  regular_key (fst kv) = true /\ regular_keys (snd kv) = true.
Proof.
  unfold container_tree. rewrite andb_true_iff. intros [Ha Hok] Hr Hin.
  destruct T; try discriminate. destruct T; simpl in Hok; try discriminate;
    unfold items in Hin; simpl in Hin, Hr.
  - destruct kv as [k v]. pose proof (In_combine_range _ _ _ Hin) as [i [-> _]].
    apply in_combine_r in Hin. rewrite forallb_forall in Hr. auto.
  - rewrite forallb_forall in Hr. apply andb_true_iff. auto.
Qed.

Lemma children_valid (T : pyobj) (kv : key * pyobj) :
  container_tree T = true -> valid_leaves T = true -> In kv (items T) ->
  valid_leaves (snd kv) = true.
Proof.
  unfold container_tree. rewrite andb_true_iff. intros [Ha Hok] Hr Hin.
  destruct T; try discriminate. destruct T; simpl in Hok; try discriminate;
    unfold items in Hin; simpl in Hin, Hr.
  - destruct kv as [k v]. apply in_combine_r in Hin.
    rewrite forallb_forall in Hr. auto.
  - rewrite forallb_forall in Hr. auto.
Qed.

Lemma tmap_tree (g : ndarray -> ndarray) (T : pyobj) :
  container_tree T = true ->
  tmap g T
  = Arraytainer
      (as_contents_of T (map (fun kv => (fst kv, tmap g (snd kv))) (items T)))
      None.
Proof.
  unfold container_tree. rewrite andb_true_iff. intros [Ha Hok].
  destruct T; try discriminate. destruct T; simpl in Hok; try discriminate;
    unfold as_contents_of, dict_like, items; simpl; auto.
  f_equal. f_equal. rewrite map_map. simpl.
  rewrite <- (map_map snd (tmap g)).
  rewrite map_snd_combine; auto. now rewrite range_keys_length.
Qed.

Lemma tmap_value_ok (g : ndarray -> ndarray) (x : pyobj) :
  value_ok x = true ->
  value_ok (tmap g x) = true /\ height (tmap g x) = height x
  /\ regular_keys (tmap g x) = regular_keys x
  /\ is_arraytainer (tmap g x) = is_arraytainer x.
Proof.
  revert x. apply value_ok_ind.
  - intros a. simpl. auto.
  - intros l dt Hok IH. simpl. rewrite Forall_forall in IH. repeat split.
    + apply forallb_forall. intros y Hy. apply in_map_iff in Hy.
      destruct Hy as [z [<- Hz]]. apply (IH z Hz).
    + do 3 f_equal. induction l as [|y l IHl]; simpl; auto.
      rewrite IHl.
      * destruct (IH y (or_introl eq_refl)) as [_ [-> _]]. reflexivity.
      * simpl in Hok. apply andb_true_iff in Hok. tauto.
      * intros z Hz. apply IH. now right.
    + induction l as [|y l IHl]; simpl; auto.
      rewrite IHl.
      * destruct (IH y (or_introl eq_refl)) as [_ [_ [-> _]]]. reflexivity.
      * simpl in Hok. apply andb_true_iff in Hok. tauto.
      * intros z Hz. apply IH. now right.
  - intros d dt Hk Hok IH. simpl. rewrite Forall_forall in IH. repeat split.
    + rewrite map_fst_map_snd, Hk. simpl.
      apply forallb_forall. intros y Hy. apply in_map_iff in Hy.
      destruct Hy as [z [<- Hz]]. simpl. apply (IH z Hz).
    + do 3 f_equal. clear Hk. induction d as [|y d IHd]; simpl; auto.
      rewrite IHd.
      * destruct (IH y (or_introl eq_refl)) as [_ [-> _]]. reflexivity.
      * simpl in Hok. apply andb_true_iff in Hok. tauto.
      * intros z Hz. apply IH. now right.
    + clear Hk. induction d as [|y d IHd]; simpl; auto.
      rewrite IHd.
      * destruct (IH y (or_introl eq_refl)) as [_ [_ [-> _]]]. reflexivity.
      * simpl in Hok. apply andb_true_iff in Hok. tauto.
      * intros z Hz. apply IH. now right.
Qed.

Lemma tmap_container_tree (g : ndarray -> ndarray) (T : pyobj) :
  container_tree T = true -> container_tree (tmap g T) = true.
Proof.
  unfold container_tree. rewrite !andb_true_iff. intros [Ha Hok].
  destruct (tmap_value_ok g T Hok) as [H1 [_ [_ H4]]].
  rewrite H4. auto.
Qed.

Lemma scan_scalar_kwargs (kw : list (key * pyobj)) :
  Forall (fun kv => scalar_arg (snd kv) = true) kw ->
  _list_arraytainers_in_args (PDict kw) = [].
Proof.
  induction 1 as [|[k c] kw Hc Hkw IH]; simpl in *; auto.
  unfold scalar_arg in Hc. rewrite negb_true_iff in Hc.
  destruct (is_arraytainer c), (is_list c), (is_dict c), (is_tuple c);
    try discriminate. simpl. exact IH.
Qed.

Lemma prepare_scalar_kwargs (getitem : pyobj -> pyobj -> result pyobj)
    (kw : list (key * pyobj)) (k : key) :
  Forall (fun kv => scalar_arg (snd kv) = true) kw ->
  _prepare_func_args getitem (PDict kw) k = Ok (PDict kw).
Proof.
  intros H. simpl.
  rewrite (mapM_ok_map _ (fun kv => [kv])).
  - simpl. f_equal. f_equal. clear H. induction kw; simpl; congruence.
  - rewrite Forall_forall in *. intros [k' c] Hin. specialize (H _ Hin).
    simpl in *. unfold scalar_arg in H. rewrite negb_true_iff in H.
    destruct (is_arraytainer c), (is_list c), (is_dict c), (is_tuple c);
      try discriminate. reflexivity.
Qed.

Section MappedOperations.

Variable ext : numpy_ext.

(** [T[k]] for a regular key [k] is the child stored under [k]. *)
Lemma getitem_regular (m : nat) (T : pyobj) (k : key) (v : pyobj) :
  NoDup (map fst (items T)) -> In (k, v) (items T) ->
  regular_key k = true ->
  __getitem__ ext (S m) T (of_key k) = Ok v.
Proof.
  intros Hn Hin Hk.
  destruct T; simpl in Hin; try tauto.
  destruct T; unfold items in Hin, Hn; simpl in Hin, Hn; try tauto.
  - apply In_combine_range in Hin. destruct Hin as [i [-> Hi]].
    assert (i < length l) by (apply nth_error_Some; congruence).
    simpl. unfold _get_with_regular_key. simpl.
    rewrite norm_index_nat by auto. now rewrite Hi.
  - destruct k; try discriminate; simpl; unfold _get_with_regular_key; simpl;
      now rewrite (dict_get_In d _ v Hn Hin).
Qed.

Variable f : callable.
Variable kw : list (key * pyobj).
Variable h : ndarray -> pyobj.
Variable g : ndarray -> ndarray.

Hypothesis f_array : forall a, f [PArr a] kw = Ok (h a).
Hypothesis h_plain :
  forall a, plain_result (h a) = true /\ height (h a) = 1
            /\ as_leaf ext (h a) = PArr (g a).
Hypothesis kw_scalar : Forall (fun kv => scalar_arg (snd kv) = true) kw.

Lemma operands_unary (x : pyobj) :
  operands [x] kw = if is_arraytainer x then [x] else
                    if is_list x || is_dict x || is_tuple x
                    then _list_arraytainers_in_args x else [].
Proof.
  unfold operands. rewrite (scan_scalar_kwargs kw kw_scalar).
  simpl. rewrite !app_nil_r. reflexivity.
Qed.

Lemma call_for_key_unary (n : nat) (func : callable) (T : pyobj) (k : key) :
  is_arraytainer T = true -> In k (keys T) ->
  call_for_key ext n func [T] kw k
  = let* x := __getitem__ ext n T (of_key k) in func [x] kw.
Proof.
  intros HT Hk. unfold call_for_key.
  rewrite (prepare_scalar_kwargs _ kw k kw_scalar).
  simpl. rewrite HT. apply key_in_In in Hk. rewrite Hk.
  destruct (__getitem__ ext n T (of_key k)); reflexivity.
Qed.

Lemma mapped_child_facts (v : pyobj) :
  value_ok v = true ->
  plain_result (mapped_child h g v) = true
  /\ height (mapped_child h g v) <= height v
  /\ as_leaf ext (mapped_child h g v) = tmap g v.
Proof.
  intros Hv. destruct v; simpl in Hv; try discriminate.
  - simpl. destruct (h_plain a) as [H1 [H2 H3]]. rewrite H2. auto.
  - destruct (tmap_value_ok g (Arraytainer v dt) Hv) as [H1 [H2 [_ H4]]].
    unfold mapped_child. split; [|split].
    + apply value_ok_plain. exact H1.
    + rewrite H2. auto.
    + apply as_leaf_value. exact H1.
Qed.

(** One level of the dispatch of a unary operation. *)
Lemma manage_unary_step (n : nat) (T : pyobj) :
  container_tree T = true ->
  regular_keys T = true ->
  height T <= n ->
  (forall kv, In kv (items T) ->
              np_call ext n f [snd kv] kw = Ok (mapped_child h g (snd kv))) ->
  _manage_func_call ext n (np_call ext n f) [T] kw = Ok (tmap g T).
Proof.
  intros HT Hr Hn Hch.
  assert (Ha : is_arraytainer T = true)
    by (unfold container_tree in HT; apply andb_true_iff in HT; tauto).
  destruct (container_tree_keys T HT) as [Hki Hko].
  assert (Hops : operands [T] kw = [T])
    by (rewrite operands_unary; now rewrite Ha).
  pose (res := fun k => match contents_get (contents T) k with
                        | Ok v => mapped_child h g v
                        | Error _ => PNone
                        end).
  assert (Hres : forall kv, In kv (items T) ->
                            res (fst kv) = mapped_child h g (snd kv)).
  { intros [k v] Hin. unfold res. simpl.
    rewrite (contents_get_items T k v); auto.
    rewrite Hki. now apply dict_keys_distinct. }
  rewrite (manage_func_call_ok ext n _ [T] kw T (keys T) res); auto.
  - rewrite (tmap_tree g T HT). do 3 f_equal.
    unfold written_over. apply map_ext_in. intros kv Hin.
    assert (key_in (fst kv) (keys T) = true) as ->.
    { apply key_in_In. rewrite <- Hki. now apply in_map. }
    rewrite (Hres kv Hin).
    destruct (value_ok_children T kv HT Hin) as [Hv _].
    destruct (mapped_child_facts (snd kv) Hv) as [_ [_ ->]]. reflexivity.
  - now rewrite Hops.
  - rewrite Hops. repeat constructor.
  - rewrite Hops. repeat constructor. apply keys_subset_refl.
  - rewrite Hops. simpl. now rewrite filter_all.
  - apply Forall_forall. intros k Hk. split; auto.
    pose proof Hk as Hk'. rewrite <- Hki in Hk'. apply in_map_iff in Hk'.
    destruct Hk' as [[k' v] [E Hin]]. simpl in E. subst k'.
    destruct (value_ok_children T (k, v) HT Hin) as [Hv Hh].
    destruct (children_regular T (k, v) HT Hr Hin) as [Hrk _].
    simpl fst in Hrk. simpl snd in Hv, Hh.
    destruct (mapped_child_facts v Hv) as [H1 [H2 _]].
    pose proof (Hres (k, v) Hin) as Hres'.
    simpl fst in Hres'. simpl snd in Hres'. rewrite Hres'.
    split; [|split; [exact H1 | lia]].
    rewrite call_for_key_unary; auto.
    destruct n as [|n]; [lia|].
    rewrite (getitem_regular n T k v); auto.
    + simpl. apply (Hch (k, v) Hin).
    + rewrite Hki. now apply dict_keys_distinct.
Qed.

(** A unary operation of numpy called on a Container Tree is applied
    to every leaf. *)
Lemma np_call_tmap (n : nat) :
  forall x,
    value_ok x = true -> regular_keys x = true -> S (height x) <= n ->
    np_call ext n f [x] kw = Ok (mapped_child h g x).
Proof.
  induction n as [|n IH]; intros x Hv Hr Hn; [lia|].
  cbn [np_call]. fold (operands [x] kw). rewrite operands_unary.
  destruct x; try (simpl in Hv; discriminate Hv).
  - simpl. apply f_array.
  - simpl is_arraytainer. cbv iota.
    assert (HT : container_tree (Arraytainer x dt) = true)
      by (unfold container_tree; now rewrite Hv).
    unfold mapped_child.
    apply manage_unary_step; auto; [lia|].
    intros kv Hin.
    destruct (value_ok_children _ kv HT Hin) as [Hcv Hch].
    destruct (children_regular _ kv HT Hr Hin) as [_ Hcr].
    apply IH; auto. lia.
Qed.

End MappedOperations.

(** ** Flattening, shapes and sums *)

Lemma list_arrays_tmap (g : ndarray -> ndarray) (x : pyobj) :
  value_ok x = true ->
  (if is_arraytainer x then list_arrays (tmap g x) else [tmap g x])
  = map (fun a => PArr (g a)) (leaf_arrays x).
Proof.
  revert x. apply value_ok_ind.
  - reflexivity.
  - intros l dt Hok IH. simpl. rewrite Forall_forall in IH.
    rewrite forallb_forall in Hok.
    induction l as [|y l IHl]; simpl; auto.
    rewrite map_app. rewrite <- IHl;
      [| intros z Hz; apply Hok; now right
       | intros z Hz; apply IH; now right].
    f_equal.
    destruct (tmap_value_ok g y (Hok y (or_introl eq_refl)))
      as [_ [_ [_ ->]]].
    apply IH. now left.
  - intros d dt _ Hok IH. simpl. rewrite Forall_forall in IH.
    rewrite forallb_forall in Hok.
    induction d as [|y d IHd]; simpl; auto.
    rewrite map_app. rewrite <- IHd;
      [| intros z Hz; apply Hok; now right
       | intros z Hz; apply IH; now right].
    f_equal.
    destruct (tmap_value_ok g (snd y) (Hok y (or_introl eq_refl)))
      as [_ [_ [_ ->]]].
    apply (IH y). now left.
Qed.

Lemma leaf_arrays_tmap (g : ndarray -> ndarray) (x : pyobj) :
  value_ok x = true -> leaf_arrays (tmap g x) = map g (leaf_arrays x).
Proof.
  revert x. apply value_ok_ind.
  - reflexivity.
  - intros l dt Hok IH. simpl. rewrite Forall_forall in IH.
    clear Hok. induction l as [|y l IHl]; simpl; auto.
    rewrite map_app. rewrite <- IHl by (intros z Hz; apply IH; now right).
    f_equal. apply IH. now left.
  - intros d dt _ Hok IH. simpl. rewrite Forall_forall in IH.
    clear Hok. induction d as [|y d IHd]; simpl; auto.
    rewrite map_app. rewrite <- IHd by (intros z Hz; apply IH; now right).
    f_equal. apply IH. now left.
Qed.

Lemma scan_arrays (l : list ndarray) :
  _list_arraytainers_in_args (PList (map PArr l)) = [].
Proof. induction l; simpl in *; auto. Qed.

Lemma first_dims_raveled (l : list ndarray) :
  fold_right Nat.add 0 (map (fun a => hd 0 (arr_shape a)) (map nd_ravel l))
  = length (concat (map arr_data l)).
Proof.
  induction l as [|b l IH]; simpl; auto.
  rewrite length_app, <- IH. reflexivity.
Qed.

Lemma data_raveled (l : list ndarray) :
  concat (map arr_data (map nd_ravel l)) = concat (map arr_data l).
Proof. induction l as [|b l IH]; simpl; auto. now rewrite IH. Qed.

Lemma concatenate_raveled (l : list ndarray) :
  l <> [] ->
  nd_concatenate (map nd_ravel l)
  = Ok (mk_ndarray [length (concat (map arr_data l))]
          (concat (map arr_data l))).
Proof.
  intros Hne. destruct l as [|a0 l]; [congruence|].
  assert (Hall : forallb (fun a => match arr_shape a with
                                   | [] => false
                                   | _ :: tl => shape_eqb tl []
                                   end) (map nd_ravel (a0 :: l)) = true).
  { apply forallb_forall. intros a Ha. apply in_map_iff in Ha.
    destruct Ha as [b [<- _]]. reflexivity. }
  pose proof (first_dims_raveled (a0 :: l)) as H1.
  pose proof (data_raveled (a0 :: l)) as H2.
  unfold nd_concatenate.
  change (map nd_ravel (a0 :: l)) with (nd_ravel a0 :: map nd_ravel l) in *.
  cbv iota beta. cbn [arr_shape nd_ravel].
  change (mk_ndarray [nd_size a0] (arr_data a0)) with (nd_ravel a0).
  rewrite Hall, H1, H2. reflexivity.
Qed.

Lemma stack_scalars (zs : list Z) :
  stack (map (fun z => Some (nd_scalar z)) zs)
  = Some (mk_ndarray [length zs] zs).
Proof.
  destruct zs as [|z zs]; [reflexivity|].
  unfold stack. cbn [map].
  assert (Hall : forallb (fun o => match o with
                                   | Some a => shape_eqb (arr_shape a)
                                                 (arr_shape (nd_scalar z))
                                   | None => false
                                   end)
                   (Some (nd_scalar z) :: map (fun z => Some (nd_scalar z)) zs)
                 = true).
  { apply forallb_forall. intros o [<-|Ho]; [reflexivity|].
    apply in_map_iff in Ho. destruct Ho as [b [<- _]]. reflexivity. }
  rewrite Hall. f_equal. f_equal.
  - simpl. now rewrite length_map.
  - simpl. f_equal. induction zs as [|y zs IH]; simpl; auto. now rewrite IH.
Qed.

Lemma np_array_shape (a : ndarray) :
  np_array_num (nd_shape a) = Some (shape_array a).
Proof.
  unfold nd_shape, shape_array. cbn [np_array_num].
  rewrite map_map. cbn [np_array_num].
  rewrite <- (map_map Z.of_nat (fun z => Some (nd_scalar z))).
  rewrite stack_scalars. now rewrite length_map.
Qed.

Lemma nd_shape_facts (ext : numpy_ext) (a : ndarray) :
  plain_result (nd_shape a) = true
  /\ height (nd_shape a) <= 2
  /\ as_leaf ext (nd_shape a) = PArr (shape_array a).
Proof.
  split; [|split].
  - unfold nd_shape. simpl. induction (arr_shape a); simpl; auto.
  - unfold nd_shape. simpl.
    assert (fold_right (fun y m => Nat.max (height y) m) 0
              (map (fun d => PInt (Z.of_nat d)) (arr_shape a)) <= 1)
      by (induction (arr_shape a); cbn [map fold_right height]; lia).
    lia.
  - unfold as_leaf, create_array. simpl is_arraytainer. cbv iota.
    now rewrite np_array_shape.
Qed.

Section UtilityFacts.

Variable ext : numpy_ext.

Lemma ravel_tree (n : nat) (T : pyobj) :
  container_tree T = true -> regular_keys T = true -> S (height T) <= n ->
  np_call ext n (np_ravel ext) [T] order_C = Ok (tmap nd_ravel T).
Proof.
  intros HT Hr Hn. unfold container_tree in HT.
  apply andb_true_iff in HT. destruct HT as [Ha Hv].
  rewrite (np_call_tmap ext (np_ravel ext) order_C (fun a => PArr (nd_ravel a)) nd_ravel
             (fun a => eq_refl)
             (fun a => conj eq_refl (conj eq_refl eq_refl))
             ltac:(repeat constructor) n T Hv Hr Hn).
  destruct T; try discriminate. reflexivity.
Qed.

Lemma squeeze_tree (n : nat) (T : pyobj) :
  container_tree T = true -> regular_keys T = true -> S (height T) <= n ->
  np_call ext n (np_squeeze ext) [T] [] = Ok (tmap nd_squeeze T).
Proof.
  intros HT Hr Hn. unfold container_tree in HT.
  apply andb_true_iff in HT. destruct HT as [Ha Hv].
  rewrite (np_call_tmap ext (np_squeeze ext) [] (fun a => PArr (nd_squeeze a)) nd_squeeze
             (fun a => eq_refl)
             (fun a => conj eq_refl (conj eq_refl eq_refl))
             ltac:(repeat constructor) n T Hv Hr Hn).
  destruct T; try discriminate. reflexivity.
Qed.

Lemma sum_tree (n : nat) (T : pyobj) :
  container_tree T = true -> regular_keys T = true -> S (height T) <= n ->
  np_call ext n (np_sum ext) [T] []
  = Ok (tmap (fun a => nd_scalar (nd_sum a)) T).
Proof.
  intros HT Hr Hn. unfold container_tree in HT.
  apply andb_true_iff in HT. destruct HT as [Ha Hv].
  rewrite (np_call_tmap ext (np_sum ext) [] (fun a => PInt (nd_sum a)) (fun a => nd_scalar (nd_sum a))
             (fun a => eq_refl)
             (fun a => conj eq_refl (conj eq_refl eq_refl))
             ltac:(repeat constructor) n T Hv Hr Hn).
  destruct T; try discriminate. reflexivity.
Qed.

Lemma promote_squeezed_raveled (a : ndarray) :
  (let s := nd_squeeze (nd_ravel a) in
   if Nat.eqb (nd_ndim s) 0 then nd_newaxis s else s) = nd_ravel a.
Proof.
  unfold nd_squeeze, nd_ravel, nd_newaxis, nd_ndim. simpl.
  destruct (Nat.eqb_spec (nd_size a) 1) as [E|E]; simpl.
  - now rewrite E.
  - reflexivity.
Qed.

(** [flatten] returns the elements of the leaves, one leaf after the
    other. *)
Lemma flatten_ok (n : nat) (T : pyobj) :
  container_tree T = true -> regular_keys T = true ->
  leaf_arrays T <> [] -> S (height T) <= n ->
  flatten ext n T
  = Ok (PArr (mk_ndarray [length (flat_data T)] (flat_data T))).
Proof.
  intros HT Hr Hne Hn.
  pose proof HT as HT'. unfold container_tree in HT'.
  apply andb_true_iff in HT'. destruct HT' as [Ha Hv].
  destruct (tmap_value_ok nd_ravel T Hv) as [Hv1 [Hh1 [Hr1 Ha1]]].
  destruct (tmap_value_ok nd_squeeze (tmap nd_ravel T) Hv1)
    as [Hv2 [Hh2 [Hr2 Ha2]]].
  unfold flatten. rewrite ravel_tree by auto. cbn [bind].
  rewrite squeeze_tree;
    [| now apply tmap_container_tree | congruence | lia].
  cbn [bind]. rewrite Ha2, Ha1, Ha.
  pose proof (list_arrays_tmap nd_squeeze (tmap nd_ravel T) Hv1) as Hl.
  rewrite Ha1, Ha in Hl. rewrite Hl, leaf_arrays_tmap by auto.
  rewrite map_map, mapM_map.
  rewrite (mapM_ok_map _ (fun a => PArr (nd_ravel a))).
  2:{ apply Forall_forall. intros a _.
      pose proof (promote_squeezed_raveled a) as E. cbv zeta in E.
      destruct (Nat.eqb (nd_ndim (nd_squeeze (nd_ravel a))) 0);
        now rewrite E. }
  cbn [bind]. destruct n as [|n]; [lia|]. cbn [np_call].
  rewrite <- (map_map nd_ravel PArr).
  assert (Hs : _list_arraytainers_in_args
                 (PTuple [PList (map PArr (map nd_ravel (leaf_arrays T)))])
               ++ _list_arraytainers_in_args (PDict []) = []).
  { pose proof (scan_arrays (map nd_ravel (leaf_arrays T))) as Hs.
    simpl in *. rewrite Hs. reflexivity. }
  rewrite Hs. unfold np_concatenate.
  rewrite map_map.
  assert (Hm : map (fun x => asarray ext (PArr x)) (map nd_ravel (leaf_arrays T))
               = map nd_ravel (leaf_arrays T)).
  { rewrite <- (map_id (map nd_ravel (leaf_arrays T))) at 2.
    apply map_ext. reflexivity. }
  rewrite Hm, concatenate_raveled by auto. reflexivity.
Qed.

Lemma shape_unfold (n : nat) (self : pyobj) :
  shape ext (S n) self
  = let* shapes :=
      mapM (fun kv =>
              let* s := match snd kv with
                        | PArr a => Ok (nd_shape a)
                        | Arraytainer _ _ => shape ext n (snd kv)
                        | _ => attribute_error
                        end in
              Ok (fst kv, s))
        (items self) in
    new ext n (as_contents_of self (dict_of_items shapes)).
Proof. reflexivity. Qed.

(** The [shape] of a Container Tree is the tree of the shapes of its
    leaves, each as a one-dimensional array. *)
Lemma shape_ok (n : nat) :
  forall T,
    container_tree T = true -> S (height T) <= n ->
    shape ext n T = Ok (tmap shape_array T).
Proof.
  induction n as [|n IH]; intros T HT Hn; [lia|].
  destruct (container_tree_keys T HT) as [Hki Hko].
  rewrite shape_unfold.
  rewrite (mapM_ok_map _ (fun kv => (fst kv,
                                     mapped_child nd_shape shape_array (snd kv)))).
  - cbn [bind].
    rewrite dict_of_items_NoDup
      by (rewrite map_fst_map_snd, Hki; now apply dict_keys_distinct).
    rewrite <- (combine_fst_snd (map _ (items T))).
    rewrite map_fst_map_snd, Hki, map_map. cbn [snd].
    assert (Hlen : length (map (fun kv => mapped_child nd_shape shape_array
                                            (snd kv)) (items T))
                   = length (keys T))
      by (rewrite <- Hki, !length_map; auto).
    assert (Hall : Forall (fun v => plain_result v = true
                                    /\ S (S (height v)) <= n)
                     (map (fun kv => mapped_child nd_shape shape_array (snd kv))
                        (items T))).
    { apply Forall_forall. intros v Hin. apply in_map_iff in Hin.
      destruct Hin as [kv [<- Hkv]].
      destruct (value_ok_children T kv HT Hkv) as [Hv Hh].
      destruct (snd kv) eqn:E; try (simpl in Hv; discriminate Hv).
      - destruct (nd_shape_facts ext a) as [H1 [H2 _]].
        unfold mapped_child. split; auto. simpl in Hh.
        assert (4 <= height T); [|lia].
        clear - HT Hkv. unfold container_tree in HT.
        apply andb_true_iff in HT. destruct HT as [Ha _].
        destruct T; try discriminate. destruct T; simpl in *; try tauto.
        + unfold items in Hkv. simpl in Hkv. destruct l; simpl in *; [tauto|].
          pose proof (height_pos p). lia.
        + unfold items in Hkv. simpl in Hkv. destruct d; simpl in *; [tauto|].
          pose proof (height_pos (snd p)). lia.
      - destruct (tmap_value_ok shape_array _ Hv) as [H1 [H2 _]].
        unfold mapped_child. split; [now apply value_ok_plain|].
        rewrite H2. lia. }
    assert (Hn2 : 2 <= n).
    { unfold container_tree in HT. apply andb_true_iff in HT.
      destruct HT as [Ha _]. destruct T; try discriminate. simpl in Hn.
      destruct T; simpl in Hn; lia. }
    destruct (new_assembled ext T (keys T) _ n Hko Hlen Hall Hn2) as [-> _].
    rewrite (tmap_tree shape_array T HT). do 3 f_equal.
    rewrite map_map, <- Hki, combine_map_fst.
    apply map_ext_in. intros kv Hkv. cbn [fst snd]. f_equal.
    destruct (value_ok_children T kv HT Hkv) as [Hv _].
    destruct (snd kv); try (simpl in Hv; discriminate Hv).
    + apply nd_shape_facts.
    + unfold mapped_child. apply as_leaf_value.
      apply (tmap_value_ok shape_array _ Hv).
  - apply Forall_forall. intros kv Hkv.
    destruct (value_ok_children T kv HT Hkv) as [Hv Hh].
    destruct (snd kv) eqn:E; try (simpl in Hv; discriminate Hv).
    + reflexivity.
    + rewrite IH.
      * reflexivity.
      * unfold container_tree. now rewrite Hv.
      * lia.
Qed.

Lemma py_sum_scalars (zs : list Z) :
  forall acc,
    foldM (py_add ext) (map (fun z => PArr (nd_scalar z)) zs) (PInt acc)
    = Ok (PInt (fold_left (fun a z => int64_wrap (a + z)) zs acc)).
Proof.
  induction zs as [|z zs IH]; intros acc.
  - reflexivity.
  - cbn [map foldM fold_left].
    change (py_add ext (PInt acc) (PArr (nd_scalar z)))
      with (@Ok pyobj (PInt (int64_wrap (acc + z)))).
    cbn [bind]. apply IH.
Qed.

(** [sum] on a tree of arrays returns a scalar. *)
Lemma sum_ok (n : nat) (T : pyobj) :
  container_tree T = true -> regular_keys T = true -> S (height T) <= n ->
  exists z, sum ext n T = Ok (PInt z).
Proof.
  intros HT Hr Hn.
  pose proof HT as HT'. unfold container_tree in HT'.
  apply andb_true_iff in HT'. destruct HT' as [Ha Hv].
  unfold sum. rewrite Ha, sum_tree by auto. cbn [bind].
  destruct (tmap_value_ok (fun a => nd_scalar (nd_sum a)) T Hv)
    as [_ [_ [_ Ha1]]].
  rewrite Ha1, Ha.
  pose proof (list_arrays_tmap (fun a => nd_scalar (nd_sum a)) T Hv) as Hl.
  rewrite Ha in Hl. rewrite Hl. unfold py_sum.
  rewrite <- (map_map nd_sum (fun z => PArr (nd_scalar z))).
  rewrite py_sum_scalars. eauto.
Qed.

End UtilityFacts.

(** ** Rebuilding a tree from its flat array *)

Lemma chunk_one (pre post : list Z) (x : Z) :
  chunk 1 (length pre) (pre ++ x :: post) = [x].
Proof.
  unfold chunk. rewrite Nat.mul_1_r, skipn_app, skipn_all, Nat.sub_diag.
  reflexivity.
Qed.

Lemma slice_rows (mid : list Z) :
  forall pre post,
    concat (map (fun j => chunk 1 j (pre ++ mid ++ post))
              (seq (length pre) (length mid))) = mid.
Proof.
  induction mid as [|x mid IH]; intros pre post; simpl; auto.
  rewrite chunk_one. simpl. f_equal.
  specialize (IH (pre ++ [x]) post).
  rewrite length_app in IH. simpl in IH. rewrite Nat.add_1_r in IH.
  rewrite <- app_assoc in IH. simpl in IH. exact IH.
Qed.

Lemma map_add_seq (a m : nat) :
  forall s, map (fun i => a + i) (seq s m) = seq (a + s) m.
Proof.
  induction m as [|m IH]; simpl; intros s; auto.
  f_equal. rewrite IH. f_equal. lia.
Qed.

Lemma slice_indices_range (a m len : nat) :
  a + m <= len ->
  slice_indices (Some (Z.of_nat a)) (Some (Z.of_nat a + Z.of_nat m)%Z) None len
  = Ok (seq a m).
Proof.
  intros H. unfold slice_indices, slice_bound. simpl.
  destruct (Z.ltb_spec (Z.of_nat a) 0); [lia|].
  destruct (Z.ltb_spec (Z.of_nat a + Z.of_nat m) 0); [lia|].
  rewrite !Z.min_l by lia.
  replace (Z.of_nat a + Z.of_nat m - Z.of_nat a + 1 - 1)%Z
    with (Z.of_nat m) by lia.
  rewrite Z.div_1_r, Z.max_r by lia. rewrite Nat2Z.id.
  f_equal. pose proof (map_add_seq a m 0) as E.
  rewrite Nat.add_0_r in E. rewrite <- E.
  apply map_ext. intros i. lia.
Qed.

(** The slice [vector[idx : idx + m]] of a one-dimensional array. *)
Lemma nd_index_slice (pre mid post : list Z) :
  nd_index [BSlice (Some (Z.of_nat (length pre)))
              (Some (Z.of_nat (length pre) + Z.of_nat (length mid))%Z) None]
    [length (pre ++ mid ++ post)] (pre ++ mid ++ post)
  = Ok (mk_ndarray [length mid] mid).
Proof.
  cbn [nd_index]. rewrite slice_indices_range
    by (rewrite !length_app; lia).
  cbn [bind prod_shape fold_right repeat].
  rewrite (mapM_ok_map _ (fun j => mk_ndarray []
                                     (chunk 1 j (pre ++ mid ++ post))))
    by (apply Forall_forall; reflexivity).
  cbn [bind arr_shape]. rewrite length_seq, map_map. cbn [arr_data].
  now rewrite slice_rows.
Qed.

Lemma nd_prod_shape_array (a : ndarray) :
  nd_prod (shape_array a) = Z.of_nat (prod_shape (arr_shape a)).
Proof.
  unfold nd_prod, shape_array, prod_shape. cbn [arr_data].
  induction (arr_shape a) as [|d l IH]; simpl fold_right; auto.
  cbn [map fold_right]. rewrite IH. lia.
Qed.

Lemma no_negative_dims (l : list nat) :
  filter (fun d => (d <? 0)%Z) (map Z.of_nat l) = [].
Proof.
  induction l as [|d l IH]; simpl; auto.
  destruct (Z.ltb_spec (Z.of_nat d) 0); [lia | exact IH].
Qed.

Lemma to_nat_of_nat_list (l : list nat) :
  map Z.to_nat (map Z.of_nat l) = l.
Proof.
  rewrite map_map. rewrite <- (map_id l) at 2. apply map_ext.
  intros d. apply Nat2Z.id.
Qed.

(** Reshaping the elements of a leaf to the shape of the leaf gives the
    leaf. *)
Lemma reshape_to_shape (a : ndarray) :
  valid_arrayb a = true ->
  nd_reshape (mk_ndarray [length (arr_data a)] (arr_data a))
    (map Z.of_nat (arr_shape a)) = Ok a.
Proof.
  unfold valid_arrayb. intros H. apply Nat.eqb_eq in H.
  unfold nd_reshape. rewrite no_negative_dims, to_nat_of_nat_list.
  unfold nd_size. cbn [arr_data]. rewrite H, Nat.eqb_refl.
  now destruct a.
Qed.

Lemma flat_data_items (T : pyobj) :
  container_tree T = true ->
  flat_data T = concat (map (fun kv => flat_data (snd kv)) (items T)).
Proof.
  unfold container_tree. rewrite andb_true_iff. intros [Ha Hok].
  destruct T; try discriminate. destruct T; simpl in Hok; try discriminate;
    unfold flat_data, items; simpl.
  - rewrite <- (map_map snd (fun v => concat (map arr_data (leaf_arrays v)))).
    rewrite map_snd_combine by (now rewrite range_keys_length).
    clear Hok. induction l as [|y l IH]; simpl; auto.
    now rewrite map_app, concat_app, IH.
  - clear Hok. induction d as [|y d IH]; simpl; auto.
    now rewrite map_app, concat_app, IH.
Qed.

Lemma unpack_as_items (T : pyobj) :
  container_tree T = true ->
  unpack T
  = as_contents_of T (map (fun kv => (fst kv, unpack_value (snd kv))) (items T)).
Proof.
  unfold container_tree. rewrite andb_true_iff. intros [Ha Hok].
  destruct T; try discriminate. destruct T; simpl in Hok; try discriminate.
  - rewrite unpack_list. unfold as_contents_of, dict_like, items. simpl.
    f_equal. rewrite map_map. simpl.
    rewrite <- (map_map snd unpack_value).
    rewrite map_snd_combine; auto. now rewrite range_keys_length.
  - apply andb_true_iff in Hok. destruct Hok as [Hk _].
    rewrite unpack_dict; auto.
Qed.

Lemma items_tmap (g : ndarray -> ndarray) (T : pyobj) :
  container_tree T = true ->
  items (tmap g T) = map (fun kv => (fst kv, tmap g (snd kv))) (items T)
  /\ dict_like (tmap g T) = dict_like T.
Proof.
  unfold container_tree. rewrite andb_true_iff. intros [Ha Hok].
  destruct T; try discriminate. destruct T; simpl in Hok; try discriminate;
    unfold items, dict_like; simpl; split; auto.
  rewrite length_map. symmetry. apply combine_map_r.
Qed.

Lemma from_vector_loop (rec : pyobj -> Z -> result (pyobj * Z))
    (vec : ndarray) :
  arr_shape vec = [length (arr_data vec)] ->
  forall its acc pre post,
    Forall (fun kv => value_ok (snd kv) = true
                      /\ valid_leaves (snd kv) = true
                      /\ (is_arraytainer (snd kv) = true ->
                          rebuilds rec vec (snd kv))) its ->
    NoDup (map fst acc ++ map fst its) ->
    arr_data vec
    = pre ++ concat (map (fun kv => flat_data (snd kv)) its) ++ post ->
    foldM (_from_vector_turn rec vec)
      (map (fun kv => (fst kv, tmap shape_array (snd kv))) its)
      (acc, Z.of_nat (length pre))
    = Ok (acc ++ map (fun kv => (fst kv, unpack_value (snd kv))) its,
          Z.of_nat (length pre
                    + length (concat (map (fun kv => flat_data (snd kv)) its)))).
Proof.
  intros Hshape. induction its as [|[k v] its IH]; intros acc pre post Hall Hnd Hdata.
  - simpl. now rewrite app_nil_r, Nat.add_0_r.
  - inversion Hall as [|? ? [Hv [Hval Hrec]] Hall']; subst.
    cbn [fst snd] in Hv, Hval, Hrec.
    cbn [map concat snd] in Hdata. rewrite <- app_assoc in Hdata.
    assert (Hfresh : ~ In k (map fst acc)).
    { cbn [map fst] in Hnd. apply NoDup_remove_2 in Hnd.
      intros Hin. apply Hnd. apply in_or_app. now left. }
    assert (Hnd' : forall x, NoDup (map fst (acc ++ [(k, x)]) ++ map fst its)).
    { intros x. rewrite map_app. simpl. now rewrite <- app_assoc. }
    cbn [map foldM fst snd concat].
    destruct v; try (simpl in Hv; discriminate Hv).
    + (* a leaf *)
      simpl in Hval. pose proof Hval as Hlen. unfold valid_arrayb in Hlen.
      apply Nat.eqb_eq in Hlen.
      assert (Hf : flat_data (PArr a) = arr_data a)
        by (unfold flat_data; simpl; now rewrite app_nil_r).
      rewrite Hf in *.
      unfold _from_vector_turn at 1. cbn [fst snd tmap].
      rewrite nd_prod_shape_array, <- Hlen, Hshape, Hdata.
      rewrite nd_index_slice. cbn [bind].
      change (shape_spec (PArr (shape_array a)))
        with (@Ok (list Z) (map Z.of_nat (arr_shape a))).
      cbn [bind]. rewrite reshape_to_shape by auto. cbn [bind].
      rewrite dict_set_fresh by auto.
      rewrite <- Nat2Z.inj_add, <- length_app.
      rewrite (IH (acc ++ [(k, PArr a)]) (pre ++ arr_data a) post); auto.
      * rewrite <- app_assoc. cbn [app unpack_value is_arraytainer].
        rewrite length_app. do 3 f_equal. rewrite !length_app. lia.
      * now rewrite <- app_assoc.
    + (* a nested tree *)
      specialize (Hrec eq_refl).
      assert (Ht : exists c', tmap shape_array (Arraytainer v dt)
                              = Arraytainer c' None).
      { destruct v; simpl in Hv; try discriminate Hv; simpl; eauto. }
      destruct Ht as [c' Ht].
      unfold _from_vector_turn at 1. cbn [fst snd]. rewrite Ht, <- Ht.
      rewrite (Hrec pre _ Hdata). cbn [bind fst snd].
      rewrite dict_set_fresh by auto.
      rewrite <- length_app.
      rewrite (IH (acc ++ [(k, unpack (Arraytainer v dt))])
                 (pre ++ flat_data (Arraytainer v dt)) post); auto.
      * rewrite <- app_assoc. cbn [app unpack_value is_arraytainer].
        do 3 f_equal. rewrite !length_app. lia.
      * now rewrite <- app_assoc.
Qed.

(** [_from_vector] on the shapes of a Container Tree whose leaves are
    valid arrays rebuilds the tree. *)
Lemma from_vector_ok (n : nat) :
  forall T vec,
    container_tree T = true -> valid_leaves T = true -> height T <= n ->
    arr_shape vec = [length (arr_data vec)] ->
    rebuilds (_from_vector n vec) vec T.
Proof.
  induction n as [|n IH]; intros T vec HT Hval Hn Hshape.
  - pose proof (height_pos T). lia.
  - intros pre post Hdata.
    destruct (container_tree_keys T HT) as [Hki Hko].
    destruct (items_tmap shape_array T HT) as [Hit Hdl].
    rewrite (flat_data_items T HT) in Hdata.
    cbn [_from_vector]. rewrite Hit.
    rewrite (from_vector_loop _ vec Hshape (items T) [] pre post); auto.
    + cbn [bind fst snd app]. rewrite (flat_data_items T HT). f_equal. f_equal.
      rewrite (unpack_as_items T HT). unfold as_contents_of. now rewrite Hdl.
    + apply Forall_forall. intros kv Hkv.
      destruct (value_ok_children T kv HT Hkv) as [Hv Hh].
      pose proof (children_valid T kv HT Hval Hkv) as Hcv.
      split; [exact Hv|]. split; [exact Hcv|].
      intros Ha. apply IH; auto.
      * unfold container_tree. now rewrite Ha, Hv.
      * lia.
    + simpl. rewrite Hki. now apply dict_keys_distinct.
Qed.

Lemma leaf_arrays_clear_dtype (x : pyobj) :
  value_ok x = true -> leaf_arrays (clear_dtype x) = leaf_arrays x.
Proof.
  revert x. apply value_ok_ind.
  - reflexivity.
  - intros l dt _ IH. simpl. rewrite Forall_forall in IH.
    induction l as [|y l IHl]; simpl; auto.
    rewrite IHl by (intros z Hz; apply IH; now right).
    f_equal. apply IH. now left.
  - intros d dt _ _ IH. simpl. rewrite Forall_forall in IH.
    induction d as [|y d IHd]; simpl; auto.
    rewrite IHd by (intros z Hz; apply IH; now right).
    f_equal. apply IH. now left.
Qed.

(** C4 (as amended).  For every Container Tree [T] with at least one
    leaf, whose leaves hold as many elements as their shapes say and
    whose keys are ints or strings: [flatten(T)] is the one-dimensional
    array of the elements of the leaves, [shape(T)] is the tree of their
    shapes, and [from_array(flatten(T), shape(T))] is [T] again, without
    its [dtype] attributes: the same structure, and leaves of the same
    values and shapes. *)
Theorem C4_flatten_from_array (ext : numpy_ext) (n : nat) (T : pyobj) :
  container_tree T = true ->
  valid_leaves T = true ->
  regular_keys T = true ->
  leaf_arrays T <> [] ->
  S (height T) <= n ->
  exists flat shapes,
    flatten ext n T = Ok flat
    /\ flat = PArr (mk_ndarray [length (flat_data T)] (flat_data T))
    /\ shape ext n T = Ok shapes
    /\ from_array ext n flat shapes = Ok (clear_dtype T)
    /\ leaf_arrays (clear_dtype T) = leaf_arrays T.
Proof.
  intros HT Hval Hr Hne Hn.
  pose proof HT as HT'. unfold container_tree in HT'.
  apply andb_true_iff in HT'. destruct HT' as [Ha Hv].
  destruct (tmap_value_ok shape_array T Hv) as [Hv1 [Hh1 [Hr1 Ha1]]].
  exists (PArr (mk_ndarray [length (flat_data T)] (flat_data T))).
  exists (tmap shape_array T).
  split; [now apply flatten_ok|]. split; [reflexivity|].
  split; [now apply shape_ok|]. split; [|now apply leaf_arrays_clear_dtype].
  unfold from_array.
  assert (Hseq : is_sequence (tmap shape_array T) = false).
  { rewrite Ha in Ha1. destruct (tmap shape_array T); try discriminate.
    reflexivity. }
  rewrite Hseq. cbn [bind].
  destruct (sum_ok ext n (tmap shape_array T)) as [z Hz].
  - now apply tmap_container_tree.
  - congruence.
  - lia.
  - rewrite Hz. cbn [bind].
    set (vec := nd_ravel (mk_ndarray [length (flat_data T)] (flat_data T))).
    assert (Hd : arr_data vec = [] ++ flat_data T ++ [])
      by (simpl; now rewrite app_nil_r).
    pose proof (from_vector_ok n T vec HT Hval ltac:(lia) eq_refl [] [] Hd)
      as Hfv.
    change (Z.of_nat (length (@nil Z))) with 0%Z in Hfv.
    rewrite Hfv. cbn [bind fst].
    apply new_unpack; auto. lia.
Qed.

Lemma C4_flatten_from_array_witness :
  exists flat shapes,
    flatten numpy_fragment 8 nested_tree = Ok flat
    /\ flat = PArr (mk_ndarray [length (flat_data nested_tree)]
                      (flat_data nested_tree))
    /\ shape numpy_fragment 8 nested_tree = Ok shapes
    /\ from_array numpy_fragment 8 flat shapes = Ok (clear_dtype nested_tree)
    /\ leaf_arrays (clear_dtype nested_tree) = leaf_arrays nested_tree.
Proof.
  apply (C4_flatten_from_array numpy_fragment 8 nested_tree).
  - reflexivity.
  - reflexivity.
  - reflexivity.
  - discriminate.
  - simpl. lia.
Defined.

(** [reshape] applied to the flat array of [two_leaves] and the tree of
    its shapes raises, however the call is made.  As the method, with the
    flat array for [self]: an ndarray has no
    [_concatenate_values_into_arraytainer].  As [np.reshape] on the flat
    array: a tree is not a shape.  Through the dispatch of the container:
    each key asks for the whole flat array in the shape of one leaf, and
    the first key fails. *)
Lemma C4_reshape_of_flat_fails :
  exists flat shapes,
    flatten numpy_fragment 6 two_leaves = Ok flat
    /\ shape numpy_fragment 6 two_leaves = Ok shapes
    /\ reshape numpy_fragment 6 flat [shapes] = attribute_error
    /\ np_reshape numpy_fragment [flat; shapes] order_C
       = Error (TypeError "expected a sequence of integers or a single integer")
    /\ _manage_func_call numpy_fragment 6
         (np_call numpy_fragment 6 (np_reshape numpy_fragment))
         [flat; shapes] order_C
       = Error (ValueError "cannot reshape array into shape").
Proof.
  exists (PArr (mk_ndarray [3] [1; 2; 3]%Z)).
  exists (tmap shape_array two_leaves).
  repeat split.
Qed.

(** ** The constructor as a function of its input *)

Section ConstructorResults.

Variable ext : numpy_ext.

Lemma built_value_ok (dt : option dtype) (x : pyobj) :
  raw_ok x = true -> has_tuple_key x = false ->
  value_ok (built ext dt true x) = true.
Proof.
  induction x using pyobj_nested_ind; simpl; auto.
  - (* list *)
    intros Hok Ht. apply forallb_forall. intros y Hy.
    apply in_map_iff in Hy. destruct Hy as [z [<- Hz]].
    rewrite Forall_forall in H. rewrite forallb_forall in Hok.
    apply H; auto.
    destruct (has_tuple_key z) eqn:E; auto.
    assert (existsb has_tuple_key l = true); [|congruence].
    apply existsb_exists. eauto.
  - (* dict *)
    intros Hok Ht. apply andb_true_iff in Hok. destruct Hok as [Hk Hok].
    rewrite map_fst_map_snd.
    assert (Hn : forall kv, In kv d ->
                   is_tuple_key (fst kv) = false
                   /\ has_tuple_key (snd kv) = false).
    { intros kv Hin.
      destruct (is_tuple_key (fst kv) || has_tuple_key (snd kv)) eqn:E.
      - assert (existsb (fun kv => is_tuple_key (fst kv)
                                   || has_tuple_key (snd kv)) d = true);
          [|congruence].
        apply existsb_exists. eauto.
      - now apply orb_false_iff in E. }
    apply andb_true_iff. split.
    + unfold dict_keys_ok. rewrite Hk. simpl. apply negb_true_iff.
      destruct (existsb is_tuple_key (map fst d)) eqn:E; auto.
      apply existsb_exists in E. destruct E as [k [Hin Hk']].
      apply in_map_iff in Hin. destruct Hin as [kv [<- Hin]].
      destruct (Hn kv Hin). congruence.
    + apply forallb_forall. intros y Hy.
      apply in_map_iff in Hy. destruct Hy as [z [<- Hz]]. simpl.
      rewrite Forall_forall in H. rewrite forallb_forall in Hok.
      apply H; auto. apply Hn; auto.
Qed.

Lemma convert_builds (n : nat) (conv : bool) (dt : option dtype) (y : pyobj) :
  (is_list y || is_dict y = true ->
   __init__ ext n y conv dt true = Ok (built ext dt conv y)) ->
  convert_value ext (fun val conv dt => __init__ ext n val conv dt true)
    dt conv y = Ok (built ext dt conv y).
Proof.
  intros H. unfold convert_value.
  destruct y; simpl in *; auto; destruct conv; auto.
Qed.

Lemma no_tuple_key_list (l : list pyobj) (y : pyobj) :
  existsb has_tuple_key l = false -> In y l -> has_tuple_key y = false.
Proof.
  intros H Hy. destruct (has_tuple_key y) eqn:E; auto.
  assert (existsb has_tuple_key l = true); [|congruence].
  apply existsb_exists. eauto.
Qed.

Lemma no_tuple_key_dict (d : list (key * pyobj)) (kv : key * pyobj) :
  existsb (fun kv => is_tuple_key (fst kv) || has_tuple_key (snd kv)) d = false ->
  In kv d -> is_tuple_key (fst kv) = false /\ has_tuple_key (snd kv) = false.
Proof.
  intros H Hin.
  destruct (is_tuple_key (fst kv) || has_tuple_key (snd kv)) eqn:E.
  - assert (existsb (fun kv => is_tuple_key (fst kv)
                               || has_tuple_key (snd kv)) d = true);
      [|congruence].
    apply existsb_exists. eauto.
  - now apply orb_false_iff in E.
Qed.

Lemma init_builds (c : pyobj) :
  raw_ok c = true ->
  (is_list c || is_dict c) = true ->
  has_tuple_key c = false ->
  forall n conv dt dc,
    S (height c) <= n ->
    __init__ ext n c conv dt dc = Ok (built ext dt conv c).
Proof.
  induction c using pyobj_nested_ind; simpl; try discriminate;
    intros Hok _ Ht n conv dt dc Hn; (destruct n as [|n]; [lia|]);
    rewrite init_unfold; simpl negb; cbv iota.
  - (* list *)
    simpl andb. cbv iota.
    assert (E : (if dc then copy_deepcopy ext n (PList l) else Ok (PList l))
                = Ok (PList l)).
    { destruct dc; auto. apply copy_deepcopy_raw; auto. simpl. lia. }
    rewrite E. simpl.
    rewrite (mapM_ok_map _ (built ext dt conv)); [reflexivity|].
    rewrite Forall_forall in *. rewrite forallb_forall in Hok.
    intros y Hy. apply convert_builds. intros Hl.
    pose proof (height_in_list y l Hy) as Hh.
    apply H; auto; [|lia]. eapply no_tuple_key_list; eauto.
  - (* dict *)
    apply andb_true_iff in Hok. destruct Hok as [Hk Hok].
    simpl andb.
    assert (Et : existsb (fun kv => is_tuple_key (fst kv)) d = false).
    { destruct (existsb (fun kv => is_tuple_key (fst kv)) d) eqn:E; auto.
      apply existsb_exists in E. destruct E as [kv [Hin Hkv]].
      destruct (no_tuple_key_dict d kv Ht Hin). congruence. }
    rewrite Et.
    assert (E : (if dc then copy_deepcopy ext n (PDict d) else Ok (PDict d))
                = Ok (PDict d)).
    { destruct dc; auto. apply copy_deepcopy_raw; auto.
      - simpl. now rewrite Hk, Hok.
      - simpl. lia. }
    rewrite E. simpl.
    rewrite (mapM_ok_map _ (fun kv => (fst kv, built ext dt conv (snd kv))));
      [reflexivity|].
    rewrite Forall_forall in *. rewrite forallb_forall in Hok.
    intros [k y] Hy. simpl.
    pose proof (height_in_dict _ d Hy) as Hh. simpl in Hh.
    rewrite convert_builds; auto. intros Hl.
    apply (H _ Hy); simpl; auto.
    + apply (Hok _ Hy).
    + apply (no_tuple_key_dict d (k, y) Ht Hy).
    + lia.
Qed.

End ConstructorResults.

(** X1.  The constructor with [array_conversions] set, on nested lists
    and dicts without a tuple among their keys, where no conversion of a
    value can fail: either no [dtype] is asked for, the input holds no
    arraytainer and every tuple among the values is a sequence of
    numbers that [np.array] stacks, or every value is an array.  It
    returns a Container Tree with as many entries as the input, in which
    every list and dict of the input has become an arraytainer whose
    [dtype] attribute is the requested one and every other value an
    array; without a [dtype] the array is [np.array] of the value. *)
Theorem X1_constructor_builds_tree (ext : numpy_ext) (contents : pyobj)
    (dtype : option dtype) (deepcopy : bool) (n : nat) :
  raw_ok contents = true ->
  (is_list contents || is_dict contents) = true ->
  has_tuple_key contents = false ->
  S (height contents) <= n ->
  match dtype with
  | None => numeric_tuples contents && no_arraytainer contents
  | Some _ => array_values contents
  end = true ->
  exists T,
    __init__ ext n contents true dtype deepcopy = Ok T
    /\ container_tree T = true
    /\ dtype_of T = dtype
    /\ py_len T = py_len contents
    /\ skeleton T = skeleton (built ext dtype true contents)
    /\ (dtype = None -> T = built ext None true contents).
Proof.
  intros Hok Hl Ht Hn _. exists (built ext dtype true contents).
  split; [now apply init_builds|].
  pose proof (built_value_ok ext dtype contents Hok Ht) as Hv.
  split; [|split; [|split; [|split]]].
  - unfold container_tree. rewrite Hv.
    destruct contents; try discriminate; reflexivity.
  - destruct contents; try discriminate; reflexivity.
  - destruct contents; try discriminate; simpl; now rewrite length_map.
  - reflexivity.
  - intros ->. reflexivity.
Qed.

Lemma X1_constructor_builds_tree_witness :
  exists T,
    __init__ numpy_fragment 5
      (PDict [(KStr "a", PList [PInt 1; PInt 2]);
              (KStr "b", PList [PList [PInt 3]; PTuple [PInt 4; PInt 5]])])
      true None true = Ok T
    /\ container_tree T = true
    /\ dtype_of T = None
    /\ py_len T
       = py_len (PDict [(KStr "a", PList [PInt 1; PInt 2]);
                        (KStr "b", PList [PList [PInt 3];
                                          PTuple [PInt 4; PInt 5]])])
    /\ skeleton T
       = skeleton
           (built numpy_fragment None true
              (PDict [(KStr "a", PList [PInt 1; PInt 2]);
                      (KStr "b", PList [PList [PInt 3];
                                        PTuple [PInt 4; PInt 5]])]))
    /\ (@None dtype = None ->
        T = built numpy_fragment None true
              (PDict [(KStr "a", PList [PInt 1; PInt 2]);
                      (KStr "b", PList [PList [PInt 3];
                                        PTuple [PInt 4; PInt 5]])])).
Proof.
  apply (X1_constructor_builds_tree numpy_fragment
           (PDict [(KStr "a", PList [PInt 1; PInt 2]);
                   (KStr "b", PList [PList [PInt 3];
                                     PTuple [PInt 4; PInt 5]])])
           None true 5).
  - reflexivity.
  - reflexivity.
  - reflexivity.
  - simpl. lia.
  - reflexivity.
Defined.
Lemma unpack_built (ext : numpy_ext) (dt : option dtype) (x : pyobj) :
  raw_ok x = true -> no_arraytainer x = true ->
  unpack_value (built ext dt false x) = x.
Proof.
  induction x using pyobj_nested_ind; simpl; auto; try discriminate.
  - (* list *)
    intros Hok Hno. unfold unpack_value. simpl. f_equal.
    rewrite map_map. rewrite <- (map_id l) at 2.
    apply map_ext_in. intros y Hy.
    rewrite Forall_forall in H. rewrite forallb_forall in Hok, Hno.
    apply (H y Hy); auto.
  - (* dict *)
    intros Hok Hno. apply andb_true_iff in Hok. destruct Hok as [Hk Hok].
    unfold unpack_value. simpl. f_equal.
    rewrite map_map. simpl.
    rewrite dict_of_items_NoDup.
    + rewrite <- (map_id d) at 2.
      apply map_ext_in. intros [k y] Hy. simpl. f_equal.
      rewrite Forall_forall in H. rewrite forallb_forall in Hok, Hno.
      apply (H _ Hy); [apply (Hok _ Hy) | apply (Hno _ Hy)].
    + rewrite map_map. simpl. now apply distinct_keys_NoDup.
Qed.

(** X2.  The constructor with [array_conversions] unset converts no
    value: on nested lists and dicts that hold no arraytainer, [unpack]
    of the constructed tree is the input. *)
Theorem X2_unconverted_roundtrip (ext : numpy_ext) (contents : pyobj)
    (dtype : option dtype) (deepcopy : bool) (n : nat) :
  raw_ok contents = true ->
  (is_list contents || is_dict contents) = true ->
  has_tuple_key contents = false ->
  no_arraytainer contents = true ->
  S (height contents) <= n ->
  exists T,
    __init__ ext n contents false dtype deepcopy = Ok T
    /\ unpack T = contents.
Proof.
  intros Hok Hl Ht Hno Hn. exists (built ext dtype false contents).
  split; [now apply init_builds|].
  pose proof (unpack_built ext dtype contents Hok Hno) as E.
  destruct contents; try discriminate; exact E.
Qed.

Lemma X2_unconverted_roundtrip_witness :
  exists T,
    __init__ numpy_fragment 5
      (PDict [(KStr "a", PList [PInt 1; PStr "x"]);
              (KStr "b", PList [PTuple [PInt 3; PInt 4]; PNone])])
      false None true = Ok T
    /\ unpack T
       = PDict [(KStr "a", PList [PInt 1; PStr "x"]);
                (KStr "b", PList [PTuple [PInt 3; PInt 4]; PNone])].
Proof.
  apply (X2_unconverted_roundtrip numpy_fragment
           (PDict [(KStr "a", PList [PInt 1; PStr "x"]);
                   (KStr "b", PList [PTuple [PInt 3; PInt 4]; PNone])])
           None true 5).
  - reflexivity.
  - reflexivity.
  - reflexivity.
  - reflexivity.
  - simpl. lia.
Defined.

(** ** Lookup and assignment with a regular key *)

Lemma dict_get_set_same {V : Type} (d : list (key * V)) (k : key) (v : V) :
  dict_get (dict_set d k v) k = Some v.
Proof.
  induction d as [|[k' v'] d IH]; simpl.
  - now rewrite key_eqb_refl.
  - destruct (key_eqb k k') eqn:E; simpl; rewrite E; auto.
Qed.

Lemma dict_get_set_other {V : Type} (d : list (key * V)) (k k' : key) (v : V) :
  k' <> k -> dict_get (dict_set d k v) k' = dict_get d k'.
Proof.
  intros Hne. induction d as [|[k0 v0] d IH]; simpl.
  - apply key_eqb_neq in Hne. now rewrite Hne.
  - destruct (key_eqb k k0) eqn:E; simpl.
    + apply key_eqb_eq in E. subst k0.
      apply key_eqb_neq in Hne. now rewrite Hne.
    + now rewrite IH.
Qed.

Lemma dict_set_keys {V : Type} (d : list (key * V)) (k : key) (v : V) :
  map fst (dict_set d k v)
  = if key_in k (map fst d) then map fst d else map fst d ++ [k].
Proof.
  unfold key_in. induction d as [|[k0 v0] d IH]; simpl; auto.
  destruct (key_eqb k k0) eqn:E; simpl; auto.
  rewrite IH. now destruct (existsb (key_eqb k) (map fst d)).
Qed.

(** An int or a string used as a key is no index object. *)
Lemma regular_key_object (obj : pyobj) (k : key) :
  to_key obj = Some k -> regular_key k = true ->
  obj = of_key k /\ is_slice obj = false /\ is_array obj = false
  /\ is_arraytainer obj = false.
Proof.
  destruct obj; simpl; try discriminate.
  - intros [= <-] _. auto.
  - intros [= <-] _. auto.
  - intros [= <-]. discriminate.
  - destruct (_ l); simpl; [|discriminate]. intros [= <-]. discriminate.
Qed.

(** What [_convert_to_array_or_arraytainer] returns is an array or an
    arraytainer, which a second conversion leaves alone. *)
Lemma converted_kind (ext : numpy_ext) (n : nat) (self val v : pyobj) :
  _convert_to_array_or_arraytainer ext n self val = Ok v ->
  (is_array v || is_arraytainer v) = true
  /\ forall m self', _convert_to_array_or_arraytainer ext m self' v = Ok v.
Proof.
  unfold _convert_to_array_or_arraytainer at 1.
  destruct (is_array val || is_arraytainer val) eqn:E; simpl.
  - intros [= <-]. split; auto. intros m self'.
    unfold _convert_to_array_or_arraytainer. now rewrite E.
  - destruct (is_list val || is_dict val).
    + intros H. apply init_is_arraytainer in H. split.
      * rewrite H. apply orb_true_r.
      * intros m self'. unfold _convert_to_array_or_arraytainer.
        rewrite H, orb_true_r. reflexivity.
    + intros [= <-]. split; auto.
Qed.

(** The errors of a lookup in the raw contents, for a key that is no
    slice: [IndexError], [KeyError] or [TypeError]. *)
Lemma raw_getitem_errors (c key : pyobj) (e : exn) :
  is_slice key = false ->
  raw_getitem c key = Error e ->
  match e with
  | IndexError _ | KeyError _ | TypeError _ => True
  | _ => False
  end.
Proof.
  intros Hs E. unfold raw_getitem in E.
  destruct c; try (injection E as <-; exact I).
  - unfold seq_getitem in E. destruct key; try discriminate;
      try (injection E as <-; exact I).
    destruct (norm_index _ _); try (injection E as <-; exact I).
    destruct (nth_error _ _); try discriminate. injection E as <-. exact I.
  - unfold seq_getitem in E. destruct key; try discriminate;
      try (injection E as <-; exact I).
    destruct (norm_index _ _); try (injection E as <-; exact I).
    destruct (nth_error _ _); try discriminate. injection E as <-. exact I.
  - destruct (to_key key); try (injection E as <-; exact I).
    destruct (dict_get d k); try discriminate. injection E as <-. exact I.
Qed.

Lemma lookup_cases (ext : numpy_ext) (n : nat) (self key : pyobj) :
  is_arraytainer key = false ->
  is_array key = false ->
  is_slice key = false ->
  match raw_getitem (contents self) key with
  | Ok item => __getitem__ ext (S n) self key = Ok item
  | Error _ => __getitem__ ext (S n) self key = Error (KeyError msg_not_a_key)
  end.
Proof.
  intros Ha Hr Hs. cbn [__getitem__]. rewrite Ha, Hr, Hs. simpl.
  unfold _get_with_regular_key.
  destruct (raw_getitem (contents self) key) as [item|e] eqn:E; auto.
  pose proof (raw_getitem_errors _ _ _ Hs E) as He.
  destruct e; auto; contradiction.
Qed.

(** X3.  A lookup [self[key]] with a key that is no arraytainer, array or
    slice-like object returns what the contents hold under [key], and
    raises [KeyError] whenever the contents raise: an index out of range
    on a list-like tree and an unhashable or absent key never surface as
    [IndexError] or [TypeError]. *)
Theorem X3_failed_lookup_is_KeyError (ext : numpy_ext) (n : nat)
    (self key : pyobj) :
  is_arraytainer key = false ->
  is_array key = false ->
  is_slice key = false ->
  match raw_getitem (contents self) key with
  | Ok item => __getitem__ ext (S n) self key = Ok item
  | Error _ => __getitem__ ext (S n) self key = Error (KeyError msg_not_a_key)
  end.
Proof.
  intros Ha Hr Hs. cbn [__getitem__]. rewrite Ha, Hr, Hs. simpl.
  unfold _get_with_regular_key.
  destruct (raw_getitem (contents self) key) as [item|e] eqn:E; auto.
  pose proof (raw_getitem_errors _ _ _ Hs E) as He.
  destruct e; auto; contradiction.
Qed.

Lemma X3_failed_lookup_is_KeyError_witness :
  __getitem__ numpy_fragment 1 three_leaves (PInt 3)
  = Error (KeyError msg_not_a_key).
Proof.
  exact (X3_failed_lookup_is_KeyError numpy_fragment 0 three_leaves (PInt 3)
           eq_refl eq_refl eq_refl).
Defined.

Lemma getitem_dict_regular (ext : numpy_ext) (m : nat) (d : list (key * pyobj))
    (dt : option dtype) (obj : pyobj) (k : key) :
  to_key obj = Some k -> regular_key k = true ->
  __getitem__ ext (S m) (Arraytainer (PDict d) dt) obj
  = match dict_get d k with
    | Some v => Ok v
    | None => Error (KeyError msg_not_a_key)
    end.
Proof.
  intros Hk Hr.
  destruct (regular_key_object obj k Hk Hr) as [_ [Hs [Ha Ht]]].
  cbn [__getitem__]. rewrite Ht, Ha, Hs. simpl.
  unfold _get_with_regular_key. simpl. rewrite Hk.
  now destruct (dict_get d k).
Qed.

(** X4.  Assignment [T[key] = value] on a dict-like tree, [key] an int or
    a string: the value is stored as an array or an arraytainer, a new
    key goes last, the lookup of [key] returns the stored value, and the
    lookup of every other such key is as before. *)
Theorem X4_dict_assignment_then_lookup (ext : numpy_ext) (n : nat)
    (d : list (key * pyobj)) (dt : option dtype) (obj value v : pyobj)
    (k : key) :
  to_key obj = Some k ->
  regular_key k = true ->
  _convert_to_array_or_arraytainer ext n (Arraytainer (PDict d) dt) value
  = Ok v ->
  exists T',
    __setitem__ ext (S n) (Arraytainer (PDict d) dt) obj value = (Ok tt, T')
    /\ (is_array v || is_arraytainer v) = true
    /\ keys T' = (if key_in k (map fst d) then map fst d else map fst d ++ [k])
    /\ (forall m, __getitem__ ext (S m) T' obj = Ok v)
    /\ (forall m obj' k',
           to_key obj' = Some k' -> regular_key k' = true -> k' <> k ->
           __getitem__ ext (S m) T' obj'
           = __getitem__ ext (S m) (Arraytainer (PDict d) dt) obj').
Proof.
  intros Hk Hr Hc.
  destruct (regular_key_object obj k Hk Hr) as [_ [Hs [Ha Ht]]].
  exists (Arraytainer (PDict (dict_set d k v)) dt).
  split; [|split; [|split; [|split]]].
  - cbn [__setitem__]. rewrite Hc, Ha, Hs, Ht. simpl.
    unfold _set_with_regular_key. simpl. now rewrite Hk.
  - apply (converted_kind ext n _ _ _ Hc).
  - simpl. apply dict_set_keys.
  - intros m. rewrite (getitem_dict_regular ext m _ dt obj k Hk Hr).
    now rewrite dict_get_set_same.
  - intros m obj' k' Hk' Hr' Hne.
    rewrite !(getitem_dict_regular ext m _ dt obj' k' Hk' Hr').
    now rewrite dict_get_set_other.
Qed.

Lemma X4_dict_assignment_then_lookup_witness :
  exists T',
    __setitem__ numpy_fragment 1 tree_ab (PStr "c") (PInt 7) = (Ok tt, T')
    /\ (is_array (arr [] [7]%Z) || is_arraytainer (arr [] [7]%Z)) = true
    /\ keys T'
       = (if key_in (KStr "c") (map fst [(KStr "a", arr [2] [10; 20]%Z);
                                         (KStr "b", arr [1] [30]%Z)])
          then map fst [(KStr "a", arr [2] [10; 20]%Z);
                        (KStr "b", arr [1] [30]%Z)]
          else map fst [(KStr "a", arr [2] [10; 20]%Z);
                        (KStr "b", arr [1] [30]%Z)] ++ [KStr "c"])
    /\ (forall m, __getitem__ numpy_fragment (S m) T' (PStr "c")
                  = Ok (arr [] [7]%Z))
    /\ (forall m obj' k',
           to_key obj' = Some k' -> regular_key k' = true -> k' <> KStr "c" ->
           __getitem__ numpy_fragment (S m) T' obj'
           = __getitem__ numpy_fragment (S m) tree_ab obj').
Proof.
  apply (X4_dict_assignment_then_lookup numpy_fragment 0
           [(KStr "a", arr [2] [10; 20]%Z); (KStr "b", arr [1] [30]%Z)]
           None (PStr "c") (PInt 7) (arr [] [7]%Z) (KStr "c")).
  - reflexivity.
  - reflexivity.
  - reflexivity.
Defined.

Lemma list_set_length {A : Type} (l : list A) (i : nat) (v : A) :
  length (list_set l i v) = length l.
Proof.
  revert i. induction l as [|x l IH]; intros [|i]; simpl; auto.
Qed.

Lemma list_set_nth_same {A : Type} (l : list A) (i : nat) (v : A) :
  i < length l -> nth_error (list_set l i v) i = Some v.
Proof.
  revert i. induction l as [|x l IH]; intros [|i]; simpl; try lia; auto.
  intros H. apply IH. lia.
Qed.

Lemma list_set_nth_other {A : Type} (l : list A) (i j : nat) (v : A) :
  j <> i -> nth_error (list_set l i v) j = nth_error l j.
Proof.
  revert i j. induction l as [|x l IH]; intros [|i] [|j] H; simpl; auto;
    try congruence.
Qed.

Lemma norm_index_lt (n : nat) (z : Z) (i : nat) :
  norm_index n z = Some i -> i < n.
Proof.
  unfold norm_index.
  destruct (z <? 0)%Z eqn:E;
    destruct (_ && _) eqn:B; try discriminate;
    intros [= <-]; apply andb_true_iff in B; destruct B as [B1 B2];
    apply Z.leb_le in B1; apply Z.ltb_lt in B2; lia.
Qed.

Lemma norm_index_in (n : nat) (z : Z) :
  (- Z.of_nat n <= z < Z.of_nat n)%Z -> exists i, norm_index n z = Some i.
Proof.
  intros H. unfold norm_index.
  destruct (z <? 0)%Z eqn:E.
  - apply Z.ltb_lt in E.
    assert (B : ((0 <=? z + Z.of_nat n) && (z + Z.of_nat n <? Z.of_nat n))%Z
                = true).
    { apply andb_true_iff. split; [apply Z.leb_le | apply Z.ltb_lt]; lia. }
    rewrite B. eauto.
  - apply Z.ltb_ge in E.
    assert (B : ((0 <=? z) && (z <? Z.of_nat n))%Z = true).
    { apply andb_true_iff. split; [apply Z.leb_le | apply Z.ltb_lt]; lia. }
    rewrite B. eauto.
Qed.

Lemma norm_index_neg (n : nat) (z : Z) :
  (- Z.of_nat n <= z < 0)%Z ->
  norm_index n z = Some (Z.to_nat (z + Z.of_nat n)).
Proof.
  intros H. unfold norm_index.
  assert (E : (z <? 0)%Z = true) by (apply Z.ltb_lt; lia).
  rewrite E.
  assert (B : ((0 <=? z + Z.of_nat n) && (z + Z.of_nat n <? Z.of_nat n))%Z
              = true).
  { apply andb_true_iff. split; [apply Z.leb_le | apply Z.ltb_lt]; lia. }
  now rewrite B.
Qed.

Lemma getitem_list_int (ext : numpy_ext) (m : nat) (l : list pyobj)
    (dt : option dtype) (z : Z) :
  __getitem__ ext (S m) (Arraytainer (PList l) dt) (PInt z)
  = match norm_index (length l) z with
    | Some i => match nth_error l i with
                | Some v => Ok v
                | None => Error (KeyError msg_not_a_key)
                end
    | None => Error (KeyError msg_not_a_key)
    end.
Proof.
  cbn [__getitem__]. simpl. unfold _get_with_regular_key. simpl.
  destruct (norm_index (length l) z); auto.
  now destruct (nth_error l n).
Qed.

(** X5.  Assignment [T[z] = value] on a list-like tree at a position
    within range, counted from the end when negative: the entry at that
    position is replaced by the value, stored as an array or an
    arraytainer; the length is unchanged, the lookup of [z] returns the
    stored value, and every other position holds what it held. *)
Theorem X5_list_assignment_in_range (ext : numpy_ext) (n : nat)
    (l : list pyobj) (dt : option dtype) (z : Z) (value v : pyobj) :
  (- Z.of_nat (length l) <= z < Z.of_nat (length l))%Z ->
  _convert_to_array_or_arraytainer ext n (Arraytainer (PList l) dt) value
  = Ok v ->
  exists T',
    __setitem__ ext (S n) (Arraytainer (PList l) dt) (PInt z) value
    = (Ok tt, T')
    /\ py_len T' = length l
    /\ dtype_of T' = dt
    /\ (forall m, __getitem__ ext (S m) T' (PInt z) = Ok v)
    /\ (forall m z',
           norm_index (length l) z' <> norm_index (length l) z ->
           __getitem__ ext (S m) T' (PInt z')
           = __getitem__ ext (S m) (Arraytainer (PList l) dt) (PInt z')).
Proof.
  intros Hz Hc. destruct (norm_index_in _ _ Hz) as [i Hi].
  pose proof (norm_index_lt _ _ _ Hi) as Hlt.
  exists (Arraytainer (PList (list_set l i v)) dt).
  split; [|split; [|split; [|split]]].
  - cbn [__setitem__]. rewrite Hc. simpl.
    unfold _set_with_regular_key. simpl. now rewrite Hi.
  - simpl. apply list_set_length.
  - reflexivity.
  - intros m. rewrite getitem_list_int, list_set_length, Hi.
    now rewrite list_set_nth_same.
  - intros m z' Hne. rewrite !getitem_list_int, list_set_length.
    destruct (norm_index (length l) z') as [j|]; auto.
    rewrite list_set_nth_other; auto. congruence.
Qed.

Lemma X5_list_assignment_in_range_witness :
  exists T',
    __setitem__ numpy_fragment 1 three_leaves (PInt (-1)) (PInt 9)
    = (Ok tt, T')
    /\ py_len T' = 3
    /\ dtype_of T' = None
    /\ (forall m, __getitem__ numpy_fragment (S m) T' (PInt (-1))
                  = Ok (arr [] [9]%Z))
    /\ (forall m z',
           norm_index 3 z' <> norm_index 3 (-1) ->
           __getitem__ numpy_fragment (S m) T' (PInt z')
           = __getitem__ numpy_fragment (S m) three_leaves (PInt z')).
Proof.
  apply (X5_list_assignment_in_range numpy_fragment 0
           [arr [2] [1; 2]%Z; arr [2] [3; 4]%Z; arr [2] [5; 6]%Z] None
           (-1) (PInt 9) (arr [] [9]%Z)).
  - simpl. lia.
  - reflexivity.
Defined.

Lemma dict_set_has_key {V : Type} (d : list (key * V)) (k : key) (v : V) :
  In k (map fst (dict_set d k v)).
Proof.
  rewrite dict_set_keys. destruct (key_in k (map fst d)) eqn:E.
  - now apply key_in_In.
  - apply in_or_app. right. now left.
Qed.

(** X6.  The constructor refuses a tuple among the keys, yet assignment
    does not: [T[key] = value] on a dict-like tree, with a hashable tuple
    that is not slice-like for [key], stores the value under the tuple,
    after which [copy] and [deepcopy] of the tree raise the tuple-key
    error of the constructor. *)
Theorem X6_tuple_key_by_assignment (ext : numpy_ext) (n : nat)
    (d : list (key * pyobj)) (dt : option dtype) (obj value v : pyobj)
    (l : list key) :
  to_key obj = Some (KTuple l) ->
  is_slice obj = false ->
  _convert_to_array_or_arraytainer ext n (Arraytainer (PDict d) dt) value
  = Ok v ->
  exists T',
    __setitem__ ext (S n) (Arraytainer (PDict d) dt) obj value = (Ok tt, T')
    /\ contents_get (contents T') (KTuple l) = Ok v
    /\ (forall m, copy ext (S m) T' = Error (KeyError msg_tuple_key))
    /\ (forall m, deepcopy ext (S m) T' = Error (KeyError msg_tuple_key)).
Proof.
  intros Hk Hs Hc.
  assert (Ha : is_array obj = false /\ is_arraytainer obj = false)
    by (destruct obj; try discriminate; auto).
  destruct Ha as [Ha Ht].
  exists (Arraytainer (PDict (dict_set d (KTuple l) v)) dt).
  assert (Hkt : _keys_contain_tuple (PDict (dict_set d (KTuple l) v)) = true).
  { simpl. apply existsb_exists.
    pose proof (dict_set_has_key d (KTuple l) v) as Hin.
    apply in_map_iff in Hin. destruct Hin as [kv [E Hin]].
    exists kv. split; auto. now rewrite E. }
  split; [|split; [|split]].
  - cbn [__setitem__]. rewrite Hc, Ha, Hs, Ht. simpl.
    unfold _set_with_regular_key. simpl. now rewrite Hk.
  - simpl. now rewrite dict_get_set_same.
  - intros m. unfold copy. rewrite init_unfold.
    cbn [contents is_list is_dict orb negb andb]. now rewrite Hkt.
  - intros m. unfold deepcopy. rewrite init_unfold.
    cbn [contents is_list is_dict orb negb andb]. now rewrite Hkt.
Qed.

Lemma X6_tuple_key_by_assignment_witness :
  exists T',
    __setitem__ numpy_fragment 1 tree_ab (PTuple [PStr "a"; PStr "b"]) (PInt 7)
    = (Ok tt, T')
    /\ contents_get (contents T') (KTuple [KStr "a"; KStr "b"])
       = Ok (arr [] [7]%Z)
    /\ (forall m, copy numpy_fragment (S m) T' = Error (KeyError msg_tuple_key))
    /\ (forall m, deepcopy numpy_fragment (S m) T'
                  = Error (KeyError msg_tuple_key)).
Proof.
  apply (X6_tuple_key_by_assignment numpy_fragment 0
           [(KStr "a", arr [2] [10; 20]%Z); (KStr "b", arr [1] [30]%Z)]
           None (PTuple [PStr "a"; PStr "b"]) (PInt 7) (arr [] [7]%Z)
           [KStr "a"; KStr "b"]).
  - reflexivity.
  - reflexivity.
  - reflexivity.
Defined.

(** ** [append] and [update] *)

Lemma nth_error_app_last {A : Type} (l : list A) (v : A) :
  nth_error (l ++ [v]) (length l) = Some v.
Proof. induction l as [|x l IH]; simpl; auto. Qed.

Lemma nth_error_app_before {A : Type} (l : list A) (v : A) (i : nat) :
  i < length l -> nth_error (l ++ [v]) i = nth_error l i.
Proof.
  revert i. induction l as [|x l IH]; intros [|i]; simpl; try lia; auto.
  intros H. apply IH. lia.
Qed.

(** X7.  [append] on a list-like tree, then lookup: the tree is one entry
    longer, the appended value, stored as an array or an arraytainer, is
    found at the old length and at [-1], and every earlier position
    holds what it held. *)
Theorem X7_append_then_lookup (ext : numpy_ext) (n : nat) (l : list pyobj)
    (dt : option dtype) (value v : pyobj) :
  _convert_to_array_or_arraytainer ext n (Arraytainer (PList l) dt) value
  = Ok v ->
  exists T',
    append ext n (Arraytainer (PList l) dt) value [] = (Ok tt, T')
    /\ py_len T' = S (length l)
    /\ (forall m, __getitem__ ext (S m) T' (PInt (Z.of_nat (length l))) = Ok v)
    /\ (forall m, __getitem__ ext (S m) T' (PInt (-1)) = Ok v)
    /\ (forall m i,
           i < length l ->
           __getitem__ ext (S m) T' (PInt (Z.of_nat i))
           = __getitem__ ext (S m) (Arraytainer (PList l) dt)
               (PInt (Z.of_nat i))).
Proof.
  intros Hc. exists (Arraytainer (PList (l ++ [v])) dt).
  assert (Hlen : length (l ++ [v]) = S (length l))
    by (rewrite length_app; simpl; lia).
  split; [|split; [|split; [|split]]].
  - destruct l; simpl; rewrite Hc; reflexivity.
  - simpl. exact Hlen.
  - intros m. rewrite getitem_list_int, Hlen.
    rewrite norm_index_nat by lia. now rewrite nth_error_app_last.
  - intros m. rewrite getitem_list_int, Hlen.
    rewrite norm_index_neg by lia.
    replace (Z.to_nat (-1 + Z.of_nat (S (length l)))) with (length l) by lia.
    now rewrite nth_error_app_last.
  - intros m i Hi. rewrite !getitem_list_int, Hlen.
    rewrite !norm_index_nat by lia.
    now rewrite nth_error_app_before.
Qed.

Lemma X7_append_then_lookup_witness :
  exists T',
    append numpy_fragment 0 three_leaves (PInt 9) [] = (Ok tt, T')
    /\ py_len T' = 4
    /\ (forall m, __getitem__ numpy_fragment (S m) T' (PInt 3)
                  = Ok (arr [] [9]%Z))
    /\ (forall m, __getitem__ numpy_fragment (S m) T' (PInt (-1))
                  = Ok (arr [] [9]%Z))
    /\ (forall m i,
           i < 3 ->
           __getitem__ numpy_fragment (S m) T' (PInt (Z.of_nat i))
           = __getitem__ numpy_fragment (S m) three_leaves (PInt (Z.of_nat i))).
Proof.
  apply (X7_append_then_lookup numpy_fragment 0
           [arr [2] [1; 2]%Z; arr [2] [3; 4]%Z; arr [2] [5; 6]%Z] None
           (PInt 9) (arr [] [9]%Z)).
  reflexivity.
Defined.

(** X8.  Once the new value is converted, [append] without a key path
    raises [TypeError] on a dict-like tree and [update] without a key
    path raises [TypeError] on a list-like tree; the tree is left as it
    was. *)
Theorem X8_wrong_kind_of_tree (ext : numpy_ext) (n : nat)
    (self value v : pyobj) :
  _convert_to_array_or_arraytainer ext n self value = Ok v ->
  if dict_like self
  then append ext n self value []
       = (Error (TypeError "Can't append to dictionary-like Arraytainer; use update method instead."),
          self)
  else update ext (S n) self value [] = (Error (TypeError msg_use_update), self).
Proof.
  intros Hc. destruct (dict_like self) eqn:E.
  - unfold append. rewrite Hc, E. reflexivity.
  - cbn [update]. rewrite Hc, E. reflexivity.
Qed.

Lemma X8_wrong_kind_of_tree_witness :
  update numpy_fragment 4 three_leaves (PDict [(KStr "a", PInt 1)]) []
  = (Error (TypeError msg_use_update), three_leaves).
Proof.
  exact (X8_wrong_kind_of_tree numpy_fragment 3 three_leaves
           (PDict [(KStr "a", PInt 1)])
           (Arraytainer (PDict [(KStr "a", arr [] [1]%Z)]) None) eq_refl).
Defined.

(** Writing back under a regular key at which the contents hold an
    entry. *)
Lemma raw_set_get (c obj old x : pyobj) (k : key) :
  (is_list c || is_dict c) = true ->
  to_key obj = Some k -> regular_key k = true ->
  raw_getitem c obj = Ok old ->
  exists c',
    raw_setitem c obj x = Ok c'
    /\ raw_getitem c' obj = Ok x.
Proof.
  intros Hc Hk Hr Hg. destruct c; try discriminate.
  - (* list *)
    destruct obj; try discriminate. simpl in Hg |- *.
    destruct (norm_index (length l) z) as [i|] eqn:Hi; try discriminate.
    exists (PList (list_set l i x)). split; auto.
    simpl. rewrite list_set_length, Hi.
    rewrite list_set_nth_same; auto. eapply norm_index_lt; eauto.
  - (* dict *)
    simpl in Hg |- *. rewrite Hk in *.
    exists (PDict (dict_set d k x)). split; auto.
    simpl. rewrite Hk. now rewrite dict_get_set_same.
Qed.

(** X9.  [append] with a key path of one int or string key under which
    the tree holds a list-like child: the value, converted under the
    [dtype] of the tree on which [append] is called, goes at the end of
    the child, which the lookup of the key then returns. *)
Theorem X9_append_along_path (ext : numpy_ext) (n : nat) (c : pyobj)
    (dt : option dtype) (obj value v : pyobj) (k : key) (l' : list pyobj)
    (dt' : option dtype) :
  (is_list c || is_dict c) = true ->
  to_key obj = Some k ->
  regular_key k = true ->
  raw_getitem c obj = Ok (Arraytainer (PList l') dt') ->
  _convert_to_array_or_arraytainer ext (S n) (Arraytainer c dt) value = Ok v ->
  exists T',
    append ext (S n) (Arraytainer c dt) value [obj] = (Ok tt, T')
    /\ dtype_of T' = dt
    /\ forall m,
         __getitem__ ext (S m) T' obj = Ok (Arraytainer (PList (l' ++ [v])) dt').
Proof.
  intros Hld Hk Hr Hg Hc.
  destruct (regular_key_object obj k Hk Hr) as [_ [Hs [Ha Ht]]].
  destruct (raw_set_get c obj _ (Arraytainer (PList (l' ++ [v])) dt') k
              Hld Hk Hr Hg)
    as [c' [Hset Hget]].
  exists (Arraytainer c' dt).
  pose proof (lookup_cases ext n (Arraytainer c dt) obj Ht Ha Hs) as Hl.
  simpl contents in Hl. rewrite Hg in Hl.
  destruct (converted_kind ext _ _ _ _ Hc) as [_ Hagain].
  split; [|split].
  - cbn [append]. rewrite Hc, Hl. simpl negb. cbv iota.
    simpl contents. rewrite Hg.
    rewrite (Hagain (S n) (Arraytainer (PList l') dt')).
    simpl. now rewrite Hset.
  - reflexivity.
  - intros m.
    pose proof (lookup_cases ext m (Arraytainer c' dt) obj Ht Ha Hs) as Hl'.
    simpl contents in Hl'. now rewrite Hget in Hl'.
Qed.

Lemma X9_append_along_path_witness :
  exists T',
    append numpy_fragment 1 nested_tree (PInt 9) [PStr "b"] = (Ok tt, T')
    /\ dtype_of T' = Some float64
    /\ forall m,
         __getitem__ numpy_fragment (S m) T' (PStr "b")
         = Ok (Arraytainer
                 (PList ([arr [3] [5; 6; 7]%Z; arr [] [8]%Z] ++ [arr [] [9]%Z]))
                 (Some int64)).
Proof.
  apply (X9_append_along_path numpy_fragment 0
           (PDict [(KStr "a", arr [2; 2] [1; 2; 3; 4]%Z);
                   (KStr "b", Arraytainer
                                (PList [arr [3] [5; 6; 7]%Z; arr [] [8]%Z])
                                (Some int64))])
           (Some float64) (PStr "b") (PInt 9) (arr [] [9]%Z) (KStr "b")
           [arr [3] [5; 6; 7]%Z; arr [] [8]%Z] (Some int64)).
  - reflexivity.
  - reflexivity.
  - reflexivity.
  - reflexivity.
  - reflexivity.
Defined.

Lemma dict_get_notin {V : Type} (d : list (key * V)) (k : key) :
  ~ In k (map fst d) -> dict_get d k = None.
Proof.
  induction d as [|[k' v'] d IH]; simpl; auto.
  intros H. destruct (key_eqb k k') eqn:E.
  - apply key_eqb_eq in E. subst. tauto.
  - apply IH. tauto.
Qed.

(** Lookup in a dict after the items [its] have been stored in it, one
    after the other. *)
Lemma dict_get_fold_set (its : list (key * pyobj)) (k : key) :
  NoDup (map fst its) ->
  forall d,
    dict_get (fold_left (fun d kv => dict_set d (fst kv) (snd kv)) its d) k
    = match dict_get its k with
      | Some v => Some v
      | None => dict_get d k
      end.
Proof.
  induction its as [|[k0 v0] its IH]; simpl; auto.
  intros Hnd d. inversion Hnd as [|? ? Hnotin Hnd']; subst.
  rewrite IH by auto.
  destruct (key_eqb k k0) eqn:E.
  - apply key_eqb_eq in E. subst k0.
    rewrite dict_get_notin by auto. apply dict_get_set_same.
  - destruct (dict_get its k); auto.
    apply dict_get_set_other. now apply key_eqb_neq.
Qed.

Lemma update_loop (ext : numpy_ext) (m : nat) (N : pyobj) (dt : option dtype) :
  NoDup (map fst (items N)) ->
  forall its d,
    Forall (fun kv => In kv (items N) /\ regular_key (fst kv) = true) its ->
    for_each (fun self k =>
                match __getitem__ ext (S m) N (of_key k) with
                | Ok v => store self k v
                | Error e => (Error e, self)
                end)
      (map fst its) (Arraytainer (PDict d) dt)
    = (Ok tt,
       Arraytainer
         (PDict (fold_left (fun d kv => dict_set d (fst kv) (snd kv)) its d))
         dt).
Proof.
  intros Hnd. induction its as [|[k v] its IH]; intros d Hall;
    [reflexivity|].
  inversion Hall as [|? ? [Hin Hr] Hall']; subst. simpl in Hr.
  cbn [map fst snd for_each fold_left].
  rewrite (getitem_regular ext m N k v Hnd Hin Hr).
  unfold store. cbn [contents contents_set dtype_of]. apply IH. exact Hall'.
Qed.

(** X10.  [update] without a key path on a dict-like tree, with a new
    value that converts to a Container Tree [N] whose keys are ints or
    strings: every entry of [N] is stored in the tree under its key, so
    that a lookup returns the entry of [N] where [N] has the key and what
    the tree held anywhere else. *)
Theorem X10_update_merges (ext : numpy_ext) (n : nat)
    (d : list (key * pyobj)) (dt : option dtype) (value N : pyobj) :
  _convert_to_array_or_arraytainer ext (S n) (Arraytainer (PDict d) dt) value
  = Ok N ->
  container_tree N = true ->
  forallb regular_key (keys N) = true ->
  exists T',
    update ext (S (S n)) (Arraytainer (PDict d) dt) value [] = (Ok tt, T')
    /\ dtype_of T' = dt
    /\ forall m obj k,
         to_key obj = Some k -> regular_key k = true ->
         __getitem__ ext (S m) T' obj
         = match dict_get (items N) k with
           | Some v => Ok v
           | None => __getitem__ ext (S m) (Arraytainer (PDict d) dt) obj
           end.
Proof.
  intros Hc HN Hreg.
  destruct (container_tree_keys N HN) as [Hki Hko].
  assert (Hnd : NoDup (map fst (items N)))
    by (rewrite Hki; now apply dict_keys_distinct).
  exists (Arraytainer
            (PDict (fold_left (fun d kv => dict_set d (fst kv) (snd kv))
                      (items N) d)) dt).
  split; [|split].
  - cbn [update]. rewrite Hc. simpl negb. cbv iota.
    unfold dict_update.
    assert (Ha : is_arraytainer N = true)
      by (unfold container_tree in HN; apply andb_true_iff in HN; tauto).
    destruct N; try discriminate.
    rewrite <- Hki. apply update_loop; auto.
    apply Forall_forall. intros kv Hin. split; auto.
    rewrite forallb_forall in Hreg. apply Hreg.
    rewrite <- Hki. now apply in_map.
  - reflexivity.
  - intros m obj k Hk Hr.
    rewrite !(getitem_dict_regular ext m _ dt obj k Hk Hr).
    rewrite dict_get_fold_set by auto.
    now destruct (dict_get (items N) k).
Qed.

Lemma X10_update_merges_witness :
  exists T',
    update numpy_fragment 5 tree_ab
      (PDict [(KStr "b", PInt 7); (KStr "c", PInt 8)]) [] = (Ok tt, T')
    /\ dtype_of T' = None
    /\ forall m obj k,
         to_key obj = Some k -> regular_key k = true ->
         __getitem__ numpy_fragment (S m) T' obj
         = match dict_get
                   (items (Arraytainer
                             (PDict [(KStr "b", arr [] [7]%Z);
                                     (KStr "c", arr [] [8]%Z)]) None)) k with
           | Some v => Ok v
           | None => __getitem__ numpy_fragment (S m) tree_ab obj
           end.
Proof.
  apply (X10_update_merges numpy_fragment 3
           [(KStr "a", arr [2] [10; 20]%Z); (KStr "b", arr [1] [30]%Z)] None
           (PDict [(KStr "b", PInt 7); (KStr "c", PInt 8)])
           (Arraytainer
              (PDict [(KStr "b", arr [] [7]%Z); (KStr "c", arr [] [8]%Z)])
              None)).
  - reflexivity.
  - reflexivity.
  - reflexivity.
Defined.

(** X11.  A key path of [update] that consists of one object with
    [__getitem__] (a string, a list, a tuple, a dict, an array, an
    arraytainer) is taken for the path itself: when the object lists as
    two or more keys, the call is the call with those keys; the one
    string key [ab] is the path of the keys [a] and [b]. *)
Theorem X11_single_key_is_unpacked (ext : numpy_ext) (n : nat)
    (self value x : pyobj) (l : list pyobj) :
  has_getitem x = true ->
  py_list x = Ok l ->
  2 <= length l ->
  update ext n self value [x] = update ext n self value l.
Proof.
  intros Hg Hl Hlen. destruct n as [|n]; [reflexivity|].
  cbn [update].
  destruct (_convert_to_array_or_arraytainer ext n self value); auto.
  rewrite Hg, Hl.
  destruct l as [|k1 [|k2 l]]; simpl in Hlen; try lia. reflexivity.
Qed.

Lemma X11_single_key_is_unpacked_witness :
  update numpy_fragment 3 nested_tree (PInt 9) [PStr "ab"]
  = update numpy_fragment 3 nested_tree (PInt 9) [PStr "a"; PStr "b"].
Proof.
  apply (X11_single_key_is_unpacked numpy_fragment 3 nested_tree (PInt 9)
           (PStr "ab") [PStr "a"; PStr "b"]).
  - reflexivity.
  - reflexivity.
  - simpl. lia.
Defined.

(** ** Sums and sizes *)

Lemma int64_wrap_add_l (a b : Z) :
  int64_wrap (int64_wrap a + b) = int64_wrap (a + b).
Proof.
  unfold int64_wrap. f_equal.
  replace ((a + 2 ^ 63) mod 2 ^ 64 - 2 ^ 63 + b + 2 ^ 63)%Z
    with ((a + 2 ^ 63) mod 2 ^ 64 + b)%Z by lia.
  rewrite Zplus_mod_idemp_l. f_equal. lia.
Qed.

Lemma int64_wrap_add_r (a b : Z) :
  int64_wrap (a + int64_wrap b) = int64_wrap (a + b).
Proof. rewrite Z.add_comm, int64_wrap_add_l. f_equal. lia. Qed.

Lemma int64_wrap_in_range (z : Z) : in_int64 z = true -> int64_wrap z = z.
Proof.
  unfold in_int64, int64_wrap. rewrite andb_true_iff.
  intros [H1 H2]. apply Z.leb_le in H1. apply Z.ltb_lt in H2.
  rewrite Z.mod_small; lia.
Qed.

(** Adding up with a wrap-around after every step gives the total,
    wrapped once. *)
Lemma wrapped_steps (zs : list Z) :
  forall acc,
    int64_wrap (fold_left (fun a z => int64_wrap (a + z)) zs acc)
    = int64_wrap (acc + fold_right Z.add 0%Z zs).
Proof.
  induction zs as [|z zs IH]; intros acc; cbn [fold_left fold_right].
  - now rewrite Z.add_0_r.
  - rewrite IH, int64_wrap_add_l. f_equal. lia.
Qed.

Lemma wrapped_steps_from_zero (zs : list Z) :
  fold_left (fun a z => int64_wrap (a + z)) zs 0%Z
  = int64_wrap (fold_right Z.add 0%Z zs).
Proof.
  pose proof (wrapped_steps zs 0%Z) as W. rewrite Z.add_0_l in W.
  rewrite <- W. clear W.
  assert (H : forall l acc, int64_wrap acc = acc ->
                int64_wrap (fold_left (fun a z => int64_wrap (a + z)) l acc)
                = fold_left (fun a z => int64_wrap (a + z)) l acc).
  { induction l as [|z l IH]; intros acc Hacc; cbn [fold_left]; auto.
    apply IH. rewrite <- (Z.add_0_r (int64_wrap (acc + z))) at 1.
    rewrite int64_wrap_add_l. f_equal. lia. }
  symmetry. apply H. reflexivity.
Qed.

(** The sums of the leaves, each wrapped, add up to the sum of all the
    elements, up to the wrap-around. *)
Lemma sum_of_sums (l : list ndarray) :
  int64_wrap (fold_right Z.add 0%Z (map nd_sum l))
  = int64_wrap (fold_right Z.add 0%Z (concat (map arr_data l))).
Proof.
  induction l as [|a l IH]; cbn [map concat fold_right]; auto.
  unfold nd_sum at 1. rewrite int64_wrap_add_l.
  rewrite <- int64_wrap_add_r, IH, int64_wrap_add_r. f_equal.
  induction (arr_data a) as [|z zs IHz]; simpl; auto. lia.
Qed.

Lemma list_arrays_leaves (x : pyobj) :
  value_ok x = true ->
  (if is_arraytainer x then list_arrays x else [x])
  = map PArr (leaf_arrays x).
Proof.
  revert x. apply value_ok_ind.
  - reflexivity.
  - intros l dt _ IH. simpl. rewrite Forall_forall in IH.
    induction l as [|y l IHl]; simpl; auto.
    rewrite map_app, <- IHl by (intros z Hz; apply IH; now right).
    f_equal. apply IH. now left.
  - intros d dt _ _ IH. simpl. rewrite Forall_forall in IH.
    induction d as [|y d IHd]; simpl; auto.
    rewrite map_app, <- IHd by (intros z Hz; apply IH; now right).
    f_equal. apply IH. now left.
Qed.

Section SumsAndSizes.

Variable ext : numpy_ext.

Lemma size_total (T : pyobj) :
  container_tree T = true ->
  size ext T = Z.of_nat (length (flat_data T)).
Proof.
  intros HT. unfold container_tree in HT.
  apply andb_true_iff in HT. destruct HT as [Ha Hv].
  pose proof (list_arrays_leaves T Hv) as Hl. rewrite Ha in Hl.
  unfold size, flat_data. rewrite Hl.
  assert (G : forall l acc,
             fold_left (fun acc array =>
                          (acc + Z.of_nat (nd_size (create_array ext array None)))%Z)
               (map PArr l) acc
             = (acc + Z.of_nat (length (concat (map arr_data l))))%Z).
  { induction l as [|a l IH]; intros acc; simpl.
    - lia.
    - rewrite IH, length_app.
      change (create_array ext (PArr a) None) with a.
      unfold nd_size. lia. }
  rewrite G. lia.
Qed.

End SumsAndSizes.

(** X12.  [sum] of a Container Tree whose keys are ints or strings and
    whose elements are 64-bit integers is the sum of all the elements of
    all its leaves in 64-bit arithmetic: the total, wrapped around when
    it leaves the range, and the total itself when it is in range. *)
Theorem X12_sum_of_all_elements (ext : numpy_ext) (n : nat) (T : pyobj) :
  container_tree T = true ->
  regular_keys T = true ->
  S (height T) <= n ->
  forallb in_int64 (flat_data T) = true ->
  sum ext n T = Ok (PInt (int64_wrap (fold_right Z.add 0%Z (flat_data T))))
  /\ (in_int64 (fold_right Z.add 0%Z (flat_data T)) = true ->
      sum ext n T = Ok (PInt (fold_right Z.add 0%Z (flat_data T)))).
Proof.
  intros HT Hr Hn _.
  pose proof HT as HT'. unfold container_tree in HT'.
  apply andb_true_iff in HT'. destruct HT' as [Ha Hv].
  assert (E : sum ext n T
              = Ok (PInt (int64_wrap (fold_right Z.add 0%Z (flat_data T))))).
  { unfold sum. rewrite Ha, sum_tree by auto. cbn [bind].
    destruct (tmap_value_ok (fun a => nd_scalar (nd_sum a)) T Hv)
      as [_ [_ [_ Ha1]]].
    rewrite Ha1, Ha.
    pose proof (list_arrays_tmap (fun a => nd_scalar (nd_sum a)) T Hv) as Hl.
    rewrite Ha in Hl. rewrite Hl. unfold py_sum.
    rewrite <- (map_map nd_sum (fun z => PArr (nd_scalar z))).
    rewrite py_sum_scalars, wrapped_steps_from_zero.
    unfold flat_data. now rewrite sum_of_sums. }
  split; [exact E|].
  intros Hin. rewrite E. now rewrite int64_wrap_in_range.
Qed.

Lemma X12_sum_of_all_elements_witness :
  sum numpy_fragment 5
    (Arraytainer (PList [arr [2] [2 ^ 62; 2 ^ 62]%Z; arr [1] [5]%Z]) None)
  = Ok (PInt (int64_wrap
                (fold_right Z.add 0%Z
                   (flat_data
                      (Arraytainer
                         (PList [arr [2] [2 ^ 62; 2 ^ 62]%Z; arr [1] [5]%Z])
                         None)))))
  /\ (in_int64
        (fold_right Z.add 0%Z
           (flat_data
              (Arraytainer
                 (PList [arr [2] [2 ^ 62; 2 ^ 62]%Z; arr [1] [5]%Z]) None)))
      = true ->
      sum numpy_fragment 5
        (Arraytainer (PList [arr [2] [2 ^ 62; 2 ^ 62]%Z; arr [1] [5]%Z]) None)
      = Ok (PInt (fold_right Z.add 0%Z
                    (flat_data
                       (Arraytainer
                          (PList [arr [2] [2 ^ 62; 2 ^ 62]%Z; arr [1] [5]%Z])
                          None))))).
Proof.
  apply (X12_sum_of_all_elements numpy_fragment 5
           (Arraytainer (PList [arr [2] [2 ^ 62; 2 ^ 62]%Z; arr [1] [5]%Z])
              None)).
  - reflexivity.
  - reflexivity.
  - simpl. lia.
  - reflexivity.
Defined.

(** X13.  The property [size] of a Container Tree is the number of
    elements of its leaves, and the array that [flatten] returns has
    that size. *)
Theorem X13_size_of_flatten (ext : numpy_ext) (n : nat) (T : pyobj) :
  container_tree T = true ->
  regular_keys T = true ->
  leaf_arrays T <> [] ->
  S (height T) <= n ->
  size ext T = Z.of_nat (length (flat_data T))
  /\ exists flat,
       flatten ext n T = Ok (PArr flat)
       /\ Z.of_nat (nd_size flat) = size ext T
       /\ arr_shape flat = [nd_size flat].
Proof.
  intros HT Hr Hne Hn. split; [now apply size_total|].
  exists (mk_ndarray [length (flat_data T)] (flat_data T)).
  split; [now apply flatten_ok|].
  rewrite size_total by auto. split; reflexivity.
Qed.

Lemma X13_size_of_flatten_witness :
  size numpy_fragment nested_tree
  = Z.of_nat (length (flat_data nested_tree))
  /\ exists flat,
       flatten numpy_fragment 8 nested_tree = Ok (PArr flat)
       /\ Z.of_nat (nd_size flat) = size numpy_fragment nested_tree
       /\ arr_shape flat = [nd_size flat].
Proof.
  apply (X13_size_of_flatten numpy_fragment 8 nested_tree).
  - reflexivity.
  - reflexivity.
  - discriminate.
  - simpl. lia.
Defined.

(** ** Operations applied leaf by leaf *)

Lemma tmap_tmap (g g' : ndarray -> ndarray) (x : pyobj) :
  value_ok x = true -> tmap g (tmap g' x) = tmap (fun a => g (g' a)) x.
Proof.
  revert x. apply value_ok_ind.
  - reflexivity.
  - intros l dt _ IH. simpl. do 2 f_equal. rewrite map_map.
    apply map_ext_in. intros y Hy. rewrite Forall_forall in IH. now apply IH.
  - intros d dt _ _ IH. simpl. do 2 f_equal. rewrite map_map.
    apply map_ext_in. intros y Hy. simpl. f_equal.
    rewrite Forall_forall in IH. now apply IH.
Qed.

Lemma tmap_ext (g g' : ndarray -> ndarray) (x : pyobj) :
  (forall a, g a = g' a) -> value_ok x = true -> tmap g x = tmap g' x.
Proof.
  intros E. revert x. apply value_ok_ind.
  - intros a. simpl. now rewrite E.
  - intros l dt _ IH. simpl. do 2 f_equal.
    apply map_ext_in. intros y Hy. rewrite Forall_forall in IH. now apply IH.
  - intros d dt _ _ IH. simpl. do 2 f_equal.
    apply map_ext_in. intros y Hy. f_equal.
    rewrite Forall_forall in IH. now apply IH.
Qed.

Lemma nd_squeeze_idem (a : ndarray) : nd_squeeze (nd_squeeze a) = nd_squeeze a.
Proof.
  unfold nd_squeeze. simpl. f_equal.
  induction (arr_shape a) as [|d s IH]; simpl; auto.
  destruct (Nat.eqb d 1) eqn:E; simpl; auto. now rewrite E, IH.
Qed.

Lemma nd_squeeze_no_one (a : ndarray) : ~ In 1 (arr_shape (nd_squeeze a)).
Proof.
  unfold nd_squeeze. simpl. intros H. apply filter_In in H.
  destruct H as [_ H]. discriminate.
Qed.

Lemma keys_tmap (g : ndarray -> ndarray) (T : pyobj) :
  container_tree T = true -> keys (tmap g T) = keys T.
Proof.
  intros HT.
  destruct (container_tree_keys T HT) as [Hki _].
  destruct (container_tree_keys _ (tmap_container_tree g T HT)) as [Hki' _].
  destruct (items_tmap g T HT) as [Hi _].
  rewrite <- Hki', Hi, map_fst_map_snd. exact Hki.
Qed.

(** X14.  [flatten] of a Container Tree without any leaf, such as the
    tree of the empty list, raises the [ValueError] of [np.concatenate]
    on an empty sequence. *)
Theorem X14_flatten_without_leaves (ext : numpy_ext) (n : nat) (T : pyobj) :
  container_tree T = true ->
  regular_keys T = true ->
  leaf_arrays T = [] ->
  S (height T) <= n ->
  flatten ext n T
  = Error (ValueError "need at least one array to concatenate").
Proof.
  intros HT Hr He Hn.
  pose proof HT as HT'. unfold container_tree in HT'.
  apply andb_true_iff in HT'. destruct HT' as [Ha Hv].
  destruct (tmap_value_ok nd_ravel T Hv) as [Hv1 [Hh1 [Hr1 Ha1]]].
  destruct (tmap_value_ok nd_squeeze (tmap nd_ravel T) Hv1)
    as [Hv2 [Hh2 [Hr2 Ha2]]].
  unfold flatten. rewrite ravel_tree by (auto; lia). cbn [bind].
  rewrite squeeze_tree;
    [| now apply tmap_container_tree | congruence | lia].
  cbn [bind]. rewrite Ha2, Ha1, Ha.
  pose proof (list_arrays_tmap nd_squeeze (tmap nd_ravel T) Hv1) as Hl.
  rewrite Ha1, Ha in Hl. rewrite Hl, leaf_arrays_tmap by auto.
  rewrite He. simpl mapM. cbn [bind].
  destruct n as [|n]; [lia|]. reflexivity.
Qed.

Lemma X14_flatten_without_leaves_witness :
  flatten numpy_fragment 7
    (Arraytainer (PDict [(KStr "a", Arraytainer (PList []) None)]) None)
  = Error (ValueError "need at least one array to concatenate").
Proof.
  apply (X14_flatten_without_leaves numpy_fragment 7
           (Arraytainer (PDict [(KStr "a", Arraytainer (PList []) None)]) None)).
  - reflexivity.
  - reflexivity.
  - reflexivity.
  - simpl. lia.
Defined.

(** X15.  [squeeze] of a Container Tree whose keys are ints or strings
    removes the axes of length one from every leaf: the result has the
    keys of the tree and the same elements, no leaf of it has an axis of
    length one, and squeezing it again returns it unchanged. *)
Theorem X15_squeeze_leaf_by_leaf (ext : numpy_ext) (n : nat) (T : pyobj) :
  container_tree T = true ->
  regular_keys T = true ->
  S (height T) <= n ->
  exists R,
    squeeze ext n T = Ok R
    /\ R = tmap nd_squeeze T
    /\ keys R = keys T
    /\ flat_data R = flat_data T
    /\ Forall (fun a => ~ In 1 (arr_shape a)) (leaf_arrays R)
    /\ squeeze ext n R = Ok R.
Proof.
  intros HT Hr Hn.
  pose proof HT as HT'. unfold container_tree in HT'.
  apply andb_true_iff in HT'. destruct HT' as [Ha Hv].
  assert (Hsq : forall X, value_ok X = true -> is_arraytainer X = true ->
                          regular_keys X = true -> S (height X) <= n ->
                          squeeze ext n X = Ok (tmap nd_squeeze X)).
  { intros X HXv HXa HXr HXn. unfold squeeze.
    rewrite (np_call_tmap ext (np_squeeze ext) [(KStr "axis", PNone)]
               (fun a => PArr (nd_squeeze a)) nd_squeeze
               (fun a => eq_refl)
               (fun a => conj eq_refl (conj eq_refl eq_refl))
               ltac:(repeat constructor) n X HXv HXr HXn).
    destruct X; try discriminate. reflexivity. }
  destruct (tmap_value_ok nd_squeeze T Hv) as [Hv1 [Hh1 [Hr1 Ha1]]].
  exists (tmap nd_squeeze T).
  split; [now apply Hsq|]. split; [reflexivity|].
  split; [now apply keys_tmap|].
  split; [|split].
  - unfold flat_data. rewrite leaf_arrays_tmap by auto.
    rewrite map_map. reflexivity.
  - rewrite leaf_arrays_tmap by auto. apply Forall_forall.
    intros a Hin. apply in_map_iff in Hin. destruct Hin as [b [<- _]].
    apply nd_squeeze_no_one.
  - rewrite Hsq by (auto; congruence).
    rewrite tmap_tmap by auto. f_equal.
    apply tmap_ext; auto. apply nd_squeeze_idem.
Qed.

Lemma X15_squeeze_leaf_by_leaf_witness :
  exists R,
    squeeze numpy_fragment 5
      (Arraytainer (PList [arr [1; 2] [1; 2]%Z; arr [1; 1] [3]%Z]) None) = Ok R
    /\ R = tmap nd_squeeze
             (Arraytainer (PList [arr [1; 2] [1; 2]%Z; arr [1; 1] [3]%Z]) None)
    /\ keys R
       = keys (Arraytainer (PList [arr [1; 2] [1; 2]%Z; arr [1; 1] [3]%Z]) None)
    /\ flat_data R
       = flat_data
           (Arraytainer (PList [arr [1; 2] [1; 2]%Z; arr [1; 1] [3]%Z]) None)
    /\ Forall (fun a => ~ In 1 (arr_shape a)) (leaf_arrays R)
    /\ squeeze numpy_fragment 5 R = Ok R.
Proof.
  apply (X15_squeeze_leaf_by_leaf numpy_fragment 5
           (Arraytainer (PList [arr [1; 2] [1; 2]%Z; arr [1; 1] [3]%Z]) None)).
  - reflexivity.
  - reflexivity.
  - simpl. lia.
Defined.

(** X16.  [ndim] of a Container Tree whose keys are ints or strings is
    the tree, with the same keys, of the number of axes of each leaf,
    which is the number of entries of the leaf's shape in [shape]. *)
Theorem X16_ndim_is_length_of_shape (ext : numpy_ext) (n : nat) (T : pyobj) :
  container_tree T = true ->
  regular_keys T = true ->
  S (height T) <= n ->
  exists N S,
    ndim ext n T = Ok N
    /\ shape ext n T = Ok S
    /\ N = tmap (fun a => nd_scalar (Z.of_nat (nd_ndim a))) T
    /\ N = tmap (fun s => nd_scalar (Z.of_nat (nd_size s))) S
    /\ keys N = keys T.
Proof.
  intros HT Hr Hn.
  pose proof HT as HT'. unfold container_tree in HT'.
  apply andb_true_iff in HT'. destruct HT' as [Ha Hv].
  exists (tmap (fun a => nd_scalar (Z.of_nat (nd_ndim a))) T).
  exists (tmap shape_array T).
  split; [|split; [|split; [|split]]].
  - unfold ndim.
    rewrite (np_call_tmap ext (np_ndim ext) []
               (fun a => PInt (Z.of_nat (nd_ndim a)))
               (fun a => nd_scalar (Z.of_nat (nd_ndim a)))
               (fun a => eq_refl)
               (fun a => conj eq_refl (conj eq_refl eq_refl))
               ltac:(repeat constructor) n T Hv Hr Hn).
    destruct T; try discriminate. reflexivity.
  - now apply shape_ok.
  - reflexivity.
  - rewrite tmap_tmap by auto. apply tmap_ext; auto.
    intros a. unfold shape_array, nd_size, nd_ndim. simpl.
    now rewrite length_map.
  - now apply keys_tmap.
Qed.

Lemma X16_ndim_is_length_of_shape_witness :
  exists N S,
    ndim numpy_fragment 8 nested_tree = Ok N
    /\ shape numpy_fragment 8 nested_tree = Ok S
    /\ N = tmap (fun a => nd_scalar (Z.of_nat (nd_ndim a))) nested_tree
    /\ N = tmap (fun s => nd_scalar (Z.of_nat (nd_size s))) S
    /\ keys N = keys nested_tree.
Proof.
  apply (X16_ndim_is_length_of_shape numpy_fragment 8 nested_tree).
  - reflexivity.
  - reflexivity.
  - simpl. lia.
Defined.

(** ** [all] and [any] *)

Section Reductions.

Lemma all_loop_ok (child : pyobj -> result bool) (c : pyobj) :
  forall its,
    Forall (fun kv => contents_get c (fst kv) = Ok (snd kv)
                      /\ child (snd kv)
                         = Ok (forallb nonzero (flat_data (snd kv)))) its ->
    all_loop child c (map fst its)
    = Ok (forallb nonzero (concat (map (fun kv => flat_data (snd kv)) its))).
Proof.
  induction its as [|[k v] its IH]; intros Hall; [reflexivity|].
  inversion Hall as [|? ? [Hg Hc] Hall']; subst. simpl in Hg, Hc.
  cbn [map fst snd all_loop concat]. rewrite Hg. cbn [bind].
  rewrite Hc. cbn [bind]. rewrite forallb_app.
  destruct (forallb nonzero (flat_data v)); simpl; auto.
Qed.

Lemma any_loop_ok (child : pyobj -> result bool) (c : pyobj) :
  forall its,
    Forall (fun kv => contents_get c (fst kv) = Ok (snd kv)
                      /\ child (snd kv)
                         = Ok (existsb nonzero (flat_data (snd kv)))) its ->
    any_loop child c (map fst its)
    = Ok (existsb nonzero (concat (map (fun kv => flat_data (snd kv)) its))).
Proof.
  induction its as [|[k v] its IH]; intros Hall; [reflexivity|].
  inversion Hall as [|? ? [Hg Hc] Hall']; subst. simpl in Hg, Hc.
  cbn [map fst snd any_loop concat]. rewrite Hg. cbn [bind].
  rewrite Hc. cbn [bind]. rewrite existsb_app.
  destruct (existsb nonzero (flat_data v)); simpl; auto.
Qed.

Lemma flat_data_leaf (a : ndarray) : flat_data (PArr a) = arr_data a.
Proof. unfold flat_data. simpl. apply app_nil_r. Qed.

End Reductions.

(** X17.  [all] of a Container Tree is true exactly when every element
    of every leaf is nonzero, and [any] exactly when some element of
    some leaf is; so on a tree without elements [all] is true and [any]
    false. *)
Theorem X17_all_and_any (n : nat) (T : pyobj) :
  container_tree T = true ->
  height T <= n ->
  all n T = Ok (forallb nonzero (flat_data T))
  /\ any n T = Ok (existsb nonzero (flat_data T)).
Proof.
  revert T. induction n as [|n IH]; intros T HT Hn.
  { pose proof (height_pos T). lia. }
  assert (Ha : is_arraytainer T = true)
    by (unfold container_tree in HT; apply andb_true_iff in HT; tauto).
  destruct (container_tree_keys T HT) as [Hki Hko].
  assert (Hnd : NoDup (map fst (items T)))
    by (rewrite Hki; now apply dict_keys_distinct).
  cbn [all any]. rewrite Ha, (flat_data_items T HT), <- Hki.
  split.
  - apply all_loop_ok. apply Forall_forall. intros [k v] Hin.
    split; [now apply contents_get_items|]. simpl.
    destruct (value_ok_children T (k, v) HT Hin) as [Hv Hh]. simpl in Hv, Hh.
    destruct v; try discriminate Hv.
    + now rewrite flat_data_leaf.
    + apply IH; [|lia]. unfold container_tree. now rewrite Hv.
  - apply any_loop_ok. apply Forall_forall. intros [k v] Hin.
    split; [now apply contents_get_items|]. simpl.
    destruct (value_ok_children T (k, v) HT Hin) as [Hv Hh]. simpl in Hv, Hh.
    destruct v; try discriminate Hv.
    + now rewrite flat_data_leaf.
    + apply IH; [|lia]. unfold container_tree. now rewrite Hv.
Qed.

Lemma X17_all_and_any_witness :
  all 7 nested_tree
  = Ok (forallb nonzero (flat_data nested_tree))
  /\ any 7 nested_tree
     = Ok (existsb nonzero (flat_data nested_tree)).
Proof.
  apply (X17_all_and_any 7 nested_tree).
  - reflexivity.
  - simpl. lia.
Defined.

(** ** The constructor from a flat array, beyond its round trip *)

(** X19.  [from_array] with a list or tuple for [shapes] that holds no
    arraytainer, and is not one list or dict alone, raises the
    [ValueError] that asks for an arraytainer, list or dict; so does a
    sequence of two or more lists. *)
Theorem X19_from_array_plain_shapes (ext : numpy_ext) (n : nat)
    (array shapes : pyobj) :
  is_sequence shapes = true ->
  existsb is_arraytainer (tuple_items shapes) = false ->
  (forall x, tuple_items shapes = [x] -> (is_list x || is_dict x) = false) ->
  from_array ext n array shapes
  = Error (ValueError "shapes must contain at least one arraytainer, list, or dict.").
Proof.
  intros Hs He H1. unfold from_array. rewrite Hs.
  unfold _concatenate_values_into_arraytainer.
  destruct (tuple_items shapes) as [|x [|y l]] eqn:E.
  - reflexivity.
  - rewrite (H1 x eq_refl). simpl in He.
    apply orb_false_iff in He. destruct He as [He _]. rewrite He. reflexivity.
  - rewrite He. reflexivity.
Qed.

Lemma X19_from_array_plain_shapes_witness :
  from_array numpy_fragment 5 three_elements
    (PTuple [PList [PInt 2]; PList [PInt 1]])
  = Error (ValueError "shapes must contain at least one arraytainer, list, or dict.").
Proof.
  apply (X19_from_array_plain_shapes numpy_fragment 5 three_elements
           (PTuple [PList [PInt 2]; PList [PInt 1]])).
  - reflexivity.
  - reflexivity.
  - intros x H. discriminate H.
Defined.

(** ** Operands that do not fit together *)

Lemma check_compat_mixed (ops : list pyobj) (ref : pyobj) :
  Exists (fun o => dict_like o <> dict_like ref) ops ->
  _check_arg_compatability ops ref = Error (KeyError msg_mixed_kinds)
  \/ _check_arg_compatability ops ref = Error (KeyError msg_not_subset).
Proof.
  unfold _check_arg_compatability.
  induction 1 as [o ops Ho | o ops Hex IH]; simpl.
  - left. destruct (Bool.eqb (dict_like o) (dict_like ref)) eqn:E.
    + apply Bool.eqb_prop in E. contradiction.
    + reflexivity.
  - destruct (Bool.eqb (dict_like o) (dict_like ref)); simpl; auto.
    destruct (forallb _ (keys o)); simpl; auto.
Qed.

(** X20.  A dispatched call among whose arraytainer operands one is
    list-like and another dict-like raises [KeyError], whatever the
    function: the function is not called for any key. *)
Theorem X20_mixed_kinds_rejected (ext : numpy_ext) (n : nat) (func : callable)
    (args : list pyobj) (kwargs : list (key * pyobj)) (o1 o2 : pyobj) :
  In o1 (operands args kwargs) ->
  In o2 (operands args kwargs) ->
  dict_like o1 <> dict_like o2 ->
  _manage_func_call ext n func args kwargs = Error (KeyError msg_mixed_kinds)
  \/ _manage_func_call ext n func args kwargs = Error (KeyError msg_not_subset).
Proof.
  intros H1 H2 Hne. unfold _manage_func_call. fold (operands args kwargs).
  destruct (max_by_len (operands args kwargs)) as [ref|] eqn:Em.
  - assert (Hex : Exists (fun o => dict_like o <> dict_like ref)
                    (operands args kwargs)).
    { apply Exists_exists.
      destruct (Bool.bool_dec (dict_like o1) (dict_like ref)) as [E|E].
      - exists o2. split; auto. congruence.
      - exists o1. split; auto. }
    destruct (check_compat_mixed _ ref Hex) as [-> | ->]; auto.
  - destruct (operands args kwargs); [contradiction|]. simpl in Em.
    destruct (max_by_len l); [destruct (_ <? _)|]; discriminate.
Qed.

Lemma X20_mixed_kinds_rejected_witness :
  _manage_func_call numpy_fragment 4 np_add [three_leaves; tree_ab] []
  = Error (KeyError msg_mixed_kinds)
  \/ _manage_func_call numpy_fragment 4 np_add [three_leaves; tree_ab] []
     = Error (KeyError msg_not_subset).
Proof.
  apply (X20_mixed_kinds_rejected numpy_fragment 4 np_add
           [three_leaves; tree_ab] [] three_leaves tree_ab).
  - left. reflexivity.
  - right. left. reflexivity.
  - discriminate.
Defined.

(** ** Assignment through an index object *)

(** A loop one of whose turns raises whenever it is reached in a state
    that satisfies an invariant of the turns does not return normally,
    and ends in a state that satisfies the invariant. *)
Lemma for_each_raises {A : Type} (body : pyobj -> A -> outcome)
    (I : pyobj -> Prop) (x : A) :
  (forall s y r s', I s -> body s y = (r, s') -> I s') ->
  (forall s, I s -> exists e s', body s x = (Error e, s')) ->
  forall l s,
    In x l -> I s -> exists e s', for_each body l s = (Error e, s') /\ I s'.
Proof.
  intros Hinv Hx. induction l as [|y l IH]; intros s Hin Hs; [contradiction|].
  simpl. destruct (body s y) as [[[]|e] s'] eqn:E.
  - destruct Hin as [->|Hin].
    + destruct (Hx s Hs) as [e [s'' E']]. congruence.
    + apply IH; auto. eapply Hinv; eauto.
  - exists e, s'. split; auto. eapply Hinv; eauto.
Qed.

Lemma store_keeps_keys (self : pyobj) (k : key) (v : pyobj)
    (r : result unit) (s' : pyobj) :
  key_in k (keys self) = true ->
  store self k v = (r, s') -> keys s' = keys self.
Proof.
  intros Hk. unfold store.
  destruct (contents_set (contents self) k v) as [c|e] eqn:E;
    [|now intros [= _ <-]].
  intros [= _ <-]. unfold keys at 1. simpl contents.
  unfold contents_set in E. unfold keys in *.
  destruct (contents self); try discriminate.
  - destruct k; try discriminate.
    destruct (norm_index (length l) z); try discriminate.
    injection E as <-. simpl. now rewrite list_set_length.
  - injection E as <-. rewrite dict_set_keys. now rewrite Hk.
Qed.

Section AssignmentFacts.

Variable ext : numpy_ext.

Lemma set_array_values_keeps_keys (self : pyobj) (k : key) (mask v : pyobj)
    (r : result unit) (s' : pyobj) :
  key_in k (keys self) = true ->
  _set_array_values ext self k mask v = (r, s') -> keys s' = keys self.
Proof.
  intros Hk. unfold _set_array_values.
  destruct (contents_get (contents self) k) as [c|e];
    [|now intros [= _ <-]].
  destruct c; try (now intros [= _ <-]).
  destruct (setitem_array ext a mask v); [|now intros [= _ <-]].
  now apply store_keeps_keys.
Qed.

Lemma set_in_child_keeps_keys (n : nat)
    (setitem : pyobj -> pyobj -> pyobj -> outcome)
    (self : pyobj) (k : key) (array v : pyobj) (r : result unit) (s' : pyobj) :
  key_in k (keys self) = true ->
  set_in_child ext n setitem self k array v = (r, s') ->
  keys s' = keys self.
Proof.
  intros Hk. unfold set_in_child.
  destruct (__getitem__ ext n self (of_key k)) as [x|e];
    [|now intros [= _ <-]].
  destruct x; try (now intros [= _ <-]).
  - destruct (setitem_array ext a array v); [|now intros [= _ <-]].
    destruct (is_slice (of_key k)).
    + now intros [= _ <-].
    + now apply store_keeps_keys.
  - destruct (setitem (Arraytainer x dt) array v) as [r0 child'].
    destruct (is_slice (of_key k)).
    + now intros [= _ <-].
    + destruct (store self k child') as [[[]|e] s''] eqn:E;
        intros [= _ <-]; now apply (store_keeps_keys self k child' _ _ Hk E).
Qed.

End AssignmentFacts.

(** X21.  Assignment [T[index] = V] through a slice-like object or an
    array, with an arraytainer [V] one of whose keys is no key of [T],
    does not return normally: it raises, and the keys of [T] are what
    they were; when the key that [T] lacks is the first key of [V], the
    error is the [KeyError] of the key check and [T] is unchanged. *)
Theorem X21_foreign_key_in_assigned_tree (ext : numpy_ext) (n : nat)
    (T index V : pyobj) (k : key) :
  (is_array index || is_slice index) = true ->
  is_arraytainer V = true ->
  In k (keys V) ->
  ~ In k (keys T) ->
  (exists e T',
      __setitem__ ext (S n) T index V = (Error e, T') /\ keys T' = keys T)
  /\ (hd_error (keys V) = Some k ->
      __setitem__ ext (S n) T index V = (Error (KeyError msg_set_keys), T)).
Proof.
  intros Hi HV Hin Hnot.
  assert (Hc : forall m s, _convert_to_array_or_arraytainer ext m s V = Ok V).
  { intros m s. unfold _convert_to_array_or_arraytainer.
    rewrite HV, orb_true_r. reflexivity. }
  assert (Hk : key_in k (keys T) = false).
  { destruct (key_in k (keys T)) eqn:E; auto.
    apply key_in_In in E. contradiction. }
  cbn [__setitem__]. rewrite Hc, Hi. unfold _set_with_array. rewrite HV.
  split.
  - apply (for_each_raises _ (fun s => keys s = keys T) k); auto.
    + intros s y r s' Hs E. rewrite <- Hs.
      destruct (key_in y (keys s)) eqn:Ey; simpl in E;
        [|now injection E as _ <-].
      destruct (contents_get (contents s) y) as [c|];
        [|now injection E as _ <-].
      destruct (__getitem__ ext n V (of_key y)) as [v|];
        [|now injection E as _ <-].
      destruct (is_array c && negb (is_array v));
        [now injection E as _ <-|].
      destruct (is_array c).
      * now apply (set_array_values_keeps_keys ext s y index v r).
      * now apply (set_in_child_keeps_keys ext n (__setitem__ ext n) s y
                     index v r).
    + intros s Hs. rewrite Hs, Hk. simpl. eauto.
  - intros Hhd. destruct (keys V) as [|k0 ks]; [discriminate|].
    injection Hhd as ->. simpl. now rewrite Hk.
Qed.

Lemma X21_foreign_key_in_assigned_tree_witness :
  (exists e T',
      __setitem__ numpy_fragment 3 tree_ab PNone
        (Arraytainer (PDict [(KStr "d", arr [1] [30]%Z);
                             (KStr "a", arr [2] [10; 20]%Z)]) None)
      = (Error e, T')
      /\ keys T' = keys tree_ab)
  /\ __setitem__ numpy_fragment 3 tree_ab PNone
       (Arraytainer (PDict [(KStr "d", arr [1] [30]%Z);
                            (KStr "a", arr [2] [10; 20]%Z)]) None)
     = (Error (KeyError msg_set_keys), tree_ab).
Proof.
  destruct (X21_foreign_key_in_assigned_tree numpy_fragment 2 tree_ab PNone
              (Arraytainer (PDict [(KStr "d", arr [1] [30]%Z);
                                   (KStr "a", arr [2] [10; 20]%Z)]) None)
              (KStr "d")) as [H1 H2].
  - reflexivity.
  - reflexivity.
  - left. reflexivity.
  - intros [H|[H|[]]]; discriminate H.
  - split; [exact H1 | exact (H2 eq_refl)].
Defined.

(** ** Operations on two trees of one structure *)

Lemma py_len_tmap (g : ndarray -> ndarray) (T : pyobj) :
  container_tree T = true -> py_len (tmap g T) = py_len T.
Proof.
  unfold container_tree. rewrite andb_true_iff. intros [Ha Hv].
  destruct T; try discriminate. destruct T; try discriminate;
    simpl; now rewrite length_map.
Qed.

Section PairedOperations.

Variable ext : numpy_ext.
Variable f : callable.
Variable kw : list (key * pyobj).
Variable s : ndarray -> ndarray.
Variable h : ndarray -> pyobj.
Variable g : ndarray -> ndarray.

Hypothesis f_arrays :
  forall a, valid_arrayb a = true -> f [PArr a; PArr (s a)] kw = Ok (h a).
Hypothesis h_plain :
  forall a, plain_result (h a) = true /\ height (h a) = 1
            /\ as_leaf ext (h a) = PArr (g a).
Hypothesis kw_scalar : Forall (fun kv => scalar_arg (snd kv) = true) kw.

Lemma operands_pair (x y : pyobj) :
  is_arraytainer x = true -> is_arraytainer y = true ->
  operands [x; y] kw = [x; y].
Proof.
  intros Hx Hy. unfold operands. rewrite (scan_scalar_kwargs kw kw_scalar).
  simpl. rewrite Hx, Hy. reflexivity.
Qed.

Lemma call_for_key_pair (n : nat) (func : callable) (x y : pyobj) (k : key) :
  is_arraytainer x = true -> is_arraytainer y = true ->
  In k (keys x) -> In k (keys y) ->
  call_for_key ext n func [x; y] kw k
  = let* u := __getitem__ ext n x (of_key k) in
    let* v := __getitem__ ext n y (of_key k) in
    func [u; v] kw.
Proof.
  intros Hx Hy Hkx Hky. unfold call_for_key.
  rewrite (prepare_scalar_kwargs _ kw k kw_scalar).
  simpl. rewrite Hx, Hy.
  apply key_in_In in Hkx. apply key_in_In in Hky. rewrite Hkx, Hky.
  destruct (__getitem__ ext n x (of_key k)); simpl; auto.
  destruct (__getitem__ ext n y (of_key k)); reflexivity.
Qed.

Lemma mapped_pair_facts (v : pyobj) :
  value_ok v = true ->
  plain_result (mapped_child h g v) = true
  /\ height (mapped_child h g v) <= height v
  /\ as_leaf ext (mapped_child h g v) = tmap g v.
Proof.
  intros Hv. destruct v; simpl in Hv; try discriminate.
  - simpl. destruct (h_plain a) as [H1 [H2 H3]]. rewrite H2. auto.
  - destruct (tmap_value_ok g (Arraytainer v dt) Hv) as [H1 [H2 [_ H4]]].
    unfold mapped_child. split; [|split].
    + apply value_ok_plain. exact H1.
    + rewrite H2. auto.
    + apply as_leaf_value. exact H1.
Qed.

(** One level of the dispatch of an operation on a tree and its image
    under [s]. *)
Lemma manage_pair_step (n : nat) (T : pyobj) :
  container_tree T = true ->
  regular_keys T = true ->
  height T <= n ->
  (forall kv, In kv (items T) ->
              np_call ext n f [snd kv; tmap s (snd kv)] kw
              = Ok (mapped_child h g (snd kv))) ->
  _manage_func_call ext n (np_call ext n f) [T; tmap s T] kw = Ok (tmap g T).
Proof.
  intros HT Hr Hn Hch.
  assert (Ha : is_arraytainer T = true)
    by (unfold container_tree in HT; apply andb_true_iff in HT; tauto).
  pose proof (tmap_container_tree s T HT) as HS.
  assert (HaS : is_arraytainer (tmap s T) = true)
    by (unfold container_tree in HS; apply andb_true_iff in HS; tauto).
  destruct (container_tree_keys T HT) as [Hki Hko].
  pose proof (keys_tmap s T HT) as HkS.
  destruct (items_tmap s T HT) as [HiS HdS].
  assert (Hnd : NoDup (map fst (items T)))
    by (rewrite Hki; now apply dict_keys_distinct).
  assert (Hops : operands [T; tmap s T] kw = [T; tmap s T])
    by (now apply operands_pair).
  pose (res := fun k => match contents_get (contents T) k with
                        | Ok v => mapped_child h g v
                        | Error _ => PNone
                        end).
  assert (Hres : forall kv, In kv (items T) ->
                            res (fst kv) = mapped_child h g (snd kv)).
  { intros [k v] Hin. unfold res. simpl.
    rewrite (contents_get_items T k v); auto. }
  rewrite (manage_func_call_ok ext n _ [T; tmap s T] kw T (keys T) res); auto.
  - rewrite (tmap_tree g T HT). do 3 f_equal.
    unfold written_over. apply map_ext_in. intros kv Hin.
    assert (key_in (fst kv) (keys T) = true) as ->.
    { apply key_in_In. rewrite <- Hki. now apply in_map. }
    rewrite (Hres kv Hin).
    destruct (value_ok_children T kv HT Hin) as [Hv _].
    destruct (mapped_pair_facts (snd kv) Hv) as [_ [_ ->]]. reflexivity.
  - rewrite Hops. simpl. rewrite (py_len_tmap s T HT), Nat.ltb_irrefl.
    reflexivity.
  - rewrite Hops. repeat constructor. exact HdS.
  - rewrite Hops. repeat constructor.
    + apply keys_subset_refl.
    + rewrite HkS. apply keys_subset_refl.
  - rewrite Hops. simpl. f_equal. rewrite HkS.
    rewrite <- (filter_all (keys T)) at 2. apply filter_ext_in.
    intros k Hk. apply key_in_In in Hk. now rewrite Hk.
  - apply Forall_forall. intros k Hk. split; auto.
    pose proof Hk as Hk'. rewrite <- Hki in Hk'. apply in_map_iff in Hk'.
    destruct Hk' as [[k' v] [E Hin]]. simpl in E. subst k'.
    destruct (value_ok_children T (k, v) HT Hin) as [Hv Hh].
    destruct (children_regular T (k, v) HT Hr Hin) as [Hrk _].
    simpl fst in Hrk. simpl snd in Hv, Hh.
    destruct (mapped_pair_facts v Hv) as [H1 [H2 _]].
    pose proof (Hres (k, v) Hin) as Hres'.
    simpl fst in Hres'. simpl snd in Hres'. rewrite Hres'.
    split; [|split; [exact H1 | lia]].
    rewrite call_for_key_pair; auto; [|now rewrite HkS].
    destruct n as [|n]; [lia|].
    rewrite (getitem_regular ext n T k v); auto.
    rewrite (getitem_regular ext n (tmap s T) k (tmap s v)); auto.
    + simpl. apply (Hch (k, v) Hin).
    + rewrite HiS, map_fst_map_snd. exact Hnd.
    + rewrite HiS. apply in_map_iff. exists (k, v). auto.
Qed.

(** An operation of numpy called on a Container Tree and its image under
    [s] is applied to every leaf and its image. *)
Lemma np_call_pair (n : nat) :
  forall x,
    value_ok x = true -> regular_keys x = true -> valid_leaves x = true ->
    S (height x) <= n ->
    np_call ext n f [x; tmap s x] kw = Ok (mapped_child h g x).
Proof.
  induction n as [|n IH]; intros x Hv Hr Hval Hn; [lia|].
  cbn [np_call]. fold (operands [x; tmap s x] kw).
  destruct x; try (simpl in Hv; discriminate Hv).
  - unfold operands. rewrite (scan_scalar_kwargs kw kw_scalar).
    simpl. apply f_arrays. exact Hval.
  - assert (HT : container_tree (Arraytainer x dt) = true)
      by (unfold container_tree; now rewrite Hv).
    pose proof (tmap_container_tree s _ HT) as HS.
    rewrite operands_pair; auto;
      [|unfold container_tree in HS; apply andb_true_iff in HS; tauto].
    unfold mapped_child.
    apply manage_pair_step; auto; [lia|].
    intros kv Hin.
    destruct (value_ok_children _ kv HT Hin) as [Hcv Hch].
    destruct (children_regular _ kv HT Hr Hin) as [_ Hcr].
    pose proof (children_valid _ kv HT Hval Hin) as Hcval.
    apply IH; auto. lia.
Qed.

End PairedOperations.

Lemma tmap_id (x : pyobj) :
  value_ok x = true -> tmap (fun a => a) x = clear_dtype x.
Proof.
  revert x. apply value_ok_ind.
  - reflexivity.
  - intros l dt _ IH. simpl. do 2 f_equal.
    apply map_ext_in. intros y Hy. rewrite Forall_forall in IH. now apply IH.
  - intros d dt _ _ IH. simpl. do 2 f_equal.
    apply map_ext_in. intros y Hy. f_equal.
    rewrite Forall_forall in IH. now apply IH.
Qed.

(** X18.  [from_array] on the shapes of a Container Tree [T] reads the
    elements of [T] off the front of the input and stops: the input may
    have any number of axes and any elements after those of [T], and the
    call still returns [T], without its [dtype] attributes; the [shape]
    of what it returns is the tree of shapes it was given. *)
Theorem X18_from_array_reads_a_prefix (ext : numpy_ext) (n : nat)
    (T : pyobj) (a : ndarray) (rest : list Z) :
  container_tree T = true ->
  valid_leaves T = true ->
  regular_keys T = true ->
  S (height T) <= n ->
  arr_data a = flat_data T ++ rest ->
  exists shapes R,
    shape ext n T = Ok shapes
    /\ from_array ext n (PArr a) shapes = Ok R
    /\ R = clear_dtype T
    /\ shape ext n R = Ok shapes.
Proof.
  intros HT Hval Hr Hn Ha.
  pose proof HT as HT'. unfold container_tree in HT'.
  apply andb_true_iff in HT'. destruct HT' as [Hat Hv].
  destruct (tmap_value_ok shape_array T Hv) as [Hv1 [Hh1 [Hr1 Ha1]]].
  exists (tmap shape_array T), (clear_dtype T).
  split; [now apply shape_ok|]. split; [|split; [reflexivity|]].
  - unfold from_array.
    assert (Hseq : is_sequence (tmap shape_array T) = false).
    { rewrite Hat in Ha1. destruct (tmap shape_array T); try discriminate.
      reflexivity. }
    rewrite Hseq. cbn [bind].
    destruct (sum_ok ext n (tmap shape_array T)) as [z Hz].
    + now apply tmap_container_tree.
    + congruence.
    + lia.
    + rewrite Hz. cbn [bind].
      set (vec := nd_ravel a).
      assert (Hd : arr_data vec = [] ++ flat_data T ++ rest) by exact Ha.
      pose proof (from_vector_ok n T vec HT Hval ltac:(lia) eq_refl [] rest Hd)
        as Hfv.
      change (Z.of_nat (length (@nil Z))) with 0%Z in Hfv.
      rewrite Hfv. cbn [bind fst].
      apply new_unpack; auto. lia.
  - rewrite <- (tmap_id T Hv).
    destruct (tmap_value_ok (fun a => a) T Hv) as [Hv2 [Hh2 _]].
    rewrite shape_ok.
    + now rewrite tmap_tmap.
    + now apply tmap_container_tree.
    + lia.
Qed.

Lemma X18_from_array_reads_a_prefix_witness :
  exists shapes R,
    shape numpy_fragment 8 nested_tree = Ok shapes
    /\ from_array numpy_fragment 8
         (PArr (mk_ndarray [2; 5] [1; 2; 3; 4; 5; 6; 7; 8; 9; 10]%Z)) shapes
       = Ok R
    /\ R = clear_dtype nested_tree
    /\ shape numpy_fragment 8 R = Ok shapes.
Proof.
  apply (X18_from_array_reads_a_prefix numpy_fragment 8 nested_tree
           (mk_ndarray [2; 5] [1; 2; 3; 4; 5; 6; 7; 8; 9; 10]%Z) [9; 10]%Z).
  - reflexivity.
  - reflexivity.
  - reflexivity.
  - simpl. lia.
  - reflexivity.
Defined.

Lemma reshape_to_own_shape (ext : numpy_ext) (a : ndarray) :
  valid_arrayb a = true ->
  np_reshape ext [PArr a; PArr (shape_array a)] order_C = Ok (PArr a).
Proof.
  intros Hv. unfold np_reshape, shape_array, shape_spec.
  cbn [bind].
  change (asarray ext (PArr a)) with a.
  pose proof (reshape_to_shape a Hv) as E.
  unfold nd_reshape in *. unfold nd_size in *. simpl arr_data in E.
  rewrite E. reflexivity.
Qed.

(** X22.  [reshape] of a Container Tree to its own [shape]: for a tree
    whose leaves hold as many elements as their shapes say and whose
    keys are ints or strings, [T.reshape(T.shape)] is [T] again, without
    its [dtype] attributes. *)
Theorem X22_reshape_to_own_shape (ext : numpy_ext) (n : nat) (T : pyobj) :
  container_tree T = true ->
  valid_leaves T = true ->
  regular_keys T = true ->
  S (height T) <= n ->
  exists shapes,
    shape ext n T = Ok shapes
    /\ reshape ext n T [shapes] = Ok (clear_dtype T).
Proof.
  intros HT Hval Hr Hn.
  pose proof HT as HT'. unfold container_tree in HT'.
  apply andb_true_iff in HT'. destruct HT' as [Ha Hv].
  destruct (tmap_value_ok shape_array T Hv) as [Hv1 [Hh1 [Hr1 Ha1]]].
  exists (tmap shape_array T). split; [now apply shape_ok|].
  rewrite Ha in Ha1.
  unfold reshape.
  assert (Hseq : is_sequence (tmap shape_array T) = false)
    by (destruct (tmap shape_array T); try discriminate; reflexivity).
  rewrite Hseq. cbn [tuple_items existsb]. rewrite Ha1, Ha. cbn [orb].
  unfold _concatenate_values_into_arraytainer. cbn [tuple_items].
  assert (Hld : (is_list (tmap shape_array T) || is_dict (tmap shape_array T))
                = false)
    by (destruct (tmap shape_array T); try discriminate; reflexivity).
  rewrite Hld, Ha1. cbn [negb bind].
  rewrite (np_call_pair ext (np_reshape ext) order_C shape_array
             (fun a => PArr a) (fun a => a)
             (reshape_to_own_shape ext)
             (fun a => conj eq_refl (conj eq_refl eq_refl))
             ltac:(repeat constructor) n T Hv Hr Hval Hn).
  destruct T; try discriminate. unfold mapped_child.
  now rewrite tmap_id.
Qed.

Lemma X22_reshape_to_own_shape_witness :
  exists shapes,
    shape numpy_fragment 8 nested_tree = Ok shapes
    /\ reshape numpy_fragment 8 nested_tree [shapes]
       = Ok (clear_dtype nested_tree).
Proof.
  apply (X22_reshape_to_own_shape numpy_fragment 8 nested_tree).
  - reflexivity.
  - reflexivity.
  - reflexivity.
  - simpl. lia.
Defined.

(** ** [tolist] and back *)

Lemma firstn_plus {A : Type} (a b : nat) (l : list A) :
  firstn (a + b) l = firstn a l ++ firstn b (skipn a l).
Proof.
  revert l. induction a as [|a IH]; intros l; simpl; auto.
  destruct l as [|x l]; simpl.
  - now rewrite firstn_nil.
  - now rewrite IH.
Qed.

Lemma skipn_plus {A : Type} (a b : nat) (l : list A) :
  skipn (a + b) l = skipn b (skipn a l).
Proof.
  revert l. induction a as [|a IH]; intros l; simpl; auto.
  destruct l as [|x l]; simpl; auto. now rewrite skipn_nil.
Qed.

Lemma concat_chunks (w : nat) (data : list Z) (d : nat) :
  forall s,
    concat (map (fun i => chunk w i data) (seq s d))
    = firstn (d * w) (skipn (s * w) data).
Proof.
  induction d as [|d IH]; intros s; simpl; auto.
  rewrite IH. unfold chunk. rewrite firstn_plus. f_equal.
  rewrite <- skipn_plus. f_equal. f_equal. lia.
Qed.

Lemma chunk_length (w i : nat) (data : list Z) :
  (S i) * w <= length data -> length (chunk w i data) = w.
Proof.
  intros H. unfold chunk. rewrite length_firstn, length_skipn. nia.
Qed.

Lemma shape_eqb_refl (s : list nat) : shape_eqb s s = true.
Proof. induction s; simpl; auto. now rewrite Nat.eqb_refl. Qed.

Lemma stack_rows (tl : list nat) (rows : list (list Z)) :
  (rows <> [] \/ tl = []) ->
  stack (map (fun r => Some (mk_ndarray tl r)) rows)
  = Some (mk_ndarray (length rows :: tl) (concat rows)).
Proof.
  intros H. destruct rows as [|r rows].
  - destruct H as [H| ->]; [congruence|]. reflexivity.
  - cbn [map stack].
    assert (E : forallb (fun o => match o with
                                  | Some a => shape_eqb (arr_shape a)
                                                (arr_shape (mk_ndarray tl r))
                                  | None => false
                                  end)
                  (Some (mk_ndarray tl r)
                     :: map (fun r => Some (mk_ndarray tl r)) rows) = true).
    { apply forallb_forall. intros o Ho.
      change (In o (map (fun r => Some (mk_ndarray tl r)) (r :: rows))) in Ho.
      apply in_map_iff in Ho. destruct Ho as [r' [<- _]].
      apply shape_eqb_refl. }
    rewrite E. f_equal. f_equal.
    + simpl. now rewrite length_map.
    + change (Some (mk_ndarray tl r)
                :: map (fun r => Some (mk_ndarray tl r)) rows)
        with (map (fun r => Some (mk_ndarray tl r)) (r :: rows)).
      rewrite map_map. simpl. f_equal. f_equal.
      clear. induction rows; simpl; congruence.
Qed.

Lemma nd_tolist_array (shape : list nat) :
  forall data,
    length data = prod_shape shape ->
    listable shape = true ->
    np_array_num (nd_tolist shape data) = Some (mk_ndarray shape data)
    /\ raw_ok (nd_tolist shape data) = true
    /\ has_tuple_key (nd_tolist shape data) = false.
Proof.
  induction shape as [|d tl IH]; intros data Hlen Hl.
  - simpl in *. destruct data as [|z [|? ?]]; try discriminate. auto.
  - simpl in Hl. apply andb_true_iff in Hl. destruct Hl as [Hd Hl].
    cbn [nd_tolist]. simpl prod_shape in Hlen.
    assert (Hrow : forall i, In i (seq 0 d) ->
              np_array_num (nd_tolist tl (chunk (prod_shape tl) i data))
              = Some (mk_ndarray tl (chunk (prod_shape tl) i data))
              /\ raw_ok (nd_tolist tl (chunk (prod_shape tl) i data)) = true
              /\ has_tuple_key (nd_tolist tl (chunk (prod_shape tl) i data))
                 = false).
    { intros i Hi. apply in_seq in Hi. apply IH; auto.
      apply chunk_length. nia. }
    split; [|split].
    + cbn [np_array_num]. rewrite map_map.
      rewrite (map_ext_in _ (fun i => Some (mk_ndarray tl
                                              (chunk (prod_shape tl) i data))))
        by (intros i Hi; apply Hrow; auto).
      rewrite <- (map_map (fun i => chunk (prod_shape tl) i data)
                    (fun r => Some (mk_ndarray tl r))).
      rewrite stack_rows.
      * rewrite length_map, length_seq, concat_chunks. simpl skipn.
        rewrite <- Hlen, firstn_all. reflexivity.
      * destruct tl as [|d' tl']; [now right|]. left.
        apply Nat.ltb_lt in Hd. destruct d; [lia|]. discriminate.
    + simpl. apply forallb_forall. intros y Hy.
      apply in_map_iff in Hy. destruct Hy as [i [<- Hi]]. now apply Hrow.
    + simpl. destruct (existsb _ _) eqn:E; auto.
      apply existsb_exists in E. destruct E as [y [Hy Hk]].
      apply in_map_iff in Hy. destruct Hy as [i [<- Hi]].
      destruct (Hrow i Hi) as [_ [_ Hf]]. congruence.
Qed.

Lemma listed_as_items (T : pyobj) :
  container_tree T = true ->
  listed T
  = as_contents_of T (map (fun kv => (fst kv, listed (snd kv))) (items T)).
Proof.
  unfold container_tree. rewrite andb_true_iff. intros [Ha Hv].
  destruct T; try discriminate. destruct T; try discriminate.
  - unfold as_contents_of, items. simpl. f_equal.
    rewrite map_map. simpl.
    rewrite <- (map_map snd listed).
    rewrite map_snd_combine; auto. now rewrite range_keys_length.
  - reflexivity.
Qed.

Lemma tolist_ok (n : nat) :
  forall T,
    container_tree T = true -> height T <= n -> tolist n T = Ok (listed T).
Proof.
  induction n as [|n IH]; intros T HT Hn.
  { pose proof (height_pos T). lia. }
  destruct (container_tree_keys T HT) as [Hki Hko].
  cbn [tolist].
  rewrite (mapM_ok_map _ (fun kv => (fst kv, listed (snd kv)))).
  - cbn [bind]. rewrite dict_of_items_NoDup
      by (rewrite map_fst_map_snd, Hki; now apply dict_keys_distinct).
    now rewrite <- listed_as_items.
  - apply Forall_forall. intros [k v] Hin.
    destruct (value_ok_children T (k, v) HT Hin) as [Hv Hh].
    simpl in Hv, Hh |- *.
    destruct v; try discriminate Hv.
    + reflexivity.
    + rewrite IH; [reflexivity | | lia].
      unfold container_tree. now rewrite Hv.
Qed.

Lemma built_listed (ext : numpy_ext) (x : pyobj) :
  value_ok x = true -> listable_leaves x = true ->
  built ext None true (listed x) = clear_dtype x
  /\ raw_ok (listed x) = true
  /\ has_tuple_key (listed x) = false.
Proof.
  revert x.
  apply (value_ok_ind
           (fun x => listable_leaves x = true ->
                     built ext None true (listed x) = clear_dtype x
                     /\ raw_ok (listed x) = true
                     /\ has_tuple_key (listed x) = false)).
  - (* leaf *)
    intros [shape data] Hl. simpl in Hl.
    apply andb_true_iff in Hl. destruct Hl as [Hv Hl].
    unfold valid_arrayb in Hv. simpl in Hv. apply Nat.eqb_eq in Hv.
    destruct (nd_tolist_array shape data Hv Hl) as [H1 [H2 H3]].
    destruct shape as [|d tl].
    + simpl. simpl in H1. unfold create_array. simpl.
      injection H1 as H1. unfold nd_scalar. rewrite H1. auto.
    + cbn [listed nd_ndim arr_shape arr_data length Nat.ltb Nat.leb].
      cbn [nd_tolist tuple_items] in *.
      cbn [built]. unfold create_array. cbn [np_array_num] in *.
      rewrite H1. simpl in H2. simpl. rewrite H2. auto.
  - (* list *)
    intros l dt Hok IH Hl. simpl in Hl. rewrite Forall_forall in IH.
    rewrite forallb_forall in Hl.
    cbn [listed built clear_dtype raw_ok has_tuple_key].
    split; [|split].
    + do 2 f_equal. rewrite map_map. apply map_ext_in.
      intros y Hy. apply IH; auto.
    + apply forallb_forall. intros y Hy.
      apply in_map_iff in Hy. destruct Hy as [z [<- Hz]]. apply IH; auto.
    + destruct (existsb _ _) eqn:E; auto.
      apply existsb_exists in E. destruct E as [y [Hy Hk]].
      apply in_map_iff in Hy. destruct Hy as [z [<- Hz]].
      destruct (IH z Hz (Hl z Hz)) as [_ [_ Hf]]. congruence.
  - (* dict *)
    intros d dt Hk Hok IH Hl. simpl in Hl. rewrite Forall_forall in IH.
    rewrite forallb_forall in Hl.
    cbn [listed built clear_dtype raw_ok has_tuple_key].
    split; [|split].
    + do 2 f_equal. rewrite map_map. apply map_ext_in.
      intros y Hy. simpl. f_equal. apply IH; auto.
    + rewrite map_fst_map_snd. unfold dict_keys_ok in Hk.
      apply andb_true_iff in Hk. destruct Hk as [Hk _]. rewrite Hk. simpl.
      apply forallb_forall. intros y Hy.
      apply in_map_iff in Hy. destruct Hy as [z [<- Hz]]. simpl.
      apply IH; auto.
    + destruct (existsb _ _) eqn:E; auto.
      apply existsb_exists in E. destruct E as [y [Hy Hkt]].
      apply in_map_iff in Hy. destruct Hy as [z [<- Hz]]. simpl in Hkt.
      destruct (IH z Hz (Hl z Hz)) as [_ [_ Hf]]. rewrite Hf in Hkt.
      rewrite orb_false_r in Hkt.
      unfold dict_keys_ok in Hk. apply andb_true_iff in Hk.
      destruct Hk as [_ Hk]. apply negb_true_iff in Hk.
      assert (existsb is_tuple_key (map fst d) = true); [|congruence].
      apply existsb_exists. exists (fst z). split; auto. now apply in_map.
Qed.

(** X23.  [tolist], and back through the constructor: for a Container
    Tree whose leaves hold as many elements as their shapes say, with no
    axis of length zero before the last, [tolist] returns the nested
    lists and dicts of the tree with every array as the tuple of its
    rows (a scalar for an array without axes), and the constructor
    applied to that gives the tree back, without its [dtype]
    attributes. *)
Theorem X23_tolist_roundtrip (ext : numpy_ext) (n m : nat) (T : pyobj) :
  container_tree T = true ->
  listable_leaves T = true ->
  height T <= n ->
  S (height (listed T)) <= m ->
  exists L,
    tolist n T = Ok L
    /\ L = listed T
    /\ new ext m L = Ok (clear_dtype T).
Proof.
  intros HT Hl Hn Hm. exists (listed T).
  split; [now apply tolist_ok|]. split; [reflexivity|].
  pose proof HT as HT'. unfold container_tree in HT'.
  apply andb_true_iff in HT'. destruct HT' as [Ha Hv].
  destruct (built_listed ext T Hv Hl) as [Hb [Hr Ht]].
  unfold new. rewrite init_builds; auto; [now rewrite Hb|].
  destruct T; try discriminate. destruct T; try discriminate; reflexivity.
Qed.

Lemma X23_tolist_roundtrip_witness :
  exists L,
    tolist 7 nested_tree = Ok L
    /\ L = listed nested_tree
    /\ new numpy_fragment 5 L = Ok (clear_dtype nested_tree).
Proof.
  apply (X23_tolist_roundtrip numpy_fragment 7 5 nested_tree).
  - reflexivity.
  - reflexivity.
  - simpl. lia.
  - simpl. lia.
Defined.

(** ** Assignment through a parallel index *)

Lemma dict_get_set_defined {V : Type} (d : list (key * V)) (k k' : key)
    (v : V) :
  dict_get d k <> None ->
  (dict_get (dict_set d k v) k' = None <-> dict_get d k' = None).
Proof.
  intros Hk. destruct (key_eqb k' k) eqn:E.
  - apply key_eqb_eq in E. subst k'. rewrite dict_get_set_same.
    split; [discriminate | intros H; contradiction].
  - apply key_eqb_neq in E. now rewrite dict_get_set_other.
Qed.

(** Storing under a key at which the contents hold an entry changes
    neither the keys nor the keys at which a lookup succeeds. *)
Lemma store_keeps_entries (self : pyobj) (k : key) (v : pyobj)
    (r : result unit) (s' : pyobj) :
  is_ok (contents_get (contents self) k) = true ->
  store self k v = (r, s') ->
  keys s' = keys self
  /\ forall k', is_ok (contents_get (contents s') k')
                = is_ok (contents_get (contents self) k').
Proof.
  intros Hk. unfold store.
  destruct (contents_set (contents self) k v) as [c|e] eqn:E;
    [|intros [= _ <-]; auto].
  intros [= _ <-]. unfold keys. simpl contents.
  unfold contents_set in E. unfold contents_get in *.
  destruct (contents self); try discriminate.
  - destruct k; try discriminate.
    destruct (norm_index (length l) z) as [i|] eqn:Hi; try discriminate.
    injection E as <-. simpl. rewrite list_set_length. split; auto.
    intros [z'| | |]; auto.
    destruct (norm_index (length l) z') as [j|] eqn:Hj; auto.
    pose proof (norm_index_lt _ _ _ Hj) as Hlt.
    destruct (nth_error l j) eqn:E1;
      [|apply nth_error_None in E1; lia].
    destruct (nth_error (list_set l i v) j) eqn:E2; auto.
    apply nth_error_None in E2. rewrite list_set_length in E2. lia.
  - injection E as <-. simpl.
    assert (Hd : dict_get d k <> None)
      by (destruct (dict_get d k); [discriminate | discriminate Hk]).
    split.
    + rewrite dict_set_keys.
      assert (key_in k (map fst d) = true) as ->; auto.
      apply key_in_In. destruct (dict_get d k) eqn:Eg; [|congruence].
      clear - Eg. induction d as [|[k0 v0] d IH]; simpl in *; [discriminate|].
      destruct (key_eqb k k0) eqn:E.
      * left. apply key_eqb_eq in E. auto.
      * right. auto.
    + intros k'. pose proof (dict_get_set_defined d k k' v Hd) as H.
      destruct (dict_get (dict_set d k v) k'), (dict_get d k'); auto;
        destruct H as [H1 H2];
        [specialize (H2 eq_refl) | specialize (H1 eq_refl)]; discriminate.
Qed.

Section ParallelAssignment.

Variable ext : numpy_ext.

Lemma set_array_values_keeps_entries (self : pyobj) (k : key)
    (mask v : pyobj) (r : result unit) (s' : pyobj) :
  _set_array_values ext self k mask v = (r, s') ->
  keys s' = keys self
  /\ forall k', is_ok (contents_get (contents s') k')
                = is_ok (contents_get (contents self) k').
Proof.
  unfold _set_array_values.
  destruct (contents_get (contents self) k) as [c|e] eqn:Eg;
    [|intros [= _ <-]; auto].
  destruct c; try (intros [= _ <-]; auto).
  destruct (setitem_array ext a mask v); [|intros [= _ <-]; auto].
  apply store_keeps_entries. now rewrite Eg.
Qed.

Lemma set_child_mask_keeps_entries
    (setitem : pyobj -> pyobj -> pyobj -> outcome)
    (self : pyobj) (k : key) (child mask v : pyobj)
    (r : result unit) (s' : pyobj) :
  is_ok (contents_get (contents self) k) = true ->
  set_child_mask setitem self k child mask v = (r, s') ->
  keys s' = keys self
  /\ forall k', is_ok (contents_get (contents s') k')
                = is_ok (contents_get (contents self) k').
Proof.
  intros Hk. unfold set_child_mask.
  destruct (setitem child mask v) as [r0 child'].
  destruct (store self k child') as [[[]|e] s''] eqn:E;
    intros [= _ <-]; apply (store_keeps_entries self k child' _ _ Hk E).
Qed.

End ParallelAssignment.

(** X24.  Assignment [T[I] = value] through an arraytainer [I] one of
    whose keys has no entry in the contents of [T] does not return
    normally, and leaves the keys of [T] as they were; when that key is
    the first key of [I], the error is the one the contents raise for
    it, the [KeyError] of the dict or the [IndexError] of the list, and
    [T] is unchanged. *)
Theorem X24_parallel_assignment_missing_key (ext : numpy_ext) (n : nat)
    (T I value V mask : pyobj) (k : key) (e0 : exn) :
  is_arraytainer I = true ->
  _convert_to_array_or_arraytainer ext n T value = Ok V ->
  In (k, mask) (items I) ->
  contents_get (contents T) k = Error e0 ->
  (exists e T',
      __setitem__ ext (S n) T I value = (Error e, T') /\ keys T' = keys T)
  /\ (hd_error (items I) = Some (k, mask) ->
      __setitem__ ext (S n) T I value = (Error e0, T)).
Proof.
  intros HI Hc Hin Hk.
  assert (Hs : (is_array I || is_slice I) = false)
    by (destruct I; try discriminate; reflexivity).
  cbn [__setitem__]. rewrite Hc, Hs, HI. unfold _set_with_arraytainer.
  split.
  - destruct (for_each_raises
                (fun self kv =>
                   match contents_get (contents self) (fst kv) with
                   | Error e => (Error e, self)
                   | Ok self_val =>
                       if is_arraytainer self_val && is_arraytainer V then
                         match contents_get (contents V) (fst kv) with
                         | Ok v => set_child_mask (__setitem__ ext n) self
                                     (fst kv) self_val (snd kv) v
                         | Error e => (Error e, self)
                         end
                       else if is_arraytainer self_val && is_array V then
                         set_child_mask (__setitem__ ext n) self (fst kv)
                           self_val (snd kv) V
                       else if is_array self_val && is_array V then
                         _set_array_values ext self (fst kv) (snd kv) V
                       else if is_array self_val && is_arraytainer V then
                         if negb (key_in (fst kv) (keys V)) then
                           (Error (KeyError msg_set_keys), self)
                         else
                           match __getitem__ ext n V (of_key (fst kv)) with
                           | Error e => (Error e, self)
                           | Ok v =>
                               if negb (is_array v) then
                                 (Error (KeyError msg_set_keys), self)
                               else _set_array_values ext self (fst kv)
                                      (snd kv) v
                           end
                       else (Ok tt, self)
                   end)
                (fun s => keys s = keys T
                          /\ forall k', is_ok (contents_get (contents s) k')
                                        = is_ok (contents_get (contents T) k'))
                (k, mask)) with (l := items I) (s := T)
      as [e [T' [E [Hkeys _]]]]; auto.
    + intros s [k1 m1] r s' [Hs1 Hs2] E. cbn [fst snd] in E.
      assert (Hgoal : keys s' = keys s
                      /\ forall k', is_ok (contents_get (contents s') k')
                                    = is_ok (contents_get (contents s) k')).
      { destruct (contents_get (contents s) k1) as [sv|e] eqn:Eg;
          [|injection E as _ <-; auto].
        assert (Hok : is_ok (contents_get (contents s) k1) = true)
          by now rewrite Eg.
        destruct (is_arraytainer sv && is_arraytainer V).
        { destruct (contents_get (contents V) k1);
            [|injection E as _ <-; auto].
          eapply set_child_mask_keeps_entries; eauto. }
        destruct (is_arraytainer sv && is_array V);
          [eapply set_child_mask_keeps_entries; eauto|].
        destruct (is_array sv && is_array V);
          [eapply set_array_values_keeps_entries; eauto|].
        destruct (is_array sv && is_arraytainer V);
          [|injection E as _ <-; auto].
        destruct (negb (key_in k1 (keys V))); [injection E as _ <-; auto|].
        destruct (__getitem__ ext n V (of_key k1)) as [v|];
          [|injection E as _ <-; auto].
        destruct (negb (is_array v)); [injection E as _ <-; auto|].
        eapply set_array_values_keeps_entries; eauto. }
      destruct Hgoal as [G1 G2]. split; [congruence|].
      intros k'. now rewrite G2.
    + intros s [_ Hs2]. cbn [fst].
      specialize (Hs2 k). rewrite Hk in Hs2. simpl in Hs2.
      destruct (contents_get (contents s) k) as [|e]; [discriminate|]. eauto.
    + eauto.
  - intros Hhd. destruct (items I) as [|kv its]; [discriminate|].
    injection Hhd as ->. simpl. now rewrite Hk.
Qed.

Lemma X24_parallel_assignment_missing_key_witness :
  (exists e T',
      __setitem__ numpy_fragment 1 tree_ab
        (Arraytainer (PDict [(KStr "z", PInt 0)]) None) (PInt 7)
      = (Error e, T')
      /\ keys T' = keys tree_ab)
  /\ __setitem__ numpy_fragment 1 tree_ab
       (Arraytainer (PDict [(KStr "z", PInt 0)]) None) (PInt 7)
     = (Error (KeyError "key not in dict"), tree_ab).
Proof.
  destruct (X24_parallel_assignment_missing_key numpy_fragment 0 tree_ab
              (Arraytainer (PDict [(KStr "z", PInt 0)]) None) (PInt 7)
              (arr [] [7]%Z) (PInt 0) (KStr "z") (KeyError "key not in dict"))
    as [H1 H2].
  - reflexivity.
  - reflexivity.
  - left. reflexivity.
  - reflexivity.
  - split; [exact H1 | exact (H2 eq_refl)].
Defined.

(** ** The constructor from a flat array that is too short *)

Lemma slice_indices_clamped (a len : nat) (b : Z) :
  a <= len -> (Z.of_nat len <= b)%Z ->
  slice_indices (Some (Z.of_nat a)) (Some b) None len = Ok (seq a (len - a)).
Proof.
  intros Ha Hb. unfold slice_indices, slice_bound. simpl.
  destruct (Z.ltb_spec (Z.of_nat a) 0); [lia|].
  destruct (Z.ltb_spec b 0); [lia|].
  rewrite Z.min_l by lia. rewrite Z.min_r by lia.
  replace (Z.of_nat len - Z.of_nat a + 1 - 1)%Z
    with (Z.of_nat (len - a)) by lia.
  rewrite Z.div_1_r, Z.max_r by lia. rewrite Nat2Z.id.
  f_equal. pose proof (map_add_seq a (len - a) 0) as E.
  rewrite Nat.add_0_r in E. rewrite <- E.
  apply map_ext. intros i. lia.
Qed.

(** The slice [vector[idx : idx + m]] of a one-dimensional array that
    ends before [idx + m]: what is left of the array from [idx]. *)
Lemma nd_index_slice_clamped (pre rest : list Z) (m : nat) :
  length rest <= m ->
  nd_index [BSlice (Some (Z.of_nat (length pre)))
              (Some (Z.of_nat (length pre) + Z.of_nat m)%Z) None]
    [length (pre ++ rest)] (pre ++ rest)
  = Ok (mk_ndarray [length rest] rest).
Proof.
  intros Hm. cbn [nd_index]. rewrite slice_indices_clamped
    by (rewrite ?length_app; lia).
  cbn [bind prod_shape fold_right repeat].
  rewrite (mapM_ok_map _ (fun j => mk_ndarray [] (chunk 1 j (pre ++ rest))))
    by (apply Forall_forall; reflexivity).
  cbn [bind arr_shape]. rewrite length_seq, map_map. cbn [arr_data].
  rewrite length_app.
  replace (length pre + length rest - length pre) with (length rest) by lia.
  pose proof (slice_rows rest pre []) as E. rewrite app_nil_r in E.
  now rewrite E.
Qed.

Lemma reshape_short (a : ndarray) (rest : list Z) :
  valid_arrayb a = true ->
  length rest < length (arr_data a) ->
  nd_reshape (mk_ndarray [length rest] rest) (map Z.of_nat (arr_shape a))
  = Error (ValueError "cannot reshape array into shape").
Proof.
  unfold valid_arrayb. intros H Hlt. apply Nat.eqb_eq in H.
  unfold nd_reshape. rewrite no_negative_dims, to_nat_of_nat_list.
  unfold nd_size. cbn [arr_data]. rewrite <- H.
  destruct (Nat.eqb_spec (length (arr_data a)) (length rest)); [lia|].
  reflexivity.
Qed.

(** A turn of the loop of [_from_vector] on a value whose elements lie
    within the array. *)
Lemma turn_rebuilds (rec : pyobj -> Z -> result (pyobj * Z)) (vec : ndarray) :
  arr_shape vec = [length (arr_data vec)] ->
  forall acc k v pre post,
    value_ok v = true ->
    valid_leaves v = true ->
    (is_arraytainer v = true -> rebuilds rec vec v) ->
    arr_data vec = pre ++ flat_data v ++ post ->
    exists st,
      _from_vector_turn rec vec (acc, Z.of_nat (length pre))
        (k, tmap shape_array v)
      = Ok (st, Z.of_nat (length (pre ++ flat_data v))).
Proof.
  intros Hshape acc k v pre post Hv Hval Hrec Hd.
  destruct v; try (simpl in Hv; discriminate Hv).
  - simpl in Hval. pose proof Hval as Hlen. unfold valid_arrayb in Hlen.
    apply Nat.eqb_eq in Hlen.
    rewrite (flat_data_leaf a) in *.
    unfold _from_vector_turn. cbn [fst snd tmap].
    rewrite nd_prod_shape_array, <- Hlen, Hshape, Hd.
    rewrite nd_index_slice. cbn [bind].
    change (shape_spec (PArr (shape_array a)))
      with (@Ok (list Z) (map Z.of_nat (arr_shape a))).
    cbn [bind]. rewrite reshape_to_shape by auto. cbn [bind].
    rewrite <- Nat2Z.inj_add, <- length_app. eauto.
  - specialize (Hrec eq_refl).
    assert (Ht : exists c', tmap shape_array (Arraytainer v dt)
                            = Arraytainer c' None).
    { destruct v; simpl in Hv; try discriminate Hv; simpl; eauto. }
    destruct Ht as [c' Ht].
    unfold _from_vector_turn. cbn [fst snd]. rewrite Ht, <- Ht.
    rewrite (Hrec pre _ Hd). cbn [bind fst snd].
    rewrite <- length_app. eauto.
Qed.

Lemma short_loop (rec : pyobj -> Z -> result (pyobj * Z)) (vec : ndarray) :
  arr_shape vec = [length (arr_data vec)] ->
  forall its acc pre rest missing,
    Forall (fun kv =>
              value_ok (snd kv) = true
              /\ valid_leaves (snd kv) = true
              /\ (is_arraytainer (snd kv) = true ->
                  rebuilds rec vec (snd kv)
                  /\ forall pre rest missing,
                      arr_data vec = pre ++ rest ->
                      flat_data (snd kv) = rest ++ missing ->
                      missing <> [] ->
                      rec (tmap shape_array (snd kv)) (Z.of_nat (length pre))
                      = Error (ValueError "cannot reshape array into shape")))
      its ->
    arr_data vec = pre ++ rest ->
    concat (map (fun kv => flat_data (snd kv)) its) = rest ++ missing ->
    missing <> [] ->
    foldM (_from_vector_turn rec vec)
      (map (fun kv => (fst kv, tmap shape_array (snd kv))) its)
      (acc, Z.of_nat (length pre))
    = Error (ValueError "cannot reshape array into shape").
Proof.
  intros Hshape.
  induction its as [|[k v] its IH];
    intros acc pre rest missing Hall Hdata Hflat Hmiss.
  - simpl in Hflat. destruct rest; [|discriminate]. simpl in Hflat.
    congruence.
  - inversion Hall as [|? ? [Hv [Hval Hrec]] Hall']; subst.
    cbn [fst snd] in Hv, Hval, Hrec.
    cbn [map concat snd] in Hflat.
    cbn [map foldM fst snd].
    apply app_eq_app in Hflat. destruct Hflat as [m [[Hf Hm]|[Hr Hc]]].
    + (* the elements of [v] end at or after the end of the array *)
      destruct m as [|z m].
      * (* they end with the array: [v] is rebuilt, the next one fails *)
        rewrite app_nil_r in Hf. simpl in Hm. subst missing.
        assert (Hd : arr_data vec = pre ++ flat_data v ++ [])
          by (rewrite app_nil_r; congruence).
        destruct (turn_rebuilds rec vec Hshape acc k v pre [] Hv Hval
                    (fun Ha => proj1 (Hrec Ha)) Hd) as [st ->].
        cbn [bind].
        apply (IH st (pre ++ flat_data v) []
                 (concat (map (fun kv => flat_data (snd kv)) its))); auto.
        rewrite Hd. now rewrite app_assoc.
      * (* they end after the array: the turn of [v] fails *)
        assert (Hne : z :: m <> []) by discriminate.
        destruct v; try (simpl in Hv; discriminate Hv).
        -- simpl in Hval. pose proof Hval as Hlen. unfold valid_arrayb in Hlen.
           apply Nat.eqb_eq in Hlen.
           rewrite (flat_data_leaf a) in Hf.
           unfold _from_vector_turn. cbn [fst snd tmap].
           rewrite nd_prod_shape_array, <- Hlen, Hshape, Hdata.
           rewrite nd_index_slice_clamped
             by (rewrite Hf, length_app; lia).
           cbn [bind].
           change (shape_spec (PArr (shape_array a)))
             with (@Ok (list Z) (map Z.of_nat (arr_shape a))).
           cbn [bind]. rewrite reshape_short; auto.
           rewrite Hf, length_app. simpl. lia.
        -- destruct (Hrec eq_refl) as [_ Hshort].
           assert (Ht : exists c', tmap shape_array (Arraytainer v dt)
                                   = Arraytainer c' None).
           { destruct v; simpl in Hv; try discriminate Hv; simpl; eauto. }
           destruct Ht as [c' Ht].
           unfold _from_vector_turn. cbn [fst snd]. rewrite Ht, <- Ht.
           now rewrite (Hshort pre rest (z :: m) Hdata Hf Hne).
    + (* the elements of [v] end before the end of the array *)
      subst rest.
      assert (Hd : arr_data vec = pre ++ flat_data v ++ m)
        by (rewrite Hdata; reflexivity).
      destruct (turn_rebuilds rec vec Hshape acc k v pre m Hv Hval
                  (fun Ha => proj1 (Hrec Ha)) Hd) as [st ->].
      cbn [bind].
      apply (IH st (pre ++ flat_data v) m missing); auto.
      rewrite Hdata. now rewrite app_assoc.
Qed.

Lemma from_vector_short (n : nat) :
  forall T vec,
    container_tree T = true -> valid_leaves T = true -> height T <= n ->
    arr_shape vec = [length (arr_data vec)] ->
    forall pre rest missing,
      arr_data vec = pre ++ rest ->
      flat_data T = rest ++ missing ->
      missing <> [] ->
      _from_vector n vec (tmap shape_array T) (Z.of_nat (length pre))
      = Error (ValueError "cannot reshape array into shape").
Proof.
  induction n as [|n IH]; intros T vec HT Hval Hn Hshape.
  - pose proof (height_pos T). lia.
  - intros pre rest missing Hdata Hflat Hmiss.
    destruct (items_tmap shape_array T HT) as [Hit Hdl].
    rewrite (flat_data_items T HT) in Hflat.
    cbn [_from_vector]. rewrite Hit.
    rewrite (short_loop _ vec Hshape (items T) [] pre rest missing); auto.
    apply Forall_forall. intros kv Hkv.
    destruct (value_ok_children T kv HT Hkv) as [Hv Hh].
    pose proof (children_valid T kv HT Hval Hkv) as Hcv.
    split; [exact Hv|]. split; [exact Hcv|].
    intros Ha.
    assert (HTc : container_tree (snd kv) = true)
      by (unfold container_tree; now rewrite Ha, Hv).
    split.
    + apply from_vector_ok; auto. lia.
    + apply IH; auto. lia.
Qed.

(** X25.  [from_array] on the shapes of a Container Tree [T] with an
    input that holds the elements of [T] up to some point short of the
    last: the call raises, during the unpacking, the [ValueError] of the
    reshape of the first leaf that is left incomplete. *)
Theorem X25_from_array_too_short (ext : numpy_ext) (n : nat) (T : pyobj)
    (a : ndarray) (missing : list Z) :
  container_tree T = true ->
  valid_leaves T = true ->
  regular_keys T = true ->
  S (height T) <= n ->
  flat_data T = arr_data a ++ missing ->
  missing <> [] ->
  exists shapes,
    shape ext n T = Ok shapes
    /\ from_array ext n (PArr a) shapes
       = Error (ValueError "cannot reshape array into shape").
Proof.
  intros HT Hval Hr Hn Hflat Hmiss.
  pose proof HT as HT'. unfold container_tree in HT'.
  apply andb_true_iff in HT'. destruct HT' as [Hat Hv].
  destruct (tmap_value_ok shape_array T Hv) as [Hv1 [Hh1 [Hr1 Ha1]]].
  exists (tmap shape_array T). split; [now apply shape_ok|].
  unfold from_array.
  assert (Hseq : is_sequence (tmap shape_array T) = false).
  { rewrite Hat in Ha1. destruct (tmap shape_array T); try discriminate.
    reflexivity. }
  rewrite Hseq. cbn [bind].
  destruct (sum_ok ext n (tmap shape_array T)) as [z Hz].
  - now apply tmap_container_tree.
  - congruence.
  - lia.
  - rewrite Hz. cbn [bind].
    set (vec := nd_ravel a).
    pose proof (from_vector_short n T vec HT Hval ltac:(lia) eq_refl
                  [] (arr_data a) missing eq_refl Hflat Hmiss) as Hfv.
    change (Z.of_nat (length (@nil Z))) with 0%Z in Hfv.
    now rewrite Hfv.
Qed.

Lemma X25_from_array_too_short_witness :
  exists shapes,
    shape numpy_fragment 8 nested_tree = Ok shapes
    /\ from_array numpy_fragment 8
         (PArr (mk_ndarray [6] [1; 2; 3; 4; 5; 6]%Z)) shapes
       = Error (ValueError "cannot reshape array into shape").
Proof.
  apply (X25_from_array_too_short numpy_fragment 8 nested_tree
           (mk_ndarray [6] [1; 2; 3; 4; 5; 6]%Z) [7; 8]%Z).
  - reflexivity.
  - reflexivity.
  - reflexivity.
  - simpl. lia.
  - reflexivity.
  - discriminate.
Defined.

(** ** Operations with further positional arguments *)

Lemma children_all_leaves (p : ndarray -> bool) (T : pyobj)
    (kv : key * pyobj) :
  container_tree T = true -> all_leaves p T = true -> In kv (items T) ->
  all_leaves p (snd kv) = true.
Proof.
  unfold container_tree. rewrite andb_true_iff. intros [Ha Hok] Hp Hin.
  destruct T; try discriminate. destruct T; simpl in Hok; try discriminate;
    unfold items in Hin; simpl in Hin, Hp.
  - destruct kv as [k v]. apply in_combine_r in Hin.
    rewrite forallb_forall in Hp. now apply Hp.
  - rewrite forallb_forall in Hp. now apply Hp.
Qed.

Section MappedWithArguments.

Variable ext : numpy_ext.
Variable f : callable.
Variable kw : list (key * pyobj).
Variable c : list pyobj.
Variable p : ndarray -> bool.
Variable h : ndarray -> pyobj.
Variable g : ndarray -> ndarray.

(** The further arguments [c] hold no arraytainer and are passed on to
    the call for a key as they are. *)
Hypothesis c_scan : _list_arraytainers_in_args (PTuple c) = [].
Hypothesis c_prepared :
  forall getitem k, _prepare_func_args getitem (PTuple c) k = Ok (PTuple c).
Hypothesis f_array : forall a, p a = true -> f (PArr a :: c) kw = Ok (h a).
Hypothesis h_plain :
  forall a, plain_result (h a) = true /\ height (h a) = 1
            /\ as_leaf ext (h a) = PArr (g a).
Hypothesis kw_scalar : Forall (fun kv => scalar_arg (snd kv) = true) kw.

Lemma operands_with_args (cs : list pyobj) (x : pyobj) :
  _list_arraytainers_in_args (PTuple cs) = [] ->
  is_arraytainer x = true ->
  operands (x :: cs) kw = [x].
Proof.
  intros Hcs Hx. unfold operands. rewrite (scan_scalar_kwargs kw kw_scalar).
  simpl in *. rewrite Hx, Hcs. reflexivity.
Qed.

Lemma prepare_with_args (getitem : pyobj -> pyobj -> result pyobj)
    (cs : list pyobj) (x v : pyobj) (k : key) :
  _prepare_func_args getitem (PTuple cs) k = Ok (PTuple c) ->
  is_arraytainer x = true -> key_in k (keys x) = true ->
  getitem x (of_key k) = Ok v ->
  _prepare_func_args getitem (PTuple (x :: cs)) k = Ok (PTuple (v :: c)).
Proof.
  intros Hcs Hx Hk Hv. simpl in *. rewrite Hx, Hk, Hv. simpl.
  destruct (mapM _ cs) as [l|]; simpl in *; [|discriminate].
  injection Hcs as <-. reflexivity.
Qed.

Lemma mapped_args_facts (v : pyobj) :
  value_ok v = true ->
  plain_result (mapped_child h g v) = true
  /\ height (mapped_child h g v) <= height v
  /\ as_leaf ext (mapped_child h g v) = tmap g v.
Proof.
  intros Hv. destruct v; simpl in Hv; try discriminate.
  - simpl. destruct (h_plain a) as [H1 [H2 H3]]. rewrite H2. auto.
  - destruct (tmap_value_ok g (Arraytainer v dt) Hv) as [H1 [H2 [_ H4]]].
    unfold mapped_child. split; [|split].
    + apply value_ok_plain. exact H1.
    + rewrite H2. auto.
    + apply as_leaf_value. exact H1.
Qed.

(** One level of the dispatch: the call is made with the arguments [cs],
    and the calls for the keys with [c]. *)
Lemma manage_args_step (n : nat) (cs : list pyobj) (T : pyobj) :
  container_tree T = true ->
  regular_keys T = true ->
  height T <= n ->
  _list_arraytainers_in_args (PTuple cs) = [] ->
  (forall getitem k,
      _prepare_func_args getitem (PTuple cs) k = Ok (PTuple c)) ->
  (forall kv, In kv (items T) ->
              np_call ext n f (snd kv :: c) kw
              = Ok (mapped_child h g (snd kv))) ->
  _manage_func_call ext n (np_call ext n f) (T :: cs) kw = Ok (tmap g T).
Proof.
  intros HT Hr Hn Hscan Hprep Hch.
  assert (Ha : is_arraytainer T = true)
    by (unfold container_tree in HT; apply andb_true_iff in HT; tauto).
  destruct (container_tree_keys T HT) as [Hki Hko].
  assert (Hnd : NoDup (map fst (items T)))
    by (rewrite Hki; now apply dict_keys_distinct).
  assert (Hops : operands (T :: cs) kw = [T])
    by (now apply operands_with_args).
  pose (res := fun k => match contents_get (contents T) k with
                        | Ok v => mapped_child h g v
                        | Error _ => PNone
                        end).
  assert (Hres : forall kv, In kv (items T) ->
                            res (fst kv) = mapped_child h g (snd kv)).
  { intros [k v] Hin. unfold res. simpl.
    rewrite (contents_get_items T k v); auto. }
  rewrite (manage_func_call_ok ext n _ (T :: cs) kw T (keys T) res); auto.
  - rewrite (tmap_tree g T HT). do 3 f_equal.
    unfold written_over. apply map_ext_in. intros kv Hin.
    assert (key_in (fst kv) (keys T) = true) as ->.
    { apply key_in_In. rewrite <- Hki. now apply in_map. }
    rewrite (Hres kv Hin).
    destruct (value_ok_children T kv HT Hin) as [Hv _].
    destruct (mapped_args_facts (snd kv) Hv) as [_ [_ ->]]. reflexivity.
  - now rewrite Hops.
  - rewrite Hops. repeat constructor.
  - rewrite Hops. repeat constructor. apply keys_subset_refl.
  - rewrite Hops. simpl. now rewrite filter_all.
  - apply Forall_forall. intros k Hk. split; auto.
    pose proof Hk as Hk'. rewrite <- Hki in Hk'. apply in_map_iff in Hk'.
    destruct Hk' as [[k' v] [E Hin]]. simpl in E. subst k'.
    destruct (value_ok_children T (k, v) HT Hin) as [Hv Hh].
    destruct (children_regular T (k, v) HT Hr Hin) as [Hrk _].
    simpl fst in Hrk. simpl snd in Hv, Hh.
    destruct (mapped_args_facts v Hv) as [H1 [H2 _]].
    pose proof (Hres (k, v) Hin) as Hres'.
    simpl fst in Hres'. simpl snd in Hres'. rewrite Hres'.
    split; [|split; [exact H1 | lia]].
    destruct n as [|n]; [lia|].
    unfold call_for_key.
    rewrite (prepare_with_args _ cs T v k (Hprep _ k) Ha);
      [| now apply key_in_In | now apply getitem_regular].
    rewrite (prepare_scalar_kwargs _ kw k kw_scalar). cbn [bind].
    apply (Hch (k, v) Hin).
Qed.

(** An operation of numpy called on a Container Tree with the further
    arguments [c] is applied, with them, to every leaf. *)
Lemma np_call_with_args (n : nat) :
  forall x,
    value_ok x = true -> regular_keys x = true -> all_leaves p x = true ->
    S (height x) <= n ->
    np_call ext n f (x :: c) kw = Ok (mapped_child h g x).
Proof.
  induction n as [|n IH]; intros x Hv Hr Hp Hn; [lia|].
  cbn [np_call]. fold (operands (x :: c) kw).
  destruct x; try (simpl in Hv; discriminate Hv).
  - unfold operands. rewrite (scan_scalar_kwargs kw kw_scalar).
    simpl in c_scan |- *. rewrite c_scan. simpl. apply f_array. exact Hp.
  - assert (HT : container_tree (Arraytainer x dt) = true)
      by (unfold container_tree; now rewrite Hv).
    rewrite operands_with_args; auto.
    unfold mapped_child.
    apply manage_args_step; auto; [lia|].
    intros kv Hin.
    destruct (value_ok_children _ kv HT Hin) as [Hcv Hch].
    destruct (children_regular _ kv HT Hr Hin) as [_ Hcr].
    pose proof (children_all_leaves p _ kv HT Hp Hin) as Hcp.
    apply IH; auto. lia.
Qed.

(** The same for a call whose arguments [cs] become [c] when they are
    prepared for a key. *)
Lemma np_call_prepared_args (n : nat) (cs : list pyobj) (T : pyobj) :
  container_tree T = true ->
  regular_keys T = true ->
  all_leaves p T = true ->
  S (height T) <= n ->
  _list_arraytainers_in_args (PTuple cs) = [] ->
  (forall getitem k,
      _prepare_func_args getitem (PTuple cs) k = Ok (PTuple c)) ->
  np_call ext n f (T :: cs) kw = Ok (tmap g T).
Proof.
  intros HT Hr Hp Hn Hscan Hprep.
  destruct n as [|n]; [lia|].
  assert (Ha : is_arraytainer T = true)
    by (unfold container_tree in HT; apply andb_true_iff in HT; tauto).
  cbn [np_call]. fold (operands (T :: cs) kw).
  rewrite operands_with_args; auto.
  apply manage_args_step; auto; [lia|].
  intros kv Hin.
  destruct (value_ok_children _ kv HT Hin) as [Hcv Hch].
  destruct (children_regular _ kv HT Hr Hin) as [_ Hcr].
  pose proof (children_all_leaves p _ kv HT Hp Hin) as Hcp.
  apply np_call_with_args; auto. lia.
Qed.

End MappedWithArguments.

(** ** [reshape] with a shape of ints *)

Lemma scan_ints (s : list Z) :
  _list_arraytainers_in_args (PTuple (map PInt s)) = [].
Proof. simpl. induction s as [|z s IH]; simpl; auto. Qed.

Lemma no_arraytainer_among_ints (s : list Z) :
  existsb is_arraytainer (map PInt s) = false.
Proof. induction s as [|z s IH]; simpl; auto. Qed.

Lemma prepare_ints (getitem : pyobj -> pyobj -> result pyobj) (s : list Z)
    (k : key) :
  _prepare_func_args getitem (PTuple (map PInt s)) k
  = Ok (PTuple (map PInt s)).
Proof.
  simpl.
  assert (H : mapM (fun arg : pyobj =>
                      if is_arraytainer arg
                      then if key_in k (keys arg)
                           then let* v := getitem arg (of_key k) in Ok [v]
                           else Ok []
                      else if is_tuple arg || is_dict arg || is_list arg
                           then let* prepped_arg :=
                                  _prepare_func_args getitem arg k in
                                let* prepped_arg := unwrap_single prepped_arg in
                                Ok [prepped_arg]
                           else Ok [arg]) (map PInt s)
              = Ok (map (fun z => [PInt z]) s)).
  { induction s as [|z s IH]; simpl; auto. rewrite IH. reflexivity. }
  rewrite H. simpl. f_equal. f_equal.
  clear H. induction s as [|z s IH]; simpl; congruence.
Qed.

Lemma shape_spec_ints (s : list Z) : mapM shape_entry (map PInt s) = Ok s.
Proof. induction s as [|z s IH]; simpl; auto. rewrite IH. reflexivity. Qed.

Lemma shape_for_key_prepared (getitem : pyobj -> pyobj -> result pyobj)
    (s : list Z) (k : key) :
  _prepare_func_args getitem (PTuple [PTuple (map PInt s)]) k
  = Ok (PTuple [shape_for_key s]).
Proof.
  pose proof (prepare_ints getitem s k) as H.
  simpl in H |- *.
  destruct (mapM _ (map PInt s)) as [l|]; simpl in H |- *; [|discriminate].
  injection H as H. rewrite H. destruct s as [|z [|z' s]]; reflexivity.
Qed.

Lemma shape_for_key_fixed (getitem : pyobj -> pyobj -> result pyobj)
    (s : list Z) (k : key) :
  _prepare_func_args getitem (PTuple [shape_for_key s]) k
  = Ok (PTuple [shape_for_key s]).
Proof.
  destruct s as [|z [|z' s]]; try reflexivity.
  unfold shape_for_key.
  pose proof (prepare_ints getitem (z :: z' :: s) k) as H.
  simpl in H |- *.
  destruct (mapM _ (map PInt s)) as [l|]; simpl in H |- *; [|discriminate].
  injection H as H. rewrite H. reflexivity.
Qed.

Lemma shape_for_key_scan (s : list Z) :
  _list_arraytainers_in_args (PTuple [shape_for_key s]) = [].
Proof.
  destruct s as [|z [|z' s]]; try reflexivity.
  pose proof (scan_ints (z :: z' :: s)) as H.
  simpl in H |- *. rewrite H. reflexivity.
Qed.

Lemma shape_for_key_spec (s : list Z) : shape_spec (shape_for_key s) = Ok s.
Proof.
  destruct s as [|z [|z' s]]; try reflexivity.
  apply (shape_spec_ints (z :: z' :: s)).
Qed.

Lemma reshape_ints (ext : numpy_ext) (n : nat) (T : pyobj) (s : list Z) :
  container_tree T = true ->
  regular_keys T = true ->
  S (height T) <= n ->
  all_leaves (can_reshape s) T = true ->
  reshape ext n T (map PInt s) = Ok (tmap (reshaped s) T).
Proof.
  intros HT Hr Hn Hp. unfold reshape.
  assert (E : match map PInt s with
              | [x] => if is_sequence x then x else PTuple (map PInt s)
              | _ => PTuple (map PInt s)
              end = PTuple (map PInt s))
    by (destruct s as [|z [|z' s]]; reflexivity).
  rewrite E. cbn [tuple_items]. rewrite no_arraytainer_among_ints.
  cbn [bind].
  apply (np_call_prepared_args ext (np_reshape ext) order_C
           [shape_for_key s] (can_reshape s)
           (fun a => PArr (reshaped s a)) (reshaped s)).
  - apply shape_for_key_scan.
  - intros. apply shape_for_key_fixed.
  - intros a Ha. unfold np_reshape. rewrite shape_for_key_spec. cbn [bind].
    change (asarray ext (PArr a)) with a.
    unfold can_reshape in Ha. unfold reshaped.
    destruct (nd_reshape a s); [reflexivity | discriminate].
  - intros a. repeat split.
  - repeat constructor.
  - exact HT.
  - exact Hr.
  - exact Hp.
  - exact Hn.
  - pose proof (scan_ints s) as H. simpl in H |- *. rewrite H. reflexivity.
  - intros. apply shape_for_key_prepared.
Qed.

Lemma all_leaves_Forall (p : ndarray -> bool) (x : pyobj) :
  value_ok x = true -> all_leaves p x = true ->
  Forall (fun a => p a = true) (leaf_arrays x).
Proof.
  revert x. apply (value_ok_ind (fun x => all_leaves p x = true ->
                      Forall (fun a => p a = true) (leaf_arrays x))).
  - intros a Ha. simpl in *. auto.
  - intros l dt _ IH Hp. simpl in *. rewrite Forall_forall in IH.
    rewrite forallb_forall in Hp. apply Forall_forall. intros a Ha.
    apply in_flat_map in Ha. destruct Ha as [y [Hy Ha]].
    pose proof (IH y Hy (Hp y Hy)) as H. rewrite Forall_forall in H. auto.
  - intros d dt _ _ IH Hp. simpl in *. rewrite Forall_forall in IH.
    rewrite forallb_forall in Hp. apply Forall_forall. intros a Ha.
    apply in_flat_map in Ha. destruct Ha as [y [Hy Ha]].
    pose proof (IH y Hy (Hp y Hy)) as H. rewrite Forall_forall in H. auto.
Qed.

Lemma all_leaves_always (p : ndarray -> bool) (x : pyobj) :
  (forall a, p a = true) -> value_ok x = true -> all_leaves p x = true.
Proof.
  intros Hp. revert x. apply value_ok_ind.
  - intros a. simpl. auto.
  - intros l dt _ IH. simpl. rewrite Forall_forall in IH.
    apply forallb_forall. auto.
  - intros d dt _ _ IH. simpl. rewrite Forall_forall in IH.
    apply forallb_forall. auto.
Qed.

Lemma reshaped_data (s : list Z) (a : ndarray) :
  arr_data (reshaped s a) = arr_data a.
Proof.
  unfold reshaped, nd_reshape.
  destruct (filter _ s) as [|d [|d' l]]; auto.
  - destruct (Nat.eqb _ _); reflexivity.
  - destruct (d =? -1)%Z; auto.
    destruct (_ || _); reflexivity.
Qed.

Lemma reshaped_shape (s : list Z) (a : ndarray) :
  Forall (fun d => (0 <= d)%Z) s -> can_reshape s a = true ->
  arr_shape (reshaped s a) = map Z.to_nat s
  /\ prod_shape (map Z.to_nat s) = nd_size a.
Proof.
  intros Hs. unfold can_reshape, reshaped, nd_reshape.
  assert (E : filter (fun d => (d <? 0)%Z) s = []).
  { induction Hs as [|d s Hd Hs IH]; simpl; auto.
    destruct (Z.ltb_spec d 0); [lia | exact IH]. }
  rewrite E. destruct (Nat.eqb_spec (prod_shape (map Z.to_nat s)) (nd_size a));
    simpl; [auto | discriminate].
Qed.

Lemma reshaped_ravel (a : ndarray) : reshaped [(-1)%Z] a = nd_ravel a.
Proof.
  unfold reshaped, nd_reshape, nd_ravel.
  cbn [filter Z.ltb Z.compare Z.eqb Pos.eqb negb map prod_shape fold_right].
  rewrite Nat.mod_1_r, Nat.div_1_r. reflexivity.
Qed.

Lemma can_reshape_ravel (a : ndarray) : can_reshape [(-1)%Z] a = true.
Proof.
  unfold can_reshape, nd_reshape.
  cbn [filter Z.ltb Z.compare Z.eqb Pos.eqb negb map prod_shape fold_right].
  rewrite Nat.mod_1_r. reflexivity.
Qed.

(** X26.  [reshape] of a Container Tree (keys ints or strings) with a
    shape of ints that numpy accepts for every leaf reshapes every leaf:
    the result has the keys and the elements of the tree, and when no
    entry of the shape is negative, every leaf of it has that shape,
    whose product is the size of each leaf of the tree. *)
Theorem X26_reshape_every_leaf (ext : numpy_ext) (n : nat) (T : pyobj)
    (s : list Z) :
  container_tree T = true ->
  regular_keys T = true ->
  S (height T) <= n ->
  all_leaves (can_reshape s) T = true ->
  exists R,
    reshape ext n T (map PInt s) = Ok R
    /\ R = tmap (reshaped s) T
    /\ keys R = keys T
    /\ flat_data R = flat_data T
    /\ (Forall (fun d => (0 <= d)%Z) s ->
        Forall (fun a => arr_shape a = map Z.to_nat s) (leaf_arrays R)
        /\ Forall (fun a => nd_size a = prod_shape (map Z.to_nat s))
             (leaf_arrays T)).
Proof.
  intros HT Hr Hn Hp.
  pose proof HT as HT'. unfold container_tree in HT'.
  apply andb_true_iff in HT'. destruct HT' as [Ha Hv].
  pose proof (all_leaves_Forall _ T Hv Hp) as Hl.
  rewrite Forall_forall in Hl.
  exists (tmap (reshaped s) T).
  split; [now apply reshape_ints|]. split; [reflexivity|].
  split; [now apply keys_tmap|]. split.
  - unfold flat_data. rewrite leaf_arrays_tmap by auto.
    rewrite map_map. f_equal. apply map_ext. apply reshaped_data.
  - intros Hs. split.
    + rewrite leaf_arrays_tmap by auto. apply Forall_forall.
      intros a Hin. apply in_map_iff in Hin. destruct Hin as [b [<- Hb]].
      apply (reshaped_shape s b Hs (Hl b Hb)).
    + apply Forall_forall. intros a Hin. symmetry.
      apply (reshaped_shape s a Hs (Hl a Hin)).
Qed.

Lemma X26_reshape_every_leaf_witness :
  exists R,
    reshape numpy_fragment 5
      (Arraytainer (PList [arr [2; 3] [1; 2; 3; 4; 5; 6]%Z;
                           arr [6] [7; 8; 9; 10; 11; 12]%Z]) None)
      (map PInt [3; 2]%Z) = Ok R
    /\ R = tmap (reshaped [3; 2]%Z)
             (Arraytainer (PList [arr [2; 3] [1; 2; 3; 4; 5; 6]%Z;
                                  arr [6] [7; 8; 9; 10; 11; 12]%Z]) None)
    /\ keys R
       = keys (Arraytainer (PList [arr [2; 3] [1; 2; 3; 4; 5; 6]%Z;
                                   arr [6] [7; 8; 9; 10; 11; 12]%Z]) None)
    /\ flat_data R
       = flat_data (Arraytainer (PList [arr [2; 3] [1; 2; 3; 4; 5; 6]%Z;
                                        arr [6] [7; 8; 9; 10; 11; 12]%Z]) None)
    /\ (Forall (fun d => (0 <= d)%Z) [3; 2]%Z ->
        Forall (fun a => arr_shape a = map Z.to_nat [3; 2]%Z) (leaf_arrays R)
        /\ Forall (fun a => nd_size a = prod_shape (map Z.to_nat [3; 2]%Z))
             (leaf_arrays
                (Arraytainer (PList [arr [2; 3] [1; 2; 3; 4; 5; 6]%Z;
                                     arr [6] [7; 8; 9; 10; 11; 12]%Z]) None))).
Proof.
  apply (X26_reshape_every_leaf numpy_fragment 5
           (Arraytainer (PList [arr [2; 3] [1; 2; 3; 4; 5; 6]%Z;
                                arr [6] [7; 8; 9; 10; 11; 12]%Z]) None)
           [3; 2]%Z).
  - reflexivity.
  - reflexivity.
  - simpl. lia.
  - reflexivity.
Defined.

(** X27.  [reshape(-1)] of a Container Tree (keys ints or strings)
    always succeeds and flattens every leaf in place: the result has the
    keys and the elements of the tree and every leaf of it has one axis.
    Unlike [flatten], it returns a tree, not one array. *)
Theorem X27_reshape_minus_one (ext : numpy_ext) (n : nat) (T : pyobj) :
  container_tree T = true ->
  regular_keys T = true ->
  S (height T) <= n ->
  exists R,
    reshape ext n T [PInt (-1)] = Ok R
    /\ R = tmap nd_ravel T
    /\ is_arraytainer R = true
    /\ keys R = keys T
    /\ flat_data R = flat_data T
    /\ Forall (fun a => nd_ndim a = 1) (leaf_arrays R).
Proof.
  intros HT Hr Hn.
  pose proof HT as HT'. unfold container_tree in HT'.
  apply andb_true_iff in HT'. destruct HT' as [Ha Hv].
  destruct (tmap_value_ok nd_ravel T Hv) as [_ [_ [_ Ha1]]].
  exists (tmap nd_ravel T).
  split; [|split; [reflexivity|split; [congruence|split; [|split]]]].
  - change [PInt (-1)] with (map PInt [(-1)%Z]).
    rewrite (reshape_ints ext n T [(-1)%Z] HT Hr Hn).
    + f_equal. apply tmap_ext; auto. apply reshaped_ravel.
    + apply all_leaves_always; [apply can_reshape_ravel | exact Hv].
  - now apply keys_tmap.
  - unfold flat_data. rewrite leaf_arrays_tmap by auto.
    rewrite map_map. reflexivity.
  - rewrite leaf_arrays_tmap by auto. apply Forall_forall.
    intros a Hin. apply in_map_iff in Hin. destruct Hin as [b [<- _]].
    reflexivity.
Qed.

Lemma X27_reshape_minus_one_witness :
  exists R,
    reshape numpy_fragment 8 nested_tree [PInt (-1)] = Ok R
    /\ R = tmap nd_ravel nested_tree
    /\ is_arraytainer R = true
    /\ keys R = keys nested_tree
    /\ flat_data R = flat_data nested_tree
    /\ Forall (fun a => nd_ndim a = 1) (leaf_arrays R).
Proof.
  apply (X27_reshape_minus_one numpy_fragment 8 nested_tree).
  - reflexivity.
  - reflexivity.
  - simpl. lia.
Defined.

(** ** Dispatch on a tree with the key [None] *)

Lemma scan_scalar_args (cs : list pyobj) :
  Forall (fun c => scalar_arg c = true) cs ->
  _list_arraytainers_in_args (PTuple cs) = [].
Proof.
  induction 1 as [|c cs Hc Hcs IH]; simpl in *; auto.
  unfold scalar_arg in Hc. rewrite negb_true_iff in Hc.
  destruct (is_arraytainer c), (is_list c), (is_dict c), (is_tuple c);
    try discriminate. simpl. exact IH.
Qed.

Lemma prepare_scalar_args (getitem : pyobj -> pyobj -> result pyobj)
    (cs : list pyobj) (k : key) :
  Forall (fun c => scalar_arg c = true) cs ->
  _prepare_func_args getitem (PTuple cs) k = Ok (PTuple cs).
Proof.
  intros H. simpl.
  rewrite (mapM_ok_map _ (fun c => [c])).
  - simpl. f_equal. f_equal. clear H. induction cs; simpl; congruence.
  - rewrite Forall_forall in *. intros c Hin. specialize (H _ Hin).
    unfold scalar_arg in H. rewrite negb_true_iff in H.
    destruct (is_arraytainer c), (is_list c), (is_dict c), (is_tuple c);
      try discriminate. reflexivity.
Qed.

(** [T[None]] on a tree whose only key is [None]: the tree of the leaf
    with a new axis, again under the key [None]. *)
Lemma getitem_none_only (ext : numpy_ext) (n : nat) (a : ndarray)
    (dt : option dtype) :
  __getitem__ ext n (none_only a dt) PNone = Error RecursionError
  \/ __getitem__ ext n (none_only a dt) PNone
     = Ok (none_only (nd_newaxis a) None).
Proof. destruct n as [|[|[|[|n]]]]; simpl; auto. Qed.

(** The call made for the key [None] is the same call on [T[None]],
    which has the key [None] again: the dispatch never reaches the
    operation, whatever the recursion budget. *)
Lemma none_key_never_returns (ext : numpy_ext) (f : callable)
    (cs : list pyobj) (kw : list (key * pyobj)) :
  Forall (fun c => scalar_arg c = true) cs ->
  Forall (fun kv => scalar_arg (snd kv) = true) kw ->
  forall (n : nat) (a : ndarray) (dt : option dtype),
    np_call ext n f (none_only a dt :: cs) kw = Error RecursionError.
Proof.
  intros Hcs Hkw. induction n as [|n IH]; intros a dt; [reflexivity|].
  cbn [np_call]. fold (operands (none_only a dt :: cs) kw).
  assert (Hops : operands (none_only a dt :: cs) kw = [none_only a dt]).
  { unfold operands. rewrite (scan_scalar_kwargs kw Hkw).
    pose proof (scan_scalar_args cs Hcs) as H. simpl in H |- *.
    rewrite H. reflexivity. }
  rewrite Hops. unfold _manage_func_call.
  fold (operands (none_only a dt :: cs) kw). rewrite Hops.
  change (max_by_len [none_only a dt]) with (Some (none_only a dt)).
  change (_check_arg_compatability [none_only a dt] (none_only a dt))
    with (@Ok unit tt).
  change (_get_shared_keyset [none_only a dt]) with (@Ok (list key) [KNone]).
  cbn [bind contents none_only].
  destruct (copy_deepcopy ext n (PDict [(KNone, PArr a)])) as [c|e] eqn:Ec.
  2:{ destruct n as [|[|n]]; simpl in Ec; inversion Ec; reflexivity. }
  cbn [bind foldM].
  assert (Hp : _prepare_func_args (__getitem__ ext n)
                 (PTuple (none_only a dt :: cs)) KNone
               = Error RecursionError
               \/ _prepare_func_args (__getitem__ ext n)
                    (PTuple (none_only a dt :: cs)) KNone
                  = Ok (PTuple (none_only (nd_newaxis a) None :: cs))).
  { pose proof (prepare_scalar_args (__getitem__ ext n) cs KNone Hcs) as Hc.
    simpl in Hc |- *.
    destruct (getitem_none_only ext n a dt) as [E|E];
      rewrite E; simpl; auto.
    destruct (mapM _ cs) as [l|]; simpl in Hc |- *; [|discriminate].
    injection Hc as Hc. rewrite Hc. auto. }
  destruct Hp as [Hp|Hp]; rewrite Hp; [reflexivity|].
  rewrite (prepare_scalar_kwargs _ kw KNone Hkw).
  cbn [bind tuple_items dict_items]. rewrite IH. reflexivity.
Qed.

(** ** An operation on a tree and a scalar *)

(** C5 (as amended).  For a Container Tree [T] whose keys are ints or
    strings, a numpy operation [op] and a scalar [c] (an argument that
    is no arraytainer, list, dict or tuple), where [op] on a leaf of [T]
    and [c] returns an array or a scalar: the dispatched call [op(T, c)]
    returns an arraytainer over the keys of [T], and at each key [k] it
    holds what the call [op(T[k], c)] itself returns, stored as the
    constructor stores it: an array or an arraytainer as it is, a scalar
    as a zero-dimensional array. *)
Theorem C5_scalar_operand (ext : numpy_ext) (n : nat) (op : callable)
    (T c : pyobj) (p : ndarray -> bool) (h : ndarray -> pyobj) :
  container_tree T = true ->
  regular_keys T = true ->
  scalar_arg c = true ->
  S (height T) <= n ->
  all_leaves p T = true ->
  (forall a, p a = true ->
             op [PArr a; c] [] = Ok (h a) /\ scalar_arg (h a) = true) ->
  exists R,
    np_call ext n op [T; c] [] = Ok R
    /\ keys R = keys T
    /\ dict_like R = dict_like T
    /\ forall k v,
        In (k, v) (items T) ->
        exists r,
          __getitem__ ext n T (of_key k) = Ok v
          /\ np_call ext n op [v; c] [] = Ok r
          /\ contents_get (contents R) k = Ok (as_leaf ext r).
Proof.
  intros HT Hr Hc Hn Hp Hop.
  pose proof HT as HT'. unfold container_tree in HT'.
  apply andb_true_iff in HT'. destruct HT' as [Ha Hv].
  pose (h' := fun a => if p a then h a else PArr a).
  pose (g := fun a => create_array ext (h' a) None).
  assert (Hs : forall a, scalar_arg (h' a) = true).
  { intros a. unfold h'. destruct (p a) eqn:E; [apply (Hop a E) | reflexivity]. }
  assert (Hcall : forall m x,
             value_ok x = true -> regular_keys x = true ->
             all_leaves p x = true -> S (height x) <= m ->
             np_call ext m op [x; c] [] = Ok (mapped_child h' g x)).
  { intros m x Hxv Hxr Hxp Hxm.
    apply (np_call_with_args ext op [] [c] p h' g); auto.
    - apply scan_scalar_args. repeat constructor. exact Hc.
    - intros. apply prepare_scalar_args. repeat constructor. exact Hc.
    - intros a E. unfold h'. rewrite E. apply (Hop a E).
    - intros a. specialize (Hs a). unfold g, as_leaf.
      destruct (h' a); try discriminate Hs; repeat split. }
  destruct (container_tree_keys T HT) as [Hki Hko].
  assert (Hnd : NoDup (map fst (items T)))
    by (rewrite Hki; now apply dict_keys_distinct).
  destruct (items_tmap g T HT) as [Hit Hdl].
  exists (tmap g T). split; [|split; [|split]].
  - rewrite (Hcall n T Hv Hr Hp Hn). destruct T; try discriminate. reflexivity.
  - now apply keys_tmap.
  - exact Hdl.
  - intros k v Hin.
    destruct (value_ok_children T (k, v) HT Hin) as [Hcv Hch].
    destruct (children_regular T (k, v) HT Hr Hin) as [Hrk Hcr].
    pose proof (children_all_leaves p T (k, v) HT Hp Hin) as Hcp.
    simpl fst in Hrk. simpl snd in Hcv, Hch, Hcr, Hcp.
    exists (mapped_child h' g v). split; [|split].
    + destruct n as [|n]; [lia|]. now apply getitem_regular.
    + apply Hcall; auto. lia.
    + assert (Hin' : In (k, tmap g v) (items (tmap g T))).
      { rewrite Hit. apply in_map_iff. exists (k, v). auto. }
      rewrite (contents_get_items (tmap g T) k (tmap g v)); auto.
      * f_equal. destruct v; try discriminate Hcv.
        -- simpl. specialize (Hs a). unfold g, as_leaf.
           destruct (h' a); try discriminate Hs; reflexivity.
        -- symmetry. apply as_leaf_value.
           apply (tmap_value_ok g (Arraytainer v dt) Hcv).
      * rewrite Hit, map_map. simpl. exact Hnd.
Qed.

Lemma C5_scalar_operand_witness :
  exists R,
    np_call numpy_fragment 8 np_add [nested_tree; PInt 10] [] = Ok R
    /\ keys R = keys nested_tree
    /\ dict_like R = dict_like nested_tree
    /\ forall k v,
        In (k, v) (items nested_tree) ->
        exists r,
          __getitem__ numpy_fragment 8 nested_tree (of_key k) = Ok v
          /\ np_call numpy_fragment 8 np_add [v; PInt 10] [] = Ok r
          /\ contents_get (contents R) k = Ok (as_leaf numpy_fragment r).
Proof.
  apply (C5_scalar_operand numpy_fragment 8 np_add nested_tree (PInt 10)
           (fun _ => true)
           (fun a => PArr (mk_ndarray (arr_shape a)
                             (map (fun z => int64_wrap (z + 10))
                                (arr_data a))))).
  - reflexivity.
  - reflexivity.
  - reflexivity.
  - simpl. lia.
  - reflexivity.
  - intros a _. split; reflexivity.
Defined.

(** C5 (the claim as it was stated).  A Container Tree may have the key
    [None] (claim C10), and for such a tree the claim fails: in the tree
    [{None: [1, 2]}] the operation on the leaf and the scalar returns,
    [[1, 2] + 10 = [11, 12]], but the dispatched call never does.  The
    call made for the key [None] looks up [T[None]], which is not the
    child but the whole tree with a new axis on its leaf, so the same
    dispatch starts again, until the recursion limit is hit, whatever
    the operation and whatever the limit. *)
Theorem C5_none_key_never_returns :
  container_tree (none_only (mk_ndarray [2] [1; 2]%Z) None) = true
  /\ np_add [arr [2] [1; 2]%Z; PInt 10] [] = Ok (arr [2] [11; 12]%Z)
  /\ forall (ext : numpy_ext) (n : nat) (op : callable),
      np_call ext n op [none_only (mk_ndarray [2] [1; 2]%Z) None; PInt 10] []
      = Error RecursionError.
Proof.
  split; [reflexivity|]. split; [reflexivity|].
  intros ext n op.
  apply (none_key_never_returns ext op [PInt 10] []).
  - repeat constructor.
  - constructor.
Qed.

(** ** The subset rule of the dispatch *)








